(** * SimpleParsing: field wrappers and dataclass wrappers

    A shallow embedding of [simple_parsing/wrappers.py]: the derivation of
    argparse options from the fields of a dataclass ([FieldWrapper]), and the
    reconstruction of dataclass instances from parsed arguments
    ([DataclassWrapper]).

    Python dictionaries with string keys are [gmap string value]; the
    dictionary objects cached by a [FieldWrapper] live in an explicit store
    of dict objects, since the source clears the cached dict in place and
    hands the same object out on every access. *)

From Stdlib Require Import ZArith.
From stdpp Require Import base tactics option list strings gmap fin_maps pretty.

Set Warnings "-register-all".
Open Scope string_scope.
Open Scope nat_scope.
Open Scope list_scope.

(** ** Python values *)

(** The types a dataclass field can be annotated with. An enumeration is
    given by its member names in definition order; it has no aliases. *)
Inductive pytype : Type :=
| TInt
| TFloat
| TStr
| TBool
| TEnum (name : string) (members : list string)
| TList (item : pytype)
| TTuple (item : pytype)
| TDataclass (name : string)
| TOther (name : string).

(** Modelled from the spec: the converters of [utils] that end up as the
    [type] entry of the options, the permissive boolean-string parser and
    the parser of one group of tokens into a nested list. Only their
    identity matters here. *)
Inductive func : Type :=
| str2bool
| _parse_multiple_containers (t : pytype).

Inductive value : Type :=
| VNone
| VBool (b : bool)
| VInt (n : Z)
| VStr (s : string)
| VList (l : list value)
| VTuple (l : list value)
| VEnum (t : pytype) (member : string)
| VType (t : pytype)
| VFunc (f : func)
| VInstance (cls : string) (attributes : gmap string value).

Abbreviation dict := (gmap string value).

(** Python truthiness, as used by [not] and [if]. *)
Definition truthy (v : value) : bool :=
  match v with
  | VNone => false
  | VBool b => b
  | VInt n => negb (n =? 0)%Z
  | VStr s => negb (String.eqb s "")
  | VList l | VTuple l => match l with [] => false | _ => true end
  | VEnum _ _ | VType _ | VFunc _ | VInstance _ _ => true
  end.

(** [hash(v)] succeeds: lists and the instances of a dataclass that is not
    frozen cannot be hashed, nor can a tuple that holds one. *)
Fixpoint hashable (v : value) : bool :=
  match v with
  | VList _ | VInstance _ _ => false
  | VTuple l => forallb hashable l
  | _ => true
  end.

(** Strings hold the UTF-8 encoding of the text. A character is a leading
    byte with the continuation bytes (10xxxxxx) that follow it. *)
Definition is_continuation (c : Ascii.ascii) : bool :=
  match c with
  | Ascii.Ascii _ _ _ _ _ _ b6 b7 => b7 && negb b6
  end.

(** [list(s)] for a string: its characters, in order. *)
Fixpoint characters (s : string) : list string :=
  match s with
  | EmptyString => []
  | String c rest =>
      let following := characters rest in
      let joins :=
        match rest with
        | String c' _ => is_continuation c'
        | EmptyString => false
        end in
      match following with
      | first :: others =>
          if joins then String c first :: others
          else String c EmptyString :: following
      | [] => [String c EmptyString]
      end
  end.

(** [bool(d)] for a dict: false exactly on the empty dict. *)
Definition dict_truthy (d : dict) : bool := negb (size d =? 0)%nat.

(** ** Exceptions and results *)

Inductive exception : Type :=
| AssertionError (msg : string)
| InconsistentArgumentError (msg : string)
| RuntimeError (msg : string)
| KeyError (key : string)
| IndexError
| TypeError (msg : string).

Inductive result (A : Type) : Type :=
| Ok (a : A)
| Raise (e : exception).
Arguments Ok {A} a.
Arguments Raise {A} e.

#[global] Instance result_ret : MRet result := λ A a, Ok a.
#[global] Instance result_bind : MBind result := λ A B k m,
  match m with
  | Ok a => k a
  | Raise e => Raise e
  end.

(** A [for] loop whose body may raise, threading the loop state. *)
Fixpoint for_each {A S} (body : S → A → result S) (s : S) (l : list A) : result S :=
  match l with
  | [] => Ok s
  | a :: l' => s' ← body s a; for_each body s' l'
  end.

Definition assert_that (condition : bool) (msg : string) : result unit :=
  if condition then Ok () else Raise (AssertionError msg).

Definition is_Ok {A} (r : result A) : Prop := ∃ a, r = Ok a.
Definition raises {A} (r : result A) : Prop := ∃ e, r = Raise e.


(** ** The store of dict objects

    A dict is a mutable object; a location names one. [alloc] is what a dict
    display [{...}] does: it makes a new object, distinct from all others. *)

Abbreviation loc := nat.
Abbreviation store := (list dict).

Definition alloc (d : dict) (σ : store) : loc * store := (length σ, σ ++ [d]).
Definition deref (σ : store) (l : loc) : dict := default ∅ (σ !! l).
Definition clear (l : loc) (σ : store) : store := <[l := ∅]> σ.

(** ** Collaborators: [dataclasses], [enum], [utils], [docstring] *)

Module Field.
(** [dataclasses.Field]; [None] stands for [dataclasses.MISSING]. *)
Record t : Type := mk {
  name : string;
  type : pytype;
  default : option value;
  default_factory : option (unit → value);
  init : bool
}.
End Field.

Module docstring.
(** Modelled from the spec: what the help text supplier of [docstring]
    returns, up to three optional text candidates. A candidate that was not
    found is the empty string, which is false in a condition. *)
Record AttributeDocString : Type := mk {
  comment_above : string;
  comment_inline : string;
  docstring_below : string
}.

Definition present (s : string) : bool := negb (String.eqb s "").
End docstring.

Module Dataclass.
(** Modelled from the spec: the help text supplier
    [docstring.get_attribute_docstring], which is not part of the wrapper
    module, is the table [get_attribute_docstring] from field names to the
    optional text candidates. The rest of the record is a dataclass type:
    its name and its fields in declaration order. *)
Record t : Type := mk {
  name : string;
  fields : list Field.t;
  get_attribute_docstring : string → option docstring.AttributeDocString
}.

(** Field names of a dataclass are pairwise distinct. *)
Definition valid (dc : t) : Prop := NoDup (Field.name <$> fields dc).

Definition init_names (dc : t) : gset string :=
  list_to_set (Field.name <$> filter (λ f, Field.init f = true) (fields dc)).

Definition default_of (f : Field.t) : option value :=
  match Field.default f with
  | Some v => Some v
  | None =>
      match Field.default_factory f with
      | Some factory => Some (factory ())
      | None => None
      end
  end.

(** The generated [__init__], called with keyword arguments only, of a
    dataclass that adds no [__post_init__]: an unexpected keyword and a
    missing argument without default are a [TypeError]; a field that does
    not take part in [__init__] holds its default, if it has one. *)
Definition init_field (kwargs : dict) (attributes : dict) (f : Field.t) : result dict :=
  if Field.init f then
    match kwargs !! Field.name f with
    | Some v => Ok (<[Field.name f := v]> attributes)
    | None =>
        match default_of f with
        | Some v => Ok (<[Field.name f := v]> attributes)
        | None => Raise (TypeError "missing required argument")
        end
    end
  else
    match default_of f with
    | Some v => Ok (<[Field.name f := v]> attributes)
    | None => Ok attributes
    end.

Definition call (dc : t) (kwargs : dict) : result value :=
  if bool_decide (dom kwargs ⊆ init_names dc) then
    attributes ← for_each (init_field kwargs) ∅ (fields dc);
    Ok (VInstance (name dc) attributes)
  else Raise (TypeError "unexpected keyword argument").
End Dataclass.

Module dataclasses.
Definition is_dataclass (t : pytype) : bool :=
  match t with
  | TDataclass _ => true
  | _ => false
  end.
End dataclasses.

Module enum.
(** [enum.Enum in t.mro()] *)
Definition is_enum (t : pytype) : bool :=
  match t with
  | TEnum _ _ => true
  | _ => false
  end.

(** [list(e.name for e in t)] *)
Definition names (t : pytype) : list string :=
  match t with
  | TEnum _ members => members
  | _ => []
  end.

(** [t[key]]: the member of that name. The lookup hashes the key, so a key
    that cannot be hashed is a [TypeError]; the key of the [KeyError] is
    kept when it is a string. *)
Definition getitem (t : pytype) (key : value) : result value :=
  match key with
  | VStr s =>
      if bool_decide (s ∈ names t) then Ok (VEnum t s) else Raise (KeyError s)
  | _ =>
      if hashable key then Raise (KeyError "")
      else Raise (TypeError "unhashable type")
  end.
End enum.

Module utils.
(** Modelled from the spec: the type predicate "is this a list type". *)
Definition is_list (t : pytype) : bool :=
  match t with
  | TList _ => true
  | _ => false
  end.

(** Modelled from the spec: the type predicate "is this a tuple type". *)
Definition is_tuple (t : pytype) : bool :=
  match t with
  | TTuple _ => true
  | _ => false
  end.

(** Modelled from the spec: the type predicate "is this a list or tuple
    type". *)
Definition is_tuple_or_list (t : pytype) : bool := is_list t || is_tuple t.

(** Modelled from the spec: the type predicate "is this a list or tuple of
    record types". *)
Definition is_tuple_or_list_of_dataclasses (t : pytype) : bool :=
  match t with
  | TList item | TTuple item => dataclasses.is_dataclass item
  | _ => false
  end.

(** Modelled from the spec: the element type of a container type. *)
Definition get_argparse_container_type (t : pytype) : pytype :=
  match t with
  | TList item | TTuple item => item
  | _ => t
  end.
End utils.

(** [tuple(v)] and [list(v)] consume an iterable; iterating a string yields
    its characters. *)
Definition iterate (v : value) : result (list value) :=
  match v with
  | VList l | VTuple l => Ok l
  | VStr s => Ok (VStr <$> characters s)
  | VType (TEnum name members) => Ok (VEnum (TEnum name members) <$> members)
  | _ => Raise (TypeError "object is not iterable")
  end.

Definition is_MISSING {A} (o : option A) : bool :=
  match o with
  | Some _ => false
  | None => true
  end.

(** ** [FieldWrapper] *)

Module FieldWrapper.
Record t : Type := mk {
  field : Field.t;
  name_prefix : string;
  _arg_options : loc;
  _docstring : option docstring.AttributeDocString;
  _multiple : bool;
  _required : option bool
}.

(** The generated [__init__] (a new empty dict for [_arg_options]) and
    [__post_init__]. *)
Definition new (field : Field.t) (dataclass : Dataclass.t) (name_prefix : string)
    (σ : store) : t * store :=
  let '(l, σ') := alloc ∅ σ in
  (mk field name_prefix l
      (Dataclass.get_attribute_docstring dataclass (Field.name field))
      false None, σ').

Definition set_arg_options (self : t) (l : loc) : t :=
  mk (field self) (name_prefix self) l (_docstring self)
     (_multiple self) (_required self).

Definition name (self : t) : string :=
  name_prefix self +:+ Field.name (field self).

Definition set_name_prefix (self : t) (value : string) : t :=
  mk (field self) value (_arg_options self) (_docstring self)
     (_multiple self) (_required self).

Definition is_dataclass (self : t) : bool :=
  dataclasses.is_dataclass (Field.type (field self)).

Definition is_tuple_or_list_of_dataclasses (self : t) : bool :=
  utils.is_tuple_or_list_of_dataclasses (Field.type (field self)).

Definition required (self : t) : bool :=
  match _required self with
  | Some b => b
  | None =>
      is_MISSING (Field.default (field self))
      && is_MISSING (Field.default_factory (field self))
  end.

Definition set_required (self : t) (value : bool) : t :=
  mk (field self) (name_prefix self) (_arg_options self) (_docstring self)
     (_multiple self) (Some value).

Definition multiple (self : t) : bool := _multiple self.

(** The setter clears the cached dict object itself, in place. *)
Definition set_multiple (self : t) (value : bool) (σ : store) : t * store :=
  let σ' :=
    if negb (Bool.eqb value (_multiple self))
    then clear (_arg_options self) σ
    else σ in
  (mk (field self) (name_prefix self) (_arg_options self) (_docstring self)
      value (_required self), σ').

(** The blocks of [_get_arg_options], in source order. *)
Definition help_options (self : t) (arg_options : dict) : dict :=
  match _docstring self with
  | Some d =>
      if docstring.present (docstring.docstring_below d)
      then <["help" := VStr (docstring.docstring_below d)]> arg_options
      else if docstring.present (docstring.comment_above d)
      then <["help" := VStr (docstring.comment_above d)]> arg_options
      else if docstring.present (docstring.comment_inline d)
      then <["help" := VStr (docstring.comment_inline d)]> arg_options
      else arg_options
  | None => arg_options
  end.

Definition default_options (f : Field.t) (arg_options : dict) : dict :=
  match Field.default f with
  | Some v => <["default" := v]> arg_options
  | None =>
      match Field.default_factory f with
      | Some factory => <["default" := factory ()]> arg_options
      | None => <["required" := VBool true]> arg_options
      end
  end.

Definition enum_options (f : Field.t) (arg_options : dict) : dict :=
  let arg_options := <["choices" := VList (VStr <$> enum.names (Field.type f))]> arg_options in
  let arg_options := <["type" := VType TStr]> arg_options in
  match arg_options !! "default" with
  | Some (VEnum _ member) => <["default" := VStr member]> arg_options
  | _ => arg_options
  end.

Definition container_options (f : Field.t) (multiple : bool) (arg_options : dict) : dict :=
  let T := utils.get_argparse_container_type (Field.type f) in
  let arg_options := <["nargs" := VStr "*"]> arg_options in
  if multiple
  then <["type" := VFunc (_parse_multiple_containers (Field.type f))]> arg_options
  else <["type" := VType T]> arg_options.

Definition bool_options (f : Field.t) (multiple : bool) (arg_options : dict) : dict :=
  let arg_options :=
    <["default" := match Field.default f with
                   | None => VBool false
                   | Some v => v
                   end]> arg_options in
  let arg_options := <["type" := VFunc str2bool]> arg_options in
  let arg_options := <["nargs" := VStr (if multiple then "*" else "?")]> arg_options in
  if is_MISSING (Field.default f)
  then <["required" := VBool true]> arg_options
  else arg_options.

Definition category_options (f : Field.t) (multiple : bool) (arg_options : dict) : dict :=
  if enum.is_enum (Field.type f) then enum_options f arg_options
  else if utils.is_tuple_or_list (Field.type f) then container_options f multiple arg_options
  else
    match Field.type f with
    | TBool => bool_options f multiple arg_options
    | _ => arg_options
    end.

Definition multiple_options (arg_options : dict) : result dict :=
  let required := default (VBool false) (arg_options !! "required") in
  if truthy required then Ok (<["nargs" := VStr "+"]> arg_options)
  else
    let arg_options := <["nargs" := VStr "*"]> arg_options in
    match arg_options !! "default" with
    | Some d => Ok (<["default" := VList [d]]> arg_options)
    | None => Raise (KeyError "default")
    end.

(** The options before the multiple-mode step. *)
Definition single_options (self : t) : dict :=
  let f := field self in
  let arg_options : dict := {[ "type" := VType (Field.type f) ]} in
  let arg_options := help_options self arg_options in
  let arg_options := default_options f arg_options in
  category_options f (multiple self) arg_options.

Definition _get_arg_options (self : t) : result dict :=
  let f := field self in
  let multiple := multiple self in
  if negb (Field.init f) then Ok ∅
  else if is_dataclass self then Ok ∅
  else if is_tuple_or_list_of_dataclasses self then Ok ∅
  else
    let arg_options := single_options self in
    if multiple then multiple_options arg_options else Ok arg_options.

(** The [arg_options] property: the cached dict object when it is not
    empty, else a newly derived one, which becomes the cached object. *)
Definition arg_options (self : t) (σ : store) : result (loc * t * store) :=
  if dict_truthy (deref σ (_arg_options self)) then Ok (_arg_options self, self, σ)
  else
    d ← _get_arg_options self;
    let '(l, σ') := alloc d σ in
    Ok (l, set_arg_options self l, σ').
End FieldWrapper.

(** ** [DataclassWrapper] *)

Module DataclassWrapper.
Record t : Type := mk {
  dataclass : Dataclass.t;
  fields : list FieldWrapper.t;
  _multiple : bool;
  _required : bool;
  _argument_names_prefix : string
}.

Definition prefix (self : t) : string := _argument_names_prefix self.

Definition set_prefix (self : t) (value : string) : t :=
  mk (dataclass self)
     ((λ wrapped_field, FieldWrapper.set_name_prefix wrapped_field value) <$> fields self)
     (_multiple self) (_required self) value.

Definition required (self : t) : bool := _required self.

Definition set_required (self : t) (value : bool) : t :=
  mk (dataclass self)
     ((λ wrapped_field, FieldWrapper.set_required wrapped_field value) <$> fields self)
     (_multiple self) value (_argument_names_prefix self).

Definition multiple (self : t) : bool := _multiple self.

Fixpoint set_multiple_fields (wrapped : list FieldWrapper.t) (value : bool) (σ : store)
    : list FieldWrapper.t * store :=
  match wrapped with
  | [] => ([], σ)
  | wrapped_field :: rest =>
      let '(wrapped_field', σ') := FieldWrapper.set_multiple wrapped_field value σ in
      let '(rest', σ'') := set_multiple_fields rest value σ' in
      (wrapped_field' :: rest', σ'')
  end.

Definition set_multiple (self : t) (value : bool) (σ : store) : t * store :=
  let '(wrapped, σ') := set_multiple_fields (fields self) value σ in
  (mk (dataclass self) wrapped value (_required self) (_argument_names_prefix self), σ').

(** The loop of [__post_init__]: one wrapper per declared field, appended
    in declaration order. *)
Fixpoint wrap_fields (dataclass : Dataclass.t) (name_prefix : string)
    (declared : list Field.t) (wrapped : list FieldWrapper.t) (σ : store)
    : list FieldWrapper.t * store :=
  match declared with
  | [] => (wrapped, σ)
  | field :: rest =>
      let '(wrapped_field, σ') := FieldWrapper.new field dataclass name_prefix σ in
      wrap_fields dataclass name_prefix rest (wrapped ++ [wrapped_field]) σ'
  end.

Definition new (dataclass : Dataclass.t) (_prefix : string) (σ : store) : t * store :=
  let self := mk dataclass [] false false "" in
  let self := set_prefix self _prefix in
  let '(wrapped, σ') :=
    wrap_fields dataclass (prefix self) (Dataclass.fields dataclass) (fields self) σ in
  (mk dataclass wrapped (_multiple self) (_required self) (_argument_names_prefix self), σ').

Definition inconsistent_message (field_name : string) (values : nat) (expected : Z) : string :=
  "The field '" +:+ field_name +:+ "' contains " +:+ pretty values
    +:+ " values, but either 1 or " +:+ pretty expected +:+ " values were expected.".

(** The body of the loop over the fields in [get_constructor_arguments],
    for instance number [i]. The texts of the two assertions that print
    the whole dict stop before the dict. *)
Definition instance_argument (self : t) (args_dict : dict) (num_instances_to_parse : Z)
    (i : nat) (instance_arguments : dict) (wrapped_field : FieldWrapper.t) : result dict :=
  let f := FieldWrapper.field wrapped_field in
  if negb (Field.init f) then Ok instance_arguments
  else if FieldWrapper.is_dataclass wrapped_field then Ok instance_arguments
  else
    _ ← assert_that (negb (FieldWrapper.is_tuple_or_list_of_dataclasses wrapped_field))
          "Shouldn't have been allowed";
    match args_dict !! FieldWrapper.name wrapped_field with
    | None => Raise (AssertionError (Field.name f +:+ " is not in the arguments dict"))
    | Some value =>
        if multiple self then
          match value with
          | VList l =>
              if (length l =? 1)%nat then
                match l !! 0%nat with
                | Some x => Ok (<[Field.name f := x]> instance_arguments)
                | None => Raise IndexError
                end
              else if (Z.of_nat (length l) =? num_instances_to_parse)%Z then
                match l !! i with
                | Some x => Ok (<[Field.name f := x]> instance_arguments)
                | None => Raise IndexError
                end
              else
                Raise (InconsistentArgumentError
                         (inconsistent_message (Field.name f) (length l)
                            num_instances_to_parse))
          | _ => Raise (AssertionError "all fields should have gotten a list default value...")
          end
        else Ok (<[Field.name f := value]> instance_arguments)
    end.

Definition get_constructor_arguments (self : t) (args_dict : dict)
    (num_instances_to_parse : Z) : result (list dict) :=
  _ ← (if multiple self
       then assert_that (1 <? num_instances_to_parse)%Z
              "multiple is true but we're expected to instantiate only one instance"
       else assert_that (num_instances_to_parse =? 1)%Z
              "multiple is false but we're expected to instantiate more than one instance");
  for_each
    (λ (constructor_arguments : list dict) (i : nat),
       instance_arguments ←
         for_each (instance_argument self args_dict num_instances_to_parse i)
           ∅ (fields self);
       Ok (constructor_arguments ++ [instance_arguments]))
    [] (seq 0 (Z.to_nat num_instances_to_parse)).

(** The body of the loop over the fields in [instantiate_dataclass]. The
    text of the [RuntimeError] stops before the printed value. *)
Definition constructor_arg (args_dict : dict) (constructor_args : dict)
    (wrapped_field : FieldWrapper.t) : result dict :=
  let f := FieldWrapper.field wrapped_field in
  if negb (Field.init f) then Ok constructor_args
  else
    match args_dict !! Field.name f with
    | None => Raise (KeyError (Field.name f))
    | Some value =>
        _ ← assert_that (negb (FieldWrapper.is_tuple_or_list_of_dataclasses wrapped_field))
              "Shouldn't have attributes that are containers of dataclasses!";
        if enum.is_enum (Field.type f) then
          member ← enum.getitem (Field.type f) value;
          Ok (<[Field.name f := member]> constructor_args)
        else if utils.is_tuple (Field.type f) then
          items ← iterate value;
          Ok (<[Field.name f := VTuple items]> constructor_args)
        else if utils.is_list (Field.type f) then
          items ← iterate value;
          Ok (<[Field.name f := VList items]> constructor_args)
        else
          match Field.type f with
          | TBool =>
              let default_value :=
                match Field.default f with
                | None => VBool false
                | Some v => v
                end in
              match value with
              | VNone => Ok (<[Field.name f := VBool (negb (truthy default_value))]> constructor_args)
              | VBool _ => Ok (<[Field.name f := value]> constructor_args)
              | _ => Raise (RuntimeError ("bool argument " +:+ Field.name f +:+ " isn't bool"))
              end
          | _ => Ok (<[Field.name f := value]> constructor_args)
          end
    end.

Definition instantiate_dataclass (self : t) (args_dict : dict) : result value :=
  constructor_args ← for_each (constructor_arg args_dict) ∅ (fields self);
  Dataclass.call (dataclass self) constructor_args.
End DataclassWrapper.

(** * Vocabulary of the properties *)

(** A field is exposed as a flag when none of the three early returns of
    [_get_arg_options] fires. *)
Definition exposed (self : FieldWrapper.t) : bool :=
  Field.init (FieldWrapper.field self)
  && negb (FieldWrapper.is_dataclass self)
  && negb (FieldWrapper.is_tuple_or_list_of_dataclasses self).

(** What the enumeration block makes of a default: an enum member becomes
    its name. *)
Definition normalized (f : Field.t) (v : value) : value :=
  if enum.is_enum (Field.type f) then
    match v with
    | VEnum _ member => VStr member
    | _ => v
    end
  else v.

(** What the multiple-mode block makes of a default: a single-element list. *)
Definition listed (multiple : bool) (v : value) : value :=
  if multiple then VList [v] else v.

Definition is_bool (t : pytype) : bool :=
  match t with
  | TBool => true
  | _ => false
  end.

(** The cached dict of a wrapper is either empty or the derived options. *)
Definition coherent (self : FieldWrapper.t) (σ : store) : Prop :=
  deref σ (FieldWrapper._arg_options self) = ∅
  ∨ FieldWrapper._get_arg_options self = Ok (deref σ (FieldWrapper._arg_options self)).

(** Concrete fields and records used to exercise the statements. *)
Module Examples.
Definition Color : pytype := TEnum "Color" ["RED"; "GREEN"; "BLUE"].

Definition no_docs : string → option docstring.AttributeDocString := λ _, None.

Definition count : Field.t := Field.mk "count" TInt (Some (VInt 5)) None true.
Definition color : Field.t :=
  Field.mk "color" Color (Some (VEnum Color "GREEN")) None true.
Definition flag : Field.t := Field.mk "flag" TBool (Some (VBool false)) None true.
Definition lazy_flag : Field.t :=
  Field.mk "lazy_flag" TBool None (Some (λ _, VBool true)) true.
Definition sizes : Field.t := Field.mk "sizes" (TList TInt) None None true.
Definition child : Field.t := Field.mk "child" (TDataclass "Child") None None true.
Definition children : Field.t :=
  Field.mk "children" (TList (TDataclass "Child")) None None true.
Definition derived_color : Field.t :=
  Field.mk "color" Color (Some (VEnum Color "GREEN")) None false.

(** A wrapper as [FieldWrapper.new] leaves it, with the given mode. *)
Definition wrap (f : Field.t) (multiple : bool) : FieldWrapper.t :=
  FieldWrapper.mk f "" 0 None multiple None.

Definition Config : Dataclass.t :=
  Dataclass.mk "Config" [count; color; flag; sizes] no_docs.
Definition Team : Dataclass.t := Dataclass.mk "Team" [children] no_docs.
Definition Palette : Dataclass.t := Dataclass.mk "Palette" [derived_color] no_docs.

(** The wrapper of a record as the constructor leaves it, and after
    [multiple] has been set. *)
Definition single (dc : Dataclass.t) (prefix : string) : DataclassWrapper.t :=
  (DataclassWrapper.new dc prefix []).1.
Definition several (dc : Dataclass.t) (prefix : string) : DataclassWrapper.t :=
  (DataclassWrapper.set_multiple (DataclassWrapper.new dc prefix []).1 true
     (DataclassWrapper.new dc prefix []).2).1.
End Examples.

(** The default block read on its own: what the options would hold if no
    later block touched [default] and [required]. *)
Definition default_block_rule (f : Field.t) (d : dict) : Prop :=
  match Field.default f, Field.default_factory f with
  | Some v, _ => d !! "default" = Some v ∧ d !! "required" = None
  | None, Some factory => d !! "default" = Some (factory ())
  | None, None => d !! "required" = Some (VBool true)
  end.

(** The shape shared by the loops over the fields: a field selected by [p]
    contributes the entry [k a := x] where [g a] yields [x]; the other
    fields are skipped. *)
Definition keyed_step {A} (p : A → bool) (g : A → result value) (k : A → string)
    (acc : dict) (a : A) : result dict :=
  if p a then x ← g a; Ok (<[k a := x]> acc) else Ok acc.

(** The shape of the loop over the instances: one dict appended per round. *)
Definition collect_step {A} (inner : A → result dict) (acc : list dict) (a : A)
    : result (list dict) :=
  d ← inner a; Ok (acc ++ [d]).

(** ** [get_constructor_arguments] *)

(** The fields that [get_constructor_arguments] does not skip. *)
Definition considered (wrapped_field : FieldWrapper.t) : bool :=
  Field.init (FieldWrapper.field wrapped_field)
  && negb (FieldWrapper.is_dataclass wrapped_field).

Definition declared_name (wrapped_field : FieldWrapper.t) : string :=
  Field.name (FieldWrapper.field wrapped_field).

(** The value that instance [i] receives for a considered field. *)
Definition chosen (multiple : bool) (args_dict : dict) (num_instances_to_parse : Z)
    (i : nat) (wrapped_field : FieldWrapper.t) : result value :=
  _ ← assert_that (negb (FieldWrapper.is_tuple_or_list_of_dataclasses wrapped_field))
        "Shouldn't have been allowed";
  match args_dict !! FieldWrapper.name wrapped_field with
  | None => Raise (AssertionError (declared_name wrapped_field +:+ " is not in the arguments dict"))
  | Some value =>
      if multiple then
        match value with
        | VList l =>
            if (length l =? 1)%nat then
              match l !! 0%nat with
              | Some x => Ok x
              | None => Raise IndexError
              end
            else if (Z.of_nat (length l) =? num_instances_to_parse)%Z then
              match l !! i with
              | Some x => Ok x
              | None => Raise IndexError
              end
            else
              Raise (InconsistentArgumentError
                       (DataclassWrapper.inconsistent_message (declared_name wrapped_field)
                          (length l) num_instances_to_parse))
        | _ => Raise (AssertionError "all fields should have gotten a list default value...")
        end
      else Ok value
  end.

(** A field that [get_constructor_arguments] gets through: skipped, or not a
    container of dataclasses and present in the arguments, in multiple mode
    as a list of length 1 or of the number of instances. *)
Definition accepted (multiple : bool) (args_dict : dict) (num_instances_to_parse : Z)
    (wrapped_field : FieldWrapper.t) : bool :=
  negb (considered wrapped_field)
  || (negb (FieldWrapper.is_tuple_or_list_of_dataclasses wrapped_field)
      && match args_dict !! FieldWrapper.name wrapped_field with
         | None => false
         | Some value =>
             if multiple then
               match value with
               | VList l =>
                   (length l =? 1)%nat || (Z.of_nat (length l) =? num_instances_to_parse)%Z
               | _ => false
               end
             else true
         end).

(** The precondition on the number of instances. *)
Definition mode_agrees (multiple : bool) (num_instances_to_parse : Z) : bool :=
  if multiple then (1 <? num_instances_to_parse)%Z else (num_instances_to_parse =? 1)%Z.

(** ** [instantiate_dataclass] *)

Definition participates (wrapped_field : FieldWrapper.t) : bool :=
  Field.init (FieldWrapper.field wrapped_field).

(** The constructor argument made from the parsed value of a field that
    participates in construction. *)
Definition materialized (args_dict : dict) (wrapped_field : FieldWrapper.t) : result value :=
  let f := FieldWrapper.field wrapped_field in
  match args_dict !! Field.name f with
  | None => Raise (KeyError (Field.name f))
  | Some value =>
      _ ← assert_that (negb (FieldWrapper.is_tuple_or_list_of_dataclasses wrapped_field))
            "Shouldn't have attributes that are containers of dataclasses!";
      if enum.is_enum (Field.type f) then enum.getitem (Field.type f) value
      else if utils.is_tuple (Field.type f) then items ← iterate value; Ok (VTuple items)
      else if utils.is_list (Field.type f) then items ← iterate value; Ok (VList items)
      else
        match Field.type f with
        | TBool =>
            let default_value :=
              match Field.default f with
              | None => VBool false
              | Some v => v
              end in
            match value with
            | VNone => Ok (VBool (negb (truthy default_value)))
            | VBool _ => Ok value
            | _ => Raise (RuntimeError ("bool argument " +:+ Field.name f +:+ " isn't bool"))
            end
        | _ => Ok value
        end
  end.

(** The fields that the generated [__init__] gives a value, and the value. *)
Definition assigned (f : Field.t) : bool :=
  Field.init f || bool_decide (is_Some (Dataclass.default_of f)).

Definition attribute_of (kwargs : dict) (f : Field.t) : result value :=
  match (if Field.init f then kwargs !! Field.name f else None) with
  | Some v => Ok v
  | None =>
      match Dataclass.default_of f with
      | Some v => Ok v
      | None => Raise (TypeError "missing required argument")
      end
  end.

(** Attribute access on an instance. *)
Definition getattr (instance : value) (name : string) : option value :=
  match instance with
  | VInstance _ attributes => attributes !! name
  | _ => None
  end.

(** A wrapper holds one field wrapper per declared field, in order; the
    constructor makes it so and no setter changes it. *)
Definition well_formed (self : DataclassWrapper.t) : Prop :=
  FieldWrapper.field <$> DataclassWrapper.fields self
  = Dataclass.fields (DataclassWrapper.dataclass self).

(** ** Later uses of a field wrapper

    What a caller may do with a wrapper other than setting [required]. *)
Inductive access : Type :=
| Set_name_prefix (value : string)
| Set_multiple (value : bool)
| Get_arg_options
| Get_required.

Definition perform (state : FieldWrapper.t * store) (a : access)
    : result (FieldWrapper.t * store) :=
  let '(self, σ) := state in
  match a with
  | Set_name_prefix value => Ok (FieldWrapper.set_name_prefix self value, σ)
  | Set_multiple value => Ok (FieldWrapper.set_multiple self value σ)
  | Get_arg_options =>
      match FieldWrapper.arg_options self σ with
      | Ok (_, self', σ') => Ok (self', σ')
      | Raise e => Raise e
      end
  | Get_required => let _ := FieldWrapper.required self in Ok (self, σ)
  end.

(** * The derivation of the options *)

Section derivation.
Import FieldWrapper.

Lemma get_arg_options_hidden self :
  exposed self = false → _get_arg_options self = Ok ∅.
Proof.
  unfold exposed, _get_arg_options.
  destruct (Field.init (field self)), (is_dataclass self),
    (is_tuple_or_list_of_dataclasses self); simpl; done.
Qed.

Lemma get_arg_options_exposed self :
  exposed self = true →
  _get_arg_options self =
    if multiple self then multiple_options (single_options self)
    else Ok (single_options self).
Proof.
  unfold exposed, _get_arg_options.
  destruct (Field.init (field self)), (is_dataclass self),
    (is_tuple_or_list_of_dataclasses self); simpl; done.
Qed.

(** After the default block exactly one of [default] and [required] is
    set; the category blocks keep it that way, except that a boolean
    field ends with both when it has no value default. *)
Lemma default_options_required f (o : dict) :
  o !! "required" = None →
  default_options f o !! "required" = Some (VBool true)
  ∨ (default_options f o !! "required" = None
     ∧ is_Some (default_options f o !! "default")).
Proof.
  intros Ho. unfold default_options.
  destruct (Field.default f) as [v|]; [|destruct (Field.default_factory f) as [g|]].
  - right. rewrite lookup_insert_ne by done. rewrite lookup_insert_eq. eauto.
  - right. rewrite lookup_insert_ne by done. rewrite lookup_insert_eq. eauto.
  - left. by rewrite lookup_insert_eq.
Qed.

Lemma help_options_lookup self (o : dict) key :
  key ≠ "help" → help_options self o !! key = o !! key.
Proof.
  intros Hk. unfold help_options.
  destruct (_docstring self) as [d|]; [|done].
  repeat case_match; rewrite ?lookup_insert_ne by congruence; done.
Qed.

Lemma enum_options_required f (o : dict) :
  enum_options f o !! "required" = o !! "required".
Proof.
  unfold enum_options. cbv zeta.
  repeat case_match; rewrite !lookup_insert_ne by done; done.
Qed.

Lemma enum_options_default f (o : dict) :
  enum_options f o !! "default" =
    match o !! "default" with
    | Some (VEnum _ member) => Some (VStr member)
    | other => other
    end.
Proof.
  unfold enum_options. cbv zeta. rewrite !lookup_insert_ne by done.
  destruct (o !! "default") as [[]|] eqn:Ho;
    rewrite ?lookup_insert_eq, ?lookup_insert_ne by done; done.
Qed.

Lemma container_options_lookup f m (o : dict) key :
  key ≠ "nargs" → key ≠ "type" → container_options f m o !! key = o !! key.
Proof.
  intros. unfold container_options.
  destruct m; rewrite !lookup_insert_ne by congruence; done.
Qed.

Lemma single_options_required self :
  single_options self !! "required" = Some (VBool true)
  ∨ (single_options self !! "required" = None
     ∧ is_Some (single_options self !! "default")).
Proof.
  unfold single_options.
  set (o := help_options self _).
  assert (Ho : o !! "required" = None).
  { subst o. rewrite help_options_lookup by done. done. }
  pose proof (default_options_required (field self) o Ho) as Hd.
  unfold category_options.
  destruct (enum.is_enum _).
  { rewrite enum_options_required, enum_options_default.
    destruct Hd as [Hd|[Hd [v Hv]]]; [by left|right].
    split; [done|]. rewrite Hv. destruct v; eauto. }
  destruct (utils.is_tuple_or_list _).
  { by rewrite !container_options_lookup. }
  destruct (Field.type (field self)); try done.
  unfold bool_options, default_options in *.
  destruct (Field.default (field self)) as [v|]; simpl.
  - right. rewrite !lookup_insert_ne by done. rewrite lookup_insert_eq.
    split; [done|eauto].
  - left. by rewrite lookup_insert_eq.
Qed.

Lemma multiple_options_total (o : dict) :
  o !! "required" = Some (VBool true)
  ∨ (o !! "required" = None ∧ is_Some (o !! "default")) →
  ∃ d, multiple_options o = Ok d.
Proof.
  unfold multiple_options. intros [->|[-> [v Hv]]]; simpl; [eauto|].
  rewrite lookup_insert_ne by done. rewrite Hv. eauto.
Qed.

(** The derivation never raises. *)
Lemma get_arg_options_total self : ∃ d, _get_arg_options self = Ok d.
Proof.
  destruct (exposed self) eqn:He.
  - rewrite get_arg_options_exposed by done.
    destruct (multiple self); [|eauto].
    apply multiple_options_total, single_options_required.
  - rewrite get_arg_options_hidden by done. eauto.
Qed.

Lemma multiple_options_lookup (o d : dict) :
  multiple_options o = Ok d →
  d !! "required" = o !! "required"
  ∧ (o !! "required" = Some (VBool true) →
     d !! "nargs" = Some (VStr "+") ∧ d !! "default" = o !! "default")
  ∧ (o !! "required" = None →
     d !! "nargs" = Some (VStr "*")
     ∧ ∃ v, o !! "default" = Some v ∧ d !! "default" = Some (VList [v]))
  ∧ (∀ key, key ≠ "nargs" → key ≠ "default" → d !! key = o !! key).
Proof.
  unfold multiple_options. cbv zeta.
  destruct (o !! "required") as [r|] eqn:Hr; simpl;
    [destruct (truthy r) eqn:Ht|].
  - intros [= <-]. split_and!.
    + by rewrite lookup_insert_ne.
    + intros _. rewrite lookup_insert_eq. by rewrite lookup_insert_ne.
    + done.
    + intros key ? ?. by rewrite lookup_insert_ne.
  - rewrite lookup_insert_ne by done.
    destruct (o !! "default") as [v|] eqn:Hv; [|done].
    intros [= <-]. split_and!.
    + by rewrite !lookup_insert_ne.
    + intros [= ->]. done.
    + done.
    + intros key ? ?. by rewrite !lookup_insert_ne.
  - rewrite lookup_insert_ne by done.
    destruct (o !! "default") as [v|] eqn:Hv; [|done].
    intros [= <-]. split_and!.
    + by rewrite !lookup_insert_ne.
    + done.
    + intros _. rewrite lookup_insert_ne by done. rewrite !lookup_insert_eq. eauto.
    + intros key ? ?. by rewrite !lookup_insert_ne.
Qed.

Ltac options_lookup :=
  repeat first
    [ rewrite lookup_insert_eq
    | rewrite lookup_insert_ne by done
    | rewrite help_options_lookup by done
    | rewrite enum_options_required
    | rewrite enum_options_default
    | rewrite lookup_singleton_eq
    | rewrite lookup_singleton_ne by done ].

Lemma single_options_default self :
  let f := field self in
  single_options self !! "default" =
    if is_bool (Field.type f)
    then Some (match Field.default f with None => VBool false | Some v => v end)
    else normalized f <$> Dataclass.default_of f.
Proof.
  unfold single_options, category_options, normalized, Dataclass.default_of,
    default_options, bool_options, container_options.
  destruct (Field.type (field self)) eqn:Ht; simpl;
    destruct (Field.default (field self)) as [v|];
    try destruct (Field.default_factory (field self)) as [g|]; simpl;
    try destruct (multiple self); options_lookup; try done.
  all: by case_match.
Qed.

Lemma single_options_required_lookup self :
  let f := field self in
  single_options self !! "required" =
    if is_MISSING (Field.default f)
       && (is_bool (Field.type f) || is_MISSING (Field.default_factory f))
    then Some (VBool true) else None.
Proof.
  unfold single_options, category_options,
    default_options, bool_options, container_options.
  destruct (Field.type (field self)) eqn:Ht; simpl;
    destruct (Field.default (field self)) as [v|];
    try destruct (Field.default_factory (field self)) as [g|]; simpl;
    try destruct (multiple self); options_lookup; done.
Qed.

Lemma enum_options_lookup f (o : dict) key :
  key ≠ "choices" → key ≠ "type" → key ≠ "default" →
  enum_options f o !! key = o !! key.
Proof.
  intros. unfold enum_options. cbv zeta.
  repeat case_match; rewrite !lookup_insert_ne by congruence; done.
Qed.

Lemma enum_options_choices f (o : dict) :
  enum_options f o !! "choices" = Some (VList (VStr <$> enum.names (Field.type f)))
  ∧ enum_options f o !! "type" = Some (VType TStr).
Proof.
  unfold enum_options. cbv zeta.
  repeat case_match; options_lookup; done.
Qed.
End derivation.

(** * The cache of derived options *)

Section cache.
Import FieldWrapper.

Lemma dict_truthy_false (d : dict) : dict_truthy d = false ↔ d = ∅.
Proof.
  unfold dict_truthy. rewrite negb_false_iff, Nat.eqb_eq.
  apply map_size_empty_iff.
Qed.

Lemma dict_truthy_true (d : dict) : dict_truthy d = true ↔ d ≠ ∅.
Proof.
  rewrite <- dict_truthy_false. destruct (dict_truthy d); naive_solver.
Qed.

Lemma deref_alloc_new (σ : store) d : deref (σ ++ [d]) (length σ) = d.
Proof. unfold deref. by rewrite list_lookup_middle. Qed.

Lemma deref_alloc_old (σ : store) d l : l < length σ → deref (σ ++ [d]) l = deref σ l.
Proof. intros. unfold deref. by rewrite lookup_app_l. Qed.

Lemma deref_clear (σ : store) l : deref (clear l σ) l = ∅.
Proof.
  unfold deref, clear. destruct (decide (l < length σ)).
  - by rewrite list_lookup_insert_eq.
  - rewrite list_insert_ge by lia. rewrite lookup_ge_None_2 by lia. done.
Qed.

Lemma length_clear (σ : store) l : length (clear l σ) = length σ.
Proof. apply length_insert. Qed.

Lemma arg_options_cached self σ :
  deref σ (_arg_options self) ≠ ∅ →
  arg_options self σ = Ok (_arg_options self, self, σ).
Proof.
  intros H%dict_truthy_true. unfold arg_options. by rewrite H.
Qed.

Lemma arg_options_derive self σ d :
  deref σ (_arg_options self) = ∅ →
  _get_arg_options self = Ok d →
  arg_options self σ = Ok (length σ, set_arg_options self (length σ), σ ++ [d]).
Proof.
  intros H%dict_truthy_false Hd. unfold arg_options. rewrite H, Hd. done.
Qed.

(** The derivation reads the field, the docstring and the mode only. *)
Lemma get_arg_options_ext self self' :
  field self = field self' →
  _docstring self = _docstring self' →
  _multiple self = _multiple self' →
  _get_arg_options self = _get_arg_options self'.
Proof.
  destruct self, self'; simpl; intros -> -> ->. reflexivity.
Qed.

Lemma single_options_type self : is_Some (single_options self !! "type").
Proof.
  unfold single_options, category_options.
  destruct (enum.is_enum _).
  { rewrite (proj2 (enum_options_choices _ _)). eauto. }
  destruct (utils.is_tuple_or_list _).
  { unfold container_options. destruct (multiple self); rewrite lookup_insert_eq; eauto. }
  assert (Hb : is_Some (default_options (field self)
              (help_options self {["type" := VType (Field.type (field self))]}) !! "type")).
  { unfold default_options. repeat case_match;
      rewrite lookup_insert_ne by done;
      rewrite help_options_lookup by done;
      rewrite lookup_singleton_eq; eauto. }
  destruct (Field.type (field self)); try done.
  unfold bool_options. case_match; rewrite ?lookup_insert_ne by done;
    rewrite lookup_insert_eq; eauto.
Qed.

Lemma exposed_options_nonempty self d :
  exposed self = true → _get_arg_options self = Ok d → d ≠ ∅.
Proof.
  intros He. rewrite get_arg_options_exposed by done.
  destruct (single_options_type self) as [ty Hty].
  destruct (multiple self).
  - intros Hd. apply multiple_options_lookup in Hd as (_ & _ & _ & Hkeys).
    intros ->. specialize (Hkeys "type"). rewrite Hty, lookup_empty in Hkeys.
    by specialize (Hkeys ltac:(done) ltac:(done)).
  - intros [= <-] Hempty. by rewrite Hempty, lookup_empty in Hty.
Qed.

(** Coherence is kept by every operation of the wrapper. *)
Lemma new_coherent f dc p σ :
  coherent (new f dc p σ).1 (new f dc p σ).2.
Proof. left. simpl. apply deref_alloc_new. Qed.

Lemma set_multiple_coherent self value σ :
  coherent self σ →
  coherent (set_multiple self value σ).1 (set_multiple self value σ).2.
Proof.
  intros Hc. unfold coherent, set_multiple. simpl.
  destruct (Bool.eqb value (_multiple self)) eqn:Hv; simpl.
  - apply Bool.eqb_prop in Hv as ->.
    destruct Hc as [Hc|Hc]; [by left|right].
    rewrite <- Hc. by apply get_arg_options_ext.
  - left. apply deref_clear.
Qed.

Lemma set_required_coherent self value σ :
  coherent self σ → coherent (set_required self value) σ.
Proof.
  intros [Hc|Hc]; [by left|right]. simpl. rewrite <- Hc.
  by apply get_arg_options_ext.
Qed.

Lemma set_name_prefix_coherent self value σ :
  coherent self σ → coherent (set_name_prefix self value) σ.
Proof.
  intros [Hc|Hc]; [by left|right]. simpl. rewrite <- Hc.
  by apply get_arg_options_ext.
Qed.

Lemma arg_options_coherent self σ l self' σ' :
  coherent self σ →
  arg_options self σ = Ok (l, self', σ') →
  coherent self' σ' ∧ _arg_options self' = l
  ∧ _get_arg_options self = Ok (deref σ' l).
Proof.
  intros Hc. destruct (decide (deref σ (_arg_options self) = ∅)) as [He|Hne].
  - destruct (get_arg_options_total self) as [d Hd].
    rewrite (arg_options_derive _ _ d) by done. intros [= <- <- <-].
    simpl. rewrite deref_alloc_new. split_and!; [|done..].
    right. simpl. rewrite deref_alloc_new, <- Hd. by apply get_arg_options_ext.
  - rewrite arg_options_cached by done. intros [= <- <- <-].
    destruct Hc as [Hc|Hc]; [done|].
    split_and!; [by right|done|done].
Qed.
End cache.

(** * Derived options: the claims *)

Section derivation_claims.
Import FieldWrapper.

Lemma get_arg_options_multiple self :
  exposed self = true → multiple self = true →
  ∃ d, _get_arg_options self = Ok d ∧ multiple_options (single_options self) = Ok d.
Proof.
  intros He Hm. rewrite get_arg_options_exposed, Hm by done.
  destruct (multiple_options_total (single_options self)
              (single_options_required self)) as [d Hd]. eauto.
Qed.

Lemma get_arg_options_listed self :
  exposed self = true →
  ∃ d, _get_arg_options self = Ok d
    ∧ d !! "required" = single_options self !! "required"
    ∧ (single_options self !! "required" = None →
       d !! "default" = listed (multiple self) <$> single_options self !! "default")
    ∧ (∀ key, key ≠ "nargs" → key ≠ "default" → d !! key = single_options self !! key).
Proof.
  intros He. destruct (multiple self) eqn:Hm.
  - destruct (get_arg_options_multiple self He Hm) as (d & Hd & Hmo).
    exists d. split; [done|].
    apply multiple_options_lookup in Hmo as (Hr & _ & Hnone & Hkeys).
    split_and!; [done| |done].
    intros Hreq. destruct (Hnone Hreq) as (_ & v & -> & ->). done.
  - rewrite get_arg_options_exposed, Hm by done.
    eexists. split; [done|]. split_and!; [done| |done].
    intros _. unfold listed. by destruct (_ !! "default").
Qed.
End derivation_claims.

(** C6. For every field whose type is a nested record or a list or tuple of
    records, and for every field that does not participate in construction,
    the derived options are the empty map, whatever [multiple] and the
    defaults are: the derivation returns the empty dict, and the
    [arg_options] property of a wrapper with a coherent cache hands out an
    empty dict. *)
Theorem hidden_fields_have_no_options (self : FieldWrapper.t) :
  Field.init (FieldWrapper.field self) = false
  ∨ FieldWrapper.is_dataclass self = true
  ∨ FieldWrapper.is_tuple_or_list_of_dataclasses self = true →
  FieldWrapper._get_arg_options self = Ok ∅
  ∧ ∀ σ, coherent self σ →
      ∃ l self' σ', FieldWrapper.arg_options self σ = Ok (l, self', σ') ∧ deref σ' l = ∅.
Proof.
  intros Hhidden.
  assert (He : exposed self = false).
  { unfold exposed. destruct Hhidden as [->|[->| ->]]; simpl;
      rewrite ?andb_false_r; done. }
  pose proof (get_arg_options_hidden self He) as Hd.
  split; [done|]. intros σ Hc.
  assert (Hempty : deref σ (FieldWrapper._arg_options self) = ∅).
  { destruct Hc as [Hc|Hc]; [done|]. rewrite Hd in Hc. by injection Hc. }
  rewrite (arg_options_derive self σ ∅) by done.
  do 3 eexists. split; [done|]. apply deref_alloc_new.
Qed.

Lemma hidden_fields_have_no_options_witness :
  FieldWrapper._get_arg_options (Examples.wrap Examples.child true) = Ok ∅
  ∧ ∃ l self' σ',
      FieldWrapper.arg_options (Examples.wrap Examples.child true) [∅] = Ok (l, self', σ')
      ∧ deref σ' l = ∅.
Proof.
  destruct (hidden_fields_have_no_options (Examples.wrap Examples.child true)) as [H1 H2].
  { right; left; reflexivity. }
  split; [exact H1|]. apply H2. left; reflexivity.
Defined.

(** C4, as stated, fails: the finalization is not regardless of type
    category. In multiple mode a nested record, a container of records and
    a field that does not participate in construction all get the empty
    options: [required] is not true, and there is neither [nargs] nor a
    wrapped [default]. *)
Lemma multiple_mode_nargs_counterexample :
  (FieldWrapper.multiple (Examples.wrap Examples.child true) = true
   ∧ ∃ d, FieldWrapper._get_arg_options (Examples.wrap Examples.child true) = Ok d
        ∧ d !! "required" ≠ Some (VBool true)
        ∧ d !! "nargs" = None
        ∧ d !! "nargs" ≠ Some (VStr "*")
        ∧ d !! "default" = None)
  ∧ (∃ d, FieldWrapper._get_arg_options (Examples.wrap Examples.children true) = Ok d
        ∧ d !! "required" ≠ Some (VBool true)
        ∧ d !! "nargs" ≠ Some (VStr "*"))
  ∧ (∃ d, FieldWrapper._get_arg_options (Examples.wrap Examples.derived_color true) = Ok d
        ∧ d !! "required" ≠ Some (VBool true)
        ∧ d !! "nargs" ≠ Some (VStr "*")).
Proof.
  split_and!; try reflexivity.
  - eexists. split; [reflexivity|].
    split_and!; try reflexivity; vm_compute; discriminate.
  - eexists. split; [reflexivity|]. split; vm_compute; discriminate.
  - eexists. split; [reflexivity|]. split; vm_compute; discriminate.
Qed.

(** C4, amended. In multiple mode, for every field that participates in
    construction and is neither a nested record nor a container of records
    (the fields that reach the derivation blocks), whatever its type
    category otherwise, after all category blocks: if the options ended up
    with [required] true, [nargs] is "+"; otherwise [nargs] is "*" and
    [default] is the previous default wrapped in a single-element list. *)
Theorem multiple_mode_nargs (self : FieldWrapper.t) :
  exposed self = true →
  FieldWrapper.multiple self = true →
  ∃ d, FieldWrapper._get_arg_options self = Ok d
    ∧ d !! "required" = FieldWrapper.single_options self !! "required"
    ∧ (d !! "required" = Some (VBool true) → d !! "nargs" = Some (VStr "+"))
    ∧ (d !! "required" ≠ Some (VBool true) →
       d !! "nargs" = Some (VStr "*")
       ∧ ∃ v, FieldWrapper.single_options self !! "default" = Some v
            ∧ d !! "default" = Some (VList [v])).
Proof.
  intros He Hm.
  destruct (get_arg_options_multiple self He Hm) as (d & Hd & Hmo).
  exists d. split; [done|].
  apply multiple_options_lookup in Hmo as (Hr & Htrue & Hnone & _).
  split_and!; [done| |].
  - rewrite Hr. intros H. by apply Htrue.
  - rewrite Hr. intros H.
    destruct (single_options_required self) as [?|[Hreq _]]; [done|].
    by apply Hnone.
Qed.

Lemma multiple_mode_nargs_witness :
  ∃ d, FieldWrapper._get_arg_options (Examples.wrap Examples.count true) = Ok d
    ∧ d !! "nargs" = Some (VStr "*")
    ∧ d !! "default" = Some (VList [VInt 5]).
Proof.
  destruct (multiple_mode_nargs (Examples.wrap Examples.count true))
    as (d & Hd & Hr & _ & Hstar); [reflexivity..|].
  exists d. split; [exact Hd|].
  destruct Hstar as (Hn & v & Hv & Hdv).
  { rewrite Hr. vm_compute. discriminate. }
  split; [exact Hn|].
  vm_compute in Hv. injection Hv as <-. exact Hdv.
Defined.

(** C2, as stated, fails: in multiple mode the declared default is wrapped
    in a list; for an enumeration field the declared member is replaced by
    its name; a boolean field with a factory default only ends with
    [default] false and [required] true. *)
Lemma default_block_rule_counterexample :
  (exposed (Examples.wrap Examples.count true) = true
   ∧ ∃ d, FieldWrapper._get_arg_options (Examples.wrap Examples.count true) = Ok d
        ∧ d !! "default" = Some (VList [VInt 5])
        ∧ ¬ default_block_rule Examples.count d)
  ∧ (exposed (Examples.wrap Examples.color false) = true
     ∧ ∃ d, FieldWrapper._get_arg_options (Examples.wrap Examples.color false) = Ok d
          ∧ d !! "default" = Some (VStr "GREEN")
          ∧ ¬ default_block_rule Examples.color d)
  ∧ (exposed (Examples.wrap Examples.lazy_flag false) = true
     ∧ ∃ d, FieldWrapper._get_arg_options (Examples.wrap Examples.lazy_flag false) = Ok d
          ∧ d !! "default" = Some (VBool false)
          ∧ d !! "required" = Some (VBool true)
          ∧ ¬ default_block_rule Examples.lazy_flag d).
Proof.
  split_and!; try reflexivity.
  - eexists. split; [reflexivity|]. split; [reflexivity|].
    intros [H _]. vm_compute in H. discriminate.
  - eexists. split; [reflexivity|]. split; [reflexivity|].
    intros [H _]. vm_compute in H. discriminate.
  - eexists. split; [reflexivity|]. split_and!; [reflexivity..|].
    intros H. vm_compute in H. discriminate.
Qed.

(** C2, amended. For every field that participates in construction and is
    neither a nested record nor a container of records: if a value default
    is declared, [default] is that value, as the later blocks leave it (an
    enum member of an enumeration field replaced by its name, and the whole
    wrapped in a single-element list in multiple mode), and [required] is
    absent; else if a factory default is declared and the field is not
    boolean, [default] is the result of calling the factory once, left the
    same way, and [required] is absent; else [required] is true. With
    [multiple] false, on a field that is neither an enumeration nor a
    boolean, this is the rule of the default block as it stands. *)
Theorem default_or_required_options (self : FieldWrapper.t) :
  exposed self = true →
  let f := FieldWrapper.field self in
  ∃ d, FieldWrapper._get_arg_options self = Ok d
    ∧ match Field.default f, Field.default_factory f with
      | Some v, _ =>
          d !! "default" = Some (listed (FieldWrapper.multiple self) (normalized f v))
          ∧ d !! "required" = None
      | None, Some factory =>
          if is_bool (Field.type f)
          then d !! "required" = Some (VBool true)
          else d !! "default"
                 = Some (listed (FieldWrapper.multiple self) (normalized f (factory ())))
               ∧ d !! "required" = None
      | None, None => d !! "required" = Some (VBool true)
      end
    ∧ (FieldWrapper.multiple self = false →
       enum.is_enum (Field.type f) = false →
       is_bool (Field.type f) = false →
       default_block_rule f d).
Proof.
  intros He f.
  destruct (get_arg_options_listed self He) as (d & Hd & Hr & Hdef & _).
  exists d. split; [done|].
  pose proof (single_options_required_lookup self) as Hsr.
  pose proof (single_options_default self) as Hsd.
  cbv zeta in Hsr, Hsd. fold f in Hsr, Hsd.
  rewrite Hsr in Hr, Hdef. rewrite Hsd in Hdef.
  unfold default_block_rule, Dataclass.default_of in *.
  destruct (Field.default f) as [v|] eqn:Hv; simpl in *.
  - specialize (Hdef eq_refl).
    assert (Hn : is_bool (Field.type f) = true → normalized f v = v).
    { unfold normalized. by destruct (Field.type f). }
    split.
    + split; [|done]. destruct (is_bool (Field.type f)); simpl in Hdef;
        rewrite Hdef; [by rewrite Hn|done].
    + intros Hm He' Hb. rewrite Hb in Hdef. simpl in Hdef.
      rewrite Hm in Hdef. unfold normalized in Hdef. rewrite He' in Hdef. done.
  - destruct (Field.default_factory f) as [g|] eqn:Hg; simpl in *.
    + destruct (is_bool (Field.type f)) eqn:Hb; simpl in *.
      * split; [done|]. done.
      * specialize (Hdef eq_refl). split; [done|].
        intros Hm He' _. rewrite Hm in Hdef. unfold normalized in Hdef.
        rewrite He' in Hdef. done.
    + rewrite orb_true_r in Hr. done.
Qed.

Lemma default_or_required_options_witness :
  ∃ d, FieldWrapper._get_arg_options (Examples.wrap Examples.count false) = Ok d
    ∧ d !! "default" = Some (VInt 5) ∧ d !! "required" = None.
Proof.
  destruct (default_or_required_options (Examples.wrap Examples.count false))
    as (d & Hd & _ & Hrule); [reflexivity|].
  exists d. split; [exact Hd|]. apply Hrule; reflexivity.
Defined.

(** C3, as stated, fails: in multiple mode the [default] entry of an
    enumeration field is a single-element list holding the member's name,
    not the name; and an enumeration field that does not participate in
    construction has no [choices] at all. *)
Lemma enum_options_counterexample :
  (∃ d, FieldWrapper._get_arg_options (Examples.wrap Examples.color true) = Ok d
      ∧ d !! "default" = Some (VList [VStr "GREEN"])
      ∧ d !! "default" ≠ Some (VStr "GREEN"))
  ∧ (∃ d, FieldWrapper._get_arg_options (Examples.wrap Examples.derived_color false) = Ok d
        ∧ d !! "choices" = None
        ∧ d !! "choices" ≠ Some (VList [VStr "RED"; VStr "GREEN"; VStr "BLUE"])).
Proof.
  split; eexists; (split; [reflexivity|]); (split; [reflexivity|]);
    vm_compute; discriminate.
Qed.

(** C3, amended. For every enumeration field that participates in
    construction: [choices] is the ordered list of all member names, [type]
    is the string decoder, and if a default exists (declared as a value or
    made by the factory) and is an enum member, [default] is that member's
    name string, wrapped in a single-element list when [multiple] is true. *)
Theorem enum_field_options (self : FieldWrapper.t) (name : string) (members : list string) :
  Field.type (FieldWrapper.field self) = TEnum name members →
  Field.init (FieldWrapper.field self) = true →
  ∃ d, FieldWrapper._get_arg_options self = Ok d
    ∧ d !! "choices" = Some (VList (VStr <$> members))
    ∧ d !! "type" = Some (VType TStr)
    ∧ ∀ t member,
        Dataclass.default_of (FieldWrapper.field self) = Some (VEnum t member) →
        d !! "default" = Some (listed (FieldWrapper.multiple self) (VStr member)).
Proof.
  intros Ht Hinit.
  assert (He : exposed self = true).
  { unfold exposed, FieldWrapper.is_dataclass,
      FieldWrapper.is_tuple_or_list_of_dataclasses. by rewrite Hinit, Ht. }
  destruct (get_arg_options_listed self He) as (d & Hd & Hr & Hdef & Hkeys).
  exists d. split; [done|].
  assert (Hcat : FieldWrapper.single_options self !! "choices"
                   = Some (VList (VStr <$> members))
                 ∧ FieldWrapper.single_options self !! "type" = Some (VType TStr)).
  { unfold FieldWrapper.single_options, FieldWrapper.category_options.
    rewrite Ht. simpl.
    pose proof (enum_options_choices (FieldWrapper.field self)) as Hc.
    rewrite Ht in Hc. simpl in Hc. apply Hc. }
  destruct Hcat as [Hchoices Htype].
  split_and!.
  - by rewrite Hkeys.
  - by rewrite Hkeys.
  - intros t member Hdflt.
    pose proof (single_options_required_lookup self) as Hsr.
    pose proof (single_options_default self) as Hsd.
    cbv zeta in Hsr, Hsd. rewrite Ht in Hsr, Hsd. simpl in Hsr, Hsd.
    rewrite Hdflt in Hsd. simpl in Hsd.
    unfold normalized in Hsd. rewrite Ht in Hsd. simpl in Hsd.
    rewrite Hdef, Hsd; [done|].
    rewrite Hsr. unfold Dataclass.default_of in Hdflt.
    destruct (Field.default _); [done|].
    destruct (Field.default_factory _); done.
Qed.

Lemma enum_field_options_witness :
  ∃ d, FieldWrapper._get_arg_options (Examples.wrap Examples.color false) = Ok d
    ∧ d !! "choices" = Some (VList [VStr "RED"; VStr "GREEN"; VStr "BLUE"])
    ∧ d !! "type" = Some (VType TStr)
    ∧ d !! "default" = Some (VStr "GREEN").
Proof.
  destruct (enum_field_options (Examples.wrap Examples.color false)
              "Color" ["RED"; "GREEN"; "BLUE"])
    as (d & Hd & Hc & Ht & Hdef); [reflexivity..|].
  exists d. split_and!; [exact Hd|exact Hc|exact Ht|].
  apply (Hdef Examples.Color "GREEN"). reflexivity.
Defined.

(** C7, as stated, fails: a wrapper whose derived options are empty (here
    a field that does not participate in construction) derives them again
    on every access, and each access hands out a new dict object. *)
Lemma arg_options_cache_counterexample :
  ∃ l1 self1 σ1 l2 self2 σ2,
    FieldWrapper.arg_options
      (FieldWrapper.new Examples.derived_color Examples.Palette "" []).1
      (FieldWrapper.new Examples.derived_color Examples.Palette "" []).2
      = Ok (l1, self1, σ1)
    ∧ FieldWrapper.arg_options self1 σ1 = Ok (l2, self2, σ2)
    ∧ l1 ≠ l2 ∧ σ2 ≠ σ1 ∧ deref σ1 l1 = ∅ ∧ deref σ2 l2 = ∅.
Proof.
  do 6 eexists. split; [reflexivity|]. split; [reflexivity|].
  split_and!; try reflexivity; vm_compute; discriminate.
Qed.

(** C7, amended. For every wrapper whose derived options are not empty (a
    field that participates in construction and is neither a nested record
    nor a container of records), two accesses without a change of [multiple]
    in between return the identical cached dict object, and the second
    access derives nothing and leaves the store as it is. For a wrapper
    whose derived options are empty, every access derives them again and
    returns a new, empty dict. Whenever [multiple] changes value, the
    cached dict is cleared, and the next access derives the options again
    under the new mode. *)
Theorem arg_options_cache (self : FieldWrapper.t) (σ : store) :
  (exposed self = true →
   ∃ l self1 σ1,
     FieldWrapper.arg_options self σ = Ok (l, self1, σ1)
     ∧ FieldWrapper.arg_options self1 σ1 = Ok (l, self1, σ1)
     ∧ (coherent self σ → FieldWrapper._get_arg_options self = Ok (deref σ1 l)))
  ∧ (exposed self = false → coherent self σ →
     ∃ self1 self2,
       FieldWrapper.arg_options self σ = Ok (length σ, self1, σ ++ [∅])
       ∧ FieldWrapper.arg_options self1 (σ ++ [∅])
           = Ok (S (length σ), self2, (σ ++ [∅]) ++ [∅]))
  ∧ (∀ value, value ≠ FieldWrapper.multiple self →
     let self' := (FieldWrapper.set_multiple self value σ).1 in
     let σ' := (FieldWrapper.set_multiple self value σ).2 in
     FieldWrapper.multiple self' = value
     ∧ deref σ' (FieldWrapper._arg_options self') = ∅
     ∧ ∃ d, FieldWrapper._get_arg_options self' = Ok d
          ∧ FieldWrapper.arg_options self' σ'
              = Ok (length σ', FieldWrapper.set_arg_options self' (length σ'), σ' ++ [d])).
Proof.
  split_and!.
  - intros He.
    destruct (decide (deref σ (FieldWrapper._arg_options self) = ∅)) as [Hempty|Hfull].
    + destruct (get_arg_options_total self) as [d Hd].
      pose proof (exposed_options_nonempty self d He Hd) as Hne.
      exists (length σ), (FieldWrapper.set_arg_options self (length σ)), (σ ++ [d]).
      split_and!.
      * by apply arg_options_derive.
      * apply arg_options_cached. simpl. by rewrite deref_alloc_new.
      * intros _. by rewrite deref_alloc_new.
    + exists (FieldWrapper._arg_options self), self, σ.
      split_and!; [by apply arg_options_cached..|].
      intros [Hc|Hc]; done.
  - intros He Hc.
    pose proof (get_arg_options_hidden self He) as Hd.
    assert (Hempty : deref σ (FieldWrapper._arg_options self) = ∅).
    { destruct Hc as [Hc|Hc]; [done|]. rewrite Hd in Hc. by injection Hc. }
    do 2 eexists. split.
    + by apply arg_options_derive.
    + rewrite (arg_options_derive _ _ ∅).
      * by rewrite length_app, Nat.add_1_r.
      * simpl. apply deref_alloc_new.
      * rewrite <- Hd. by apply get_arg_options_ext.
  - intros value Hvalue self' σ'.
    assert (Hσ' : σ' = clear (FieldWrapper._arg_options self) σ).
    { subst σ'. unfold FieldWrapper.set_multiple. simpl.
      unfold FieldWrapper.multiple in Hvalue.
      destruct value, (FieldWrapper._multiple self); done. }
    assert (Hempty : deref σ' (FieldWrapper._arg_options self') = ∅).
    { rewrite Hσ'. apply deref_clear. }
    split_and!; [done..|].
    destruct (get_arg_options_total self') as [d Hd].
    exists d. split; [done|]. by apply arg_options_derive.
Qed.

Lemma arg_options_cache_witness :
  (∃ l self1 σ1,
     FieldWrapper.arg_options (Examples.wrap Examples.count false) [∅] = Ok (l, self1, σ1)
     ∧ FieldWrapper.arg_options self1 σ1 = Ok (l, self1, σ1))
  ∧ (∃ d, FieldWrapper._get_arg_options
            (FieldWrapper.set_multiple (Examples.wrap Examples.count false) true [∅]).1
          = Ok d).
Proof.
  destruct (arg_options_cache (Examples.wrap Examples.count false) [∅])
    as (Hsame & _ & Hclear).
  split.
  - destruct Hsame as (l & self1 & σ1 & H1 & H2 & _); [reflexivity|].
    exists l, self1, σ1. split; [exact H1|exact H2].
  - destruct (Hclear true) as (_ & _ & d & Hd & _); [discriminate|].
    exists d. exact Hd.
Defined.

(** * Loops that fill a dict *)

Section keyed_loop.
Context {A : Type} (p : A → bool) (g : A → result value) (k : A → string).

Let step := keyed_step p g k.

Lemma keyed_step_cases (acc : dict) (a : A) :
  (p a = false ∧ step acc a = Ok acc)
  ∨ (p a = true ∧ ∃ x, g a = Ok x ∧ step acc a = Ok (<[k a := x]> acc))
  ∨ (p a = true ∧ ∃ e, g a = Raise e ∧ step acc a = Raise e).
Proof.
  unfold step, keyed_step. destruct (p a); [|by left].
  right. destruct (g a) as [x|e]; [left|right]; eauto.
Qed.

Ltac step_cases acc a :=
  destruct (keyed_step_cases acc a)
    as [(?Hp & ->)|[(?Hp & ?x & ?Hg & ->)|(?Hp & ?e & ?Hg & ->)]];
  cbn [mbind result_bind].

Lemma keyed_loop_total (l : list A) (acc : dict) :
  Forall (λ a, p a = true → is_Ok (g a)) l →
  is_Ok (for_each step acc l).
Proof.
  intros Hl. revert acc. induction Hl as [|a l Ha _ IH]; intros acc; cbn [for_each].
  - by exists acc.
  - step_cases acc a; [apply IH..|].
    destruct (Ha Hp) as [x Hx]. congruence.
Qed.

Lemma keyed_loop_Forall (l : list A) (acc d : dict) :
  for_each step acc l = Ok d →
  Forall (λ a, p a = true → is_Ok (g a)) l.
Proof.
  revert acc. induction l as [|a l IH]; intros acc; cbn [for_each]; [by constructor|].
  step_cases acc a; intros H; [| |done].
  - constructor; [congruence|by eapply IH].
  - constructor; [by exists x|by eapply IH].
Qed.

Lemma keyed_loop_other (l : list A) (acc d : dict) (key : string) :
  for_each step acc l = Ok d →
  (∀ a, a ∈ l → p a = true → k a ≠ key) →
  d !! key = acc !! key.
Proof.
  revert acc. induction l as [|a l IH]; intros acc; cbn [for_each].
  - by intros [= ->].
  - intros H Hkey.
    assert (Hl : ∀ b, b ∈ l → p b = true → k b ≠ key).
    { intros b Hb. apply Hkey. by right. }
    revert H. step_cases acc a; intros H; [by apply IH| |done].
    rewrite (IH _ H Hl). apply lookup_insert_ne, Hkey; [by left|done].
Qed.

Lemma keyed_loop_lookup (l : list A) (acc d : dict) (a : A) (x : value) :
  for_each step acc l = Ok d →
  NoDup (k <$> l) →
  a ∈ l → p a = true → g a = Ok x →
  d !! k a = Some x.
Proof.
  revert acc. induction l as [|b l IH]; intros acc; cbn [for_each].
  - intros _ _ Ha. by apply elem_of_nil in Ha.
  - intros H Hnd Ha Hpa Hga.
    rewrite fmap_cons in Hnd. apply NoDup_cons in Hnd as [Hb Hnd].
    apply elem_of_cons in Ha as [->|Ha].
    + revert H. step_cases acc b; intros H; [congruence| |done].
      rewrite (keyed_loop_other _ _ _ _ H).
      * rewrite lookup_insert_eq. congruence.
      * intros c Hc _ Heq. apply Hb. rewrite <- Heq. by apply list_elem_of_fmap_2.
    + revert H. step_cases acc b; intros H; [by eapply IH..|done].
Qed.

Lemma keyed_loop_dom (l : list A) (acc d : dict) :
  for_each step acc l = Ok d →
  dom d = dom acc ∪ list_to_set (k <$> filter (λ a, p a = true) l).
Proof.
  revert acc. induction l as [|a l IH]; intros acc; cbn [for_each].
  - intros [= ->]. rewrite filter_nil. cbn. by rewrite (right_id_L ∅ (∪)).
  - rewrite filter_cons. step_cases acc a; intros H; [| |done].
    + rewrite (IH _ H), decide_False by congruence. done.
    + rewrite (IH _ H), decide_True by done.
      rewrite dom_insert_L, fmap_cons, list_to_set_cons.
      by rewrite (assoc_L (∪)), (comm_L (∪) _ {[k a]}).
Qed.

Lemma keyed_loop_raises (l : list A) (acc : dict) (a : A) :
  a ∈ l → p a = true → raises (g a) → raises (for_each step acc l).
Proof.
  intros Ha Hpa [e' He]. revert acc.
  induction l as [|b l IH]; intros acc; cbn [for_each].
  - by apply elem_of_nil in Ha.
  - apply elem_of_cons in Ha as [->|Ha].
    + step_cases acc b; [congruence..|by exists e].
    + step_cases acc b; [by apply IH..|by exists e].
Qed.

Lemma keyed_loop_first_raise (pre post : list A) (acc : dict) (a : A) e :
  Forall (λ b, p b = true → is_Ok (g b)) pre →
  p a = true → g a = Raise e →
  for_each step acc (pre ++ a :: post) = Raise e.
Proof.
  intros Hpre Hpa Hga. revert acc.
  induction Hpre as [|b pre Hb _ IH]; intros acc; cbn [for_each app].
  - step_cases acc a; congruence.
  - step_cases acc b; [apply IH..|].
    destruct (Hb Hp) as [x Hx]. congruence.
Qed.
End keyed_loop.

Section collect_loop.
Context {A : Type} (inner : A → result dict).

Lemma collect_step_eq (acc : list dict) (a : A) :
  collect_step inner acc a =
    match inner a with
    | Ok d => Ok (acc ++ [d])
    | Raise e => Raise e
    end.
Proof. unfold collect_step. by destruct (inner a). Qed.

Lemma collect_loop_ok (l : list A) (acc ds : list dict) :
  for_each (collect_step inner) acc l = Ok ds ↔
  ∃ ds', ds = acc ++ ds' ∧ Forall2 (λ a d, inner a = Ok d) l ds'.
Proof.
  revert acc ds. induction l as [|a l IH]; intros acc ds; cbn [for_each].
  - split.
    + intros [= ->]. exists []. by rewrite app_nil_r.
    + intros (ds' & -> & ->%Forall2_nil_inv_l). by rewrite app_nil_r.
  - rewrite collect_step_eq. destruct (inner a) as [d|e] eqn:Hd;
      cbn [mbind result_bind].
    + rewrite IH. split.
      * intros (ds' & -> & H). exists (d :: ds').
        rewrite <- app_assoc. split; [done|]. by constructor.
      * intros (ds' & -> & H).
        apply Forall2_cons_inv_l in H as (d' & ds'' & Hd' & H & ->).
        rewrite Hd in Hd'. injection Hd' as <-.
        exists ds''. by rewrite <- app_assoc.
    + split; [done|].
      intros (ds' & _ & H).
      apply Forall2_cons_inv_l in H as (d' & ds'' & Hd' & _). congruence.
Qed.

Lemma collect_loop_first_raise (l : list A) (acc : list dict) (a : A) e :
  inner a = Raise e → for_each (collect_step inner) acc (a :: l) = Raise e.
Proof. intros H. cbn [for_each]. by rewrite collect_step_eq, H. Qed.

Lemma collect_loop_total (l : list A) (acc : list dict) :
  Forall (λ a, is_Ok (inner a)) l → is_Ok (for_each (collect_step inner) acc l).
Proof.
  intros Hl. revert acc. induction Hl as [|a l [d Ha] _ IH]; intros acc; cbn [for_each].
  - by exists acc.
  - rewrite collect_step_eq, Ha. cbn [mbind result_bind]. apply IH.
Qed.
End collect_loop.

(** * [get_constructor_arguments] *)

Lemma for_each_ext {A S} (f g : S → A → result S) (s : S) (l : list A) :
  (∀ s a, f s a = g s a) → for_each f s l = for_each g s l.
Proof.
  intros Hfg. revert s. induction l as [|a l IH]; intros s; cbn [for_each]; [done|].
  rewrite Hfg. destruct (g s a); cbn [mbind result_bind]; [apply IH|done].
Qed.

Lemma mode_agrees_positive (multiple : bool) (n : Z) :
  mode_agrees multiple n = true → (1 ≤ n)%Z.
Proof. unfold mode_agrees. destruct multiple; lia. Qed.

Section constructor_arguments.
Import DataclassWrapper.
Context (self : DataclassWrapper.t) (args_dict : dict) (n : Z).

Let inner (i : nat) : result dict :=
  for_each (keyed_step considered (chosen (multiple self) args_dict n i) declared_name)
    ∅ (fields self).

Lemma instance_argument_keyed i acc wrapped_field :
  instance_argument self args_dict n i acc wrapped_field =
    keyed_step considered (chosen (multiple self) args_dict n i) declared_name
      acc wrapped_field.
Proof.
  unfold instance_argument, keyed_step, considered, chosen, declared_name, assert_that.
  destruct (Field.init _); simpl; [|done].
  destruct (FieldWrapper.is_dataclass _); simpl; [done|].
  destruct (FieldWrapper.is_tuple_or_list_of_dataclasses _); simpl; [done|].
  destruct (args_dict !! _) as [v|]; simpl; [|done].
  destruct (multiple self); [|done].
  destruct v; try done.
  repeat case_match; done.
Qed.

Lemma get_constructor_arguments_mode :
  mode_agrees (multiple self) n = false →
  ∃ msg, get_constructor_arguments self args_dict n = Raise (AssertionError msg).
Proof.
  unfold mode_agrees, get_constructor_arguments, assert_that.
  destruct (multiple self); intros ->; simpl; eauto.
Qed.

Lemma get_constructor_arguments_loop :
  mode_agrees (multiple self) n = true →
  get_constructor_arguments self args_dict n =
    for_each (collect_step inner) [] (seq 0 (Z.to_nat n)).
Proof.
  unfold mode_agrees, get_constructor_arguments, assert_that.
  intros Hmode.
  assert (Hloop : ∀ acc i,
    (instance_arguments ←
       for_each (instance_argument self args_dict n i) ∅ (fields self);
     Ok (acc ++ [instance_arguments])) = collect_step inner acc i).
  { intros acc i. unfold collect_step, inner.
    by rewrite (for_each_ext _ _ _ _ (instance_argument_keyed i)). }
  destruct (multiple self); rewrite Hmode; cbn [mbind result_bind];
    by apply for_each_ext.
Qed.

Lemma get_constructor_arguments_ok ds :
  get_constructor_arguments self args_dict n = Ok ds ↔
  mode_agrees (multiple self) n = true
  ∧ Forall2 (λ i d, inner i = Ok d) (seq 0 (Z.to_nat n)) ds.
Proof.
  destruct (mode_agrees (multiple self) n) eqn:Hmode.
  - rewrite get_constructor_arguments_loop, collect_loop_ok by done.
    split; [intros (ds' & -> & H)|intros [_ H]; exists ds]; done.
  - destruct (get_constructor_arguments_mode Hmode) as [msg ->].
    split; [done|by intros [? _]].
Qed.

(** The first round fails when some field fails in it. *)
Lemma get_constructor_arguments_raises wrapped_field :
  wrapped_field ∈ fields self →
  considered wrapped_field = true →
  raises (chosen (multiple self) args_dict n 0 wrapped_field) →
  raises (get_constructor_arguments self args_dict n).
Proof.
  intros Hin Hc Hr.
  destruct (mode_agrees (multiple self) n) eqn:Hmode.
  - rewrite get_constructor_arguments_loop by done.
    pose proof (mode_agrees_positive _ _ Hmode).
    replace (Z.to_nat n) with (S (Z.to_nat n - 1)) by lia. cbn [seq].
    destruct (keyed_loop_raises considered _ declared_name (fields self) ∅
                wrapped_field Hin Hc Hr) as [e He].
    exists e. by apply collect_loop_first_raise.
  - destruct (get_constructor_arguments_mode Hmode) as [msg ->]. by eexists.
Qed.

Lemma get_constructor_arguments_first_raise pre post wrapped_field e :
  mode_agrees (multiple self) n = true →
  fields self = pre ++ wrapped_field :: post →
  Forall (λ w, considered w = true → is_Ok (chosen (multiple self) args_dict n 0 w)) pre →
  considered wrapped_field = true →
  chosen (multiple self) args_dict n 0 wrapped_field = Raise e →
  get_constructor_arguments self args_dict n = Raise e.
Proof.
  intros Hmode Hfields Hpre Hc He.
  rewrite get_constructor_arguments_loop by done.
  pose proof (mode_agrees_positive _ _ Hmode).
  replace (Z.to_nat n) with (S (Z.to_nat n - 1)) by lia. cbn [seq].
  apply collect_loop_first_raise. unfold inner. rewrite Hfields.
  by apply keyed_loop_first_raise.
Qed.

Lemma accepted_chosen i wrapped_field :
  accepted (multiple self) args_dict n wrapped_field = true →
  considered wrapped_field = true →
  i < Z.to_nat n →
  is_Ok (chosen (multiple self) args_dict n i wrapped_field).
Proof.
  unfold accepted, chosen, assert_that. intros Ha Hc Hi. rewrite Hc in Ha.
  simpl in Ha. apply andb_true_iff in Ha as [Hcont Ha].
  rewrite Hcont. cbn [mbind result_bind].
  destruct (args_dict !! _) as [v|]; [|done].
  destruct (multiple self); [|by eexists].
  destruct v as [| | | |l| | | | |]; try done.
  destruct (length l =? 1)%nat eqn:H1.
  - apply Nat.eqb_eq in H1. destruct l as [|x l]; [done|]. by exists x.
  - simpl in Ha. rewrite Ha. apply Z.eqb_eq in Ha.
    destruct (lookup_lt_is_Some_2 l i) as [x ->]; [lia|]. by exists x.
Qed.

Lemma get_constructor_arguments_total :
  mode_agrees (multiple self) n = true →
  Forall (λ w, accepted (multiple self) args_dict n w = true) (fields self) →
  is_Ok (get_constructor_arguments self args_dict n).
Proof.
  intros Hmode Hall. rewrite get_constructor_arguments_loop by done.
  apply collect_loop_total, Forall_forall. intros i Hi.
  apply elem_of_seq in Hi. unfold inner.
  apply keyed_loop_total. eapply Forall_impl; [exact Hall|].
  intros w Hw Hc. apply accepted_chosen; [done..|lia].
Qed.

(** Every returned dict is one round of the loop over the fields. *)
Lemma get_constructor_arguments_rounds ds :
  get_constructor_arguments self args_dict n = Ok ds →
  length ds = Z.to_nat n
  ∧ ∀ i d, ds !! i = Some d → i < Z.to_nat n ∧ inner i = Ok d.
Proof.
  intros [_ H]%get_constructor_arguments_ok.
  pose proof (Forall2_length _ _ _ H) as Hlen. rewrite length_seq in Hlen.
  split; [done|]. intros i d Hd.
  assert (Hi : i < Z.to_nat n) by (apply lookup_lt_Some in Hd; lia).
  split; [done|].
  eapply (Forall2_lookup_lr _ _ _ i i) in H; [done| |done].
  by rewrite lookup_seq_lt.
Qed.
End constructor_arguments.

(** * [get_constructor_arguments]: the claims *)

Section chosen_values.
Context (args_dict : dict) (n : Z) (wrapped_field : FieldWrapper.t).

Lemma chosen_broadcast i x :
  FieldWrapper.is_tuple_or_list_of_dataclasses wrapped_field = false →
  args_dict !! FieldWrapper.name wrapped_field = Some (VList [x]) →
  chosen true args_dict n i wrapped_field = Ok x.
Proof. unfold chosen. by intros -> ->. Qed.

Lemma chosen_distribute i l x :
  FieldWrapper.is_tuple_or_list_of_dataclasses wrapped_field = false →
  args_dict !! FieldWrapper.name wrapped_field = Some (VList l) →
  length l ≠ 1 → Z.of_nat (length l) = n → l !! i = Some x →
  chosen true args_dict n i wrapped_field = Ok x.
Proof.
  unfold chosen. intros -> -> H1 Hn Hx. simpl.
  rewrite (proj2 (Nat.eqb_neq _ _) H1), (proj2 (Z.eqb_eq _ _) Hn), Hx. done.
Qed.

Lemma chosen_inconsistent i l :
  FieldWrapper.is_tuple_or_list_of_dataclasses wrapped_field = false →
  args_dict !! FieldWrapper.name wrapped_field = Some (VList l) →
  length l ≠ 1 → Z.of_nat (length l) ≠ n →
  chosen true args_dict n i wrapped_field =
    Raise (InconsistentArgumentError
             (DataclassWrapper.inconsistent_message (declared_name wrapped_field)
                (length l) n)).
Proof.
  unfold chosen. intros -> -> H1 Hn. simpl.
  rewrite (proj2 (Nat.eqb_neq _ _) H1), (proj2 (Z.eqb_neq _ _) Hn). done.
Qed.

Lemma chosen_absent m i :
  args_dict !! FieldWrapper.name wrapped_field = None →
  raises (chosen m args_dict n i wrapped_field).
Proof.
  unfold chosen, assert_that. intros ->.
  destruct (FieldWrapper.is_tuple_or_list_of_dataclasses _); simpl; by eexists.
Qed.

Lemma chosen_present m i x :
  chosen m args_dict n i wrapped_field = Ok x →
  ∃ raw, args_dict !! FieldWrapper.name wrapped_field = Some raw
    ∧ (m = false → x = raw)
    ∧ (m = true → ∃ l, raw = VList l ∧ x ∈ l).
Proof.
  unfold chosen, assert_that.
  destruct (FieldWrapper.is_tuple_or_list_of_dataclasses _); simpl; [done|].
  destruct (args_dict !! _) as [raw|]; [|done].
  intros H. exists raw. split; [done|].
  destruct m.
  - split; [done|]. intros _.
    destruct raw as [| | | |l| | | | |]; try done. exists l. split; [done|].
    repeat case_match; try done; injection H as <-;
      by eapply list_elem_of_lookup_2.
  - injection H as <-. split; [done|]. done.
Qed.
End chosen_values.

(** C1, as stated, fails. A field that is a list of dataclasses is
    constructible and not a nested record, yet a raw list of a wrong length
    trips the assertion on containers of dataclasses, not
    [InconsistentArgumentError]; and the error raised is that of the first
    field that fails, which need not be the field at hand. *)
Lemma multiple_mode_reconciliation_counterexample :
  (DataclassWrapper.multiple (Examples.several Examples.Team "") = true
   ∧ Forall (λ w, considered w = true ∧ FieldWrapper.is_dataclass w = false)
       (DataclassWrapper.fields (Examples.several Examples.Team ""))
   ∧ DataclassWrapper.get_constructor_arguments (Examples.several Examples.Team "")
       {[ "children" := VList [VInt 1; VInt 2] ]} 3
     = Raise (AssertionError "Shouldn't have been allowed"))
  ∧ DataclassWrapper.get_constructor_arguments (Examples.several Examples.Config "")
      {[ "sizes" := VList [VInt 1; VInt 2] ]} 3
    = Raise (AssertionError "count is not in the arguments dict").
Proof.
  split_and!; try reflexivity.
  repeat constructor.
Qed.

(** C1, amended. In multiple mode (multiple true, N > 1 instances), for every
    constructible field that is neither a nested record nor a list or tuple
    of records, given its raw value as a list: if the list has length 1, its
    single element is that field's constructor argument in all N returned
    dicts; if the list has length N, element i is the argument in dict i;
    for any other length [get_constructor_arguments] raises, and what it
    raises is [InconsistentArgumentError] naming the field, the length and
    the acceptable lengths when the fields declared before it are accepted.
    The N dicts are returned when every field is accepted. *)
Theorem multiple_mode_reconciliation
    (self : DataclassWrapper.t) (args_dict : dict) (n : Z)
    (wrapped_field : FieldWrapper.t) (l : list value) :
  DataclassWrapper.multiple self = true →
  (1 < n)%Z →
  NoDup (declared_name <$> DataclassWrapper.fields self) →
  wrapped_field ∈ DataclassWrapper.fields self →
  considered wrapped_field = true →
  FieldWrapper.is_tuple_or_list_of_dataclasses wrapped_field = false →
  args_dict !! FieldWrapper.name wrapped_field = Some (VList l) →
  let returned := DataclassWrapper.get_constructor_arguments self args_dict n in
  (∀ x ds, l = [x] → returned = Ok ds →
     length ds = Z.to_nat n
     ∧ ∀ d, d ∈ ds → d !! declared_name wrapped_field = Some x)
  ∧ (∀ ds, Z.of_nat (length l) = n → returned = Ok ds →
     length ds = Z.to_nat n
     ∧ ∀ i, i < Z.to_nat n →
         ∃ d x, ds !! i = Some d ∧ l !! i = Some x
              ∧ d !! declared_name wrapped_field = Some x)
  ∧ (length l ≠ 1 → Z.of_nat (length l) ≠ n →
     raises returned
     ∧ ∀ pre post,
         DataclassWrapper.fields self = pre ++ wrapped_field :: post →
         Forall (λ w, accepted true args_dict n w = true) pre →
         returned = Raise (InconsistentArgumentError
                             (DataclassWrapper.inconsistent_message
                                (declared_name wrapped_field) (length l) n)))
  ∧ (Forall (λ w, accepted true args_dict n w = true) (DataclassWrapper.fields self) →
     is_Ok returned).
Proof.
  intros Hm Hn Hnd Hin Hc Hcont Hraw returned.
  assert (Hmode : mode_agrees (DataclassWrapper.multiple self) n = true).
  { rewrite Hm. by apply Z.ltb_lt. }
  split_and!.
  - intros x ds -> Hds.
    apply get_constructor_arguments_rounds in Hds as [Hlen Hrounds].
    split; [done|]. intros d [i Hd]%list_elem_of_lookup_1.
    destruct (Hrounds i d Hd) as [_ Hinner].
    eapply keyed_loop_lookup in Hinner; [done..|].
    rewrite Hm. by apply chosen_broadcast.
  - intros ds Hlen Hds.
    apply get_constructor_arguments_rounds in Hds as [Hlends Hrounds].
    split; [done|]. intros i Hi.
    destruct (lookup_lt_is_Some_2 ds i) as [d Hd]; [lia|].
    destruct (lookup_lt_is_Some_2 l i) as [x Hx]; [lia|].
    exists d, x. split_and!; [done..|].
    destruct (Hrounds i d Hd) as [_ Hinner].
    eapply keyed_loop_lookup in Hinner; [done..|].
    rewrite Hm. apply (chosen_distribute _ _ _ _ l); [done..|lia|done|done].
  - intros H1 Hlen.
    pose proof (chosen_inconsistent args_dict n wrapped_field 0 l Hcont Hraw H1 Hlen)
      as Hraise.
    split.
    + apply (get_constructor_arguments_raises _ _ _ wrapped_field); [done..|].
      rewrite Hm. by eexists.
    + intros pre post Hfields Hpre.
      apply (get_constructor_arguments_first_raise _ _ _ pre post wrapped_field);
        [done..| |done|by rewrite Hm].
      eapply Forall_impl; [exact Hpre|]. intros w Hw Hcw.
      apply accepted_chosen; [by rewrite Hm|done|lia].
  - intros Hall. apply get_constructor_arguments_total; [done|by rewrite Hm].
Qed.

Lemma multiple_mode_reconciliation_witness :
  ∃ ds,
    DataclassWrapper.get_constructor_arguments (Examples.several Examples.Config "cfg.")
      (list_to_map [("cfg.count", VList [VInt 7]);
                    ("cfg.color", VList [VStr "RED"; VStr "GREEN"; VStr "BLUE"]);
                    ("cfg.flag", VList [VNone]);
                    ("cfg.sizes", VList [VList [VInt 1]])]) 3 = Ok ds
    ∧ length ds = 3
    ∧ ∀ d, d ∈ ds → d !! "count" = Some (VInt 7).
Proof.
  destruct (multiple_mode_reconciliation (Examples.several Examples.Config "cfg.")
              (list_to_map [("cfg.count", VList [VInt 7]);
                            ("cfg.color", VList [VStr "RED"; VStr "GREEN"; VStr "BLUE"]);
                            ("cfg.flag", VList [VNone]);
                            ("cfg.sizes", VList [VList [VInt 1]])]) 3
              (FieldWrapper.mk Examples.count "cfg." 0 None true None) [VInt 7])
    as (Hbroadcast & _ & _ & Htotal).
  - reflexivity.
  - lia.
  - apply (bool_decide_unpack _). vm_compute. reflexivity.
  - left.
  - reflexivity.
  - reflexivity.
  - reflexivity.
  - destruct Htotal as [ds Hds].
    { repeat constructor. }
    exists ds. split; [exact Hds|].
    exact (Hbroadcast (VInt 7) ds eq_refl Hds).
Defined.

(** C10. For every constructible field that is not a nested record,
    [get_constructor_arguments] looks the raw value up in the input map
    under the prefixed name (prefix followed by the declared field name)
    and fails when that key is absent; every returned dict is keyed by the
    unprefixed declared names, and holds under the field's declared name
    the raw value found under the prefixed name (in multiple mode, an
    element of that list). The dicts are returned when the number of
    instances fits the mode and every field is accepted. *)
Theorem prefixed_lookup_unprefixed_keys
    (self : DataclassWrapper.t) (args_dict : dict) (n : Z)
    (wrapped_field : FieldWrapper.t) :
  wrapped_field ∈ DataclassWrapper.fields self →
  considered wrapped_field = true →
  let prefixed :=
    FieldWrapper.name_prefix wrapped_field
      +:+ Field.name (FieldWrapper.field wrapped_field) in
  let declared := Field.name (FieldWrapper.field wrapped_field) in
  let returned := DataclassWrapper.get_constructor_arguments self args_dict n in
  (args_dict !! prefixed = None → raises returned)
  ∧ (mode_agrees (DataclassWrapper.multiple self) n = true →
     Forall (λ w, accepted (DataclassWrapper.multiple self) args_dict n w = true)
       (DataclassWrapper.fields self) →
     ∃ ds, returned = Ok ds ∧ length ds = Z.to_nat n)
  ∧ ∀ ds, returned = Ok ds →
      ds ≠ []
      ∧ ∃ raw, args_dict !! prefixed = Some raw
        ∧ ∀ d, d ∈ ds →
            dom d = list_to_set
                      (declared_name <$>
                         filter (λ w, considered w = true) (DataclassWrapper.fields self))
            ∧ is_Some (d !! declared)
            ∧ (NoDup (declared_name <$> DataclassWrapper.fields self) →
               ∃ x, d !! declared = Some x
                 ∧ (DataclassWrapper.multiple self = false → x = raw)
                 ∧ (DataclassWrapper.multiple self = true → ∃ l, raw = VList l ∧ x ∈ l)).
Proof.
  intros Hin Hc prefixed declared returned.
  split_and!.
  - intros Habsent.
    apply (get_constructor_arguments_raises _ _ _ wrapped_field); [done..|].
    by apply chosen_absent.
  - intros Hmode Hall.
    destruct (get_constructor_arguments_total self args_dict n Hmode Hall) as [ds Hds].
    exists ds. split; [done|].
    by apply get_constructor_arguments_rounds in Hds as [Hlen _].
  - intros ds Hds.
    pose proof (proj1 (get_constructor_arguments_ok _ _ _ _) Hds) as [Hmode _].
    apply mode_agrees_positive in Hmode.
    apply get_constructor_arguments_rounds in Hds as [Hlen Hrounds].
    assert (Hvalue : ∀ i d, ds !! i = Some d →
              ∃ x, chosen (DataclassWrapper.multiple self) args_dict n i wrapped_field = Ok x
                 ∧ (NoDup (declared_name <$> DataclassWrapper.fields self) →
                    d !! declared = Some x)
                 ∧ dom d = list_to_set
                             (declared_name <$>
                                filter (λ w, considered w = true)
                                  (DataclassWrapper.fields self))).
    { intros i d Hd. destruct (Hrounds i d Hd) as [_ Hinner].
      pose proof (keyed_loop_Forall _ _ _ _ _ _ Hinner) as Hall.
      rewrite Forall_forall in Hall. destruct (Hall _ Hin Hc) as [x Hx].
      exists x. split_and!; [done| |].
      - intros Hnd. by eapply (keyed_loop_lookup _ _ declared_name) in Hinner.
      - rewrite (keyed_loop_dom _ _ _ _ _ _ Hinner), dom_empty_L.
        by rewrite (left_id_L ∅ (∪)). }
    destruct (lookup_lt_is_Some_2 ds 0) as [d0 Hd0]; [lia|].
    split; [by intros ->|].
    destruct (Hvalue 0 d0 Hd0) as (x0 & Hx0 & _).
    apply chosen_present in Hx0 as (raw & Hraw & _).
    exists raw. split; [done|].
    intros d [i Hd]%list_elem_of_lookup_1.
    destruct (Hvalue i d Hd) as (x & Hx & Hlookup & Hdom).
    split_and!; [done| |].
    + apply elem_of_dom. rewrite Hdom, elem_of_list_to_set.
      apply (list_elem_of_fmap_2 declared_name). by apply list_elem_of_filter.
    + intros Hnd. exists x. split; [by apply Hlookup|].
      apply chosen_present in Hx as (raw' & Hraw' & Hsingle & Hmultiple).
      unfold FieldWrapper.name in Hraw, Hraw'. fold prefixed in Hraw, Hraw'.
      rewrite Hraw in Hraw'. injection Hraw' as <-. done.
Qed.

Lemma prefixed_lookup_unprefixed_keys_witness :
  raises (DataclassWrapper.get_constructor_arguments (Examples.single Examples.Config "cfg.")
            {[ "count" := VInt 1 ]} 1)
  ∧ ∃ ds,
      DataclassWrapper.get_constructor_arguments (Examples.single Examples.Config "cfg.")
        (list_to_map [("cfg.count", VInt 1); ("cfg.color", VStr "RED");
                      ("cfg.flag", VNone); ("cfg.sizes", VList [])]) 1 = Ok ds
      ∧ length ds = 1
      ∧ ∀ d, d ∈ ds →
          d !! "count" = Some (VInt 1)
          ∧ dom d = ({[ "count"; "color"; "flag"; "sizes" ]} : gset string).
Proof.
  split.
  - apply (prefixed_lookup_unprefixed_keys (Examples.single Examples.Config "cfg.")
             {[ "count" := VInt 1 ]} 1
             (FieldWrapper.mk Examples.count "cfg." 0 None false None)).
    + left.
    + reflexivity.
    + reflexivity.
  - destruct (prefixed_lookup_unprefixed_keys (Examples.single Examples.Config "cfg.")
                (list_to_map [("cfg.count", VInt 1); ("cfg.color", VStr "RED");
                              ("cfg.flag", VNone); ("cfg.sizes", VList [])]) 1
                (FieldWrapper.mk Examples.count "cfg." 0 None false None))
      as (_ & Hmade & Hkeys); [left|reflexivity|].
    destruct Hmade as (ds & Hds & Hlen); [reflexivity|repeat constructor|].
    exists ds. split; [exact Hds|]. split; [exact Hlen|].
    destruct (Hkeys ds Hds) as (_ & raw & Hraw & Hall).
    intros d Hd. destruct (Hall d Hd) as (Hdom & _ & Hvalue).
    destruct Hvalue as (x & Hx & Hsingle & _).
    { apply (bool_decide_unpack _). vm_compute. reflexivity. }
    split.
    + rewrite (Hsingle eq_refl) in Hx.
      vm_compute in Hraw. injection Hraw as <-. exact Hx.
    + rewrite Hdom. apply (bool_decide_unpack _). vm_compute. reflexivity.
Defined.

(** * [instantiate_dataclass] *)

Lemma init_field_keyed (kwargs attributes : dict) (f : Field.t) :
  Dataclass.init_field kwargs attributes f =
    keyed_step assigned (attribute_of kwargs) Field.name attributes f.
Proof.
  unfold Dataclass.init_field, keyed_step, assigned, attribute_of.
  destruct (Field.init f); simpl.
  - destruct (kwargs !! Field.name f); [done|].
    by destruct (Dataclass.default_of f).
  - destruct (Dataclass.default_of f) as [v|]; [|done].
    rewrite bool_decide_true by eauto. done.
Qed.

Lemma constructor_arg_keyed (args_dict acc : dict) (wrapped_field : FieldWrapper.t) :
  DataclassWrapper.constructor_arg args_dict acc wrapped_field =
    keyed_step participates (materialized args_dict) declared_name acc wrapped_field.
Proof.
  unfold DataclassWrapper.constructor_arg, keyed_step, participates, materialized,
    declared_name, assert_that.
  destruct (Field.init _); simpl; [|done].
  destruct (args_dict !! _) as [v|]; simpl; [|done].
  destruct (FieldWrapper.is_tuple_or_list_of_dataclasses _); simpl; [done|].
  destruct (enum.is_enum _); [by destruct (enum.getitem _ _)|].
  destruct (utils.is_tuple _); [by destruct (iterate v)|].
  destruct (utils.is_list _); [by destruct (iterate v)|].
  destruct (Field.type _); try done.
  by destruct v.
Qed.

Lemma constructor_arg_is_Ok (args_dict acc : dict) (wrapped_field : FieldWrapper.t) :
  is_Ok (DataclassWrapper.constructor_arg args_dict acc wrapped_field) ↔
  (participates wrapped_field = true → is_Ok (materialized args_dict wrapped_field)).
Proof.
  rewrite constructor_arg_keyed. unfold keyed_step.
  destruct (participates wrapped_field).
  - destruct (materialized args_dict wrapped_field) as [x|e]; simpl.
    + split; [by exists x|by eexists].
    + split; [by intros [? ?]|]. intros H. by destruct H as [? ?].
  - split; [done|by eexists].
Qed.

Section dataclass_call.
Context (dc : Dataclass.t) (kwargs : dict).

Lemma call_loop :
  Dataclass.call dc kwargs =
    if bool_decide (dom kwargs ⊆ Dataclass.init_names dc) then
      attributes ←
        for_each (keyed_step assigned (attribute_of kwargs) Field.name) ∅
          (Dataclass.fields dc);
      Ok (VInstance (Dataclass.name dc) attributes)
    else Raise (TypeError "unexpected keyword argument").
Proof.
  unfold Dataclass.call. case_bool_decide; [|done].
  by rewrite (for_each_ext _ _ _ _ (init_field_keyed kwargs)).
Qed.

Lemma call_getattr instance f x :
  Dataclass.valid dc →
  Dataclass.call dc kwargs = Ok instance →
  f ∈ Dataclass.fields dc →
  assigned f = true →
  attribute_of kwargs f = Ok x →
  getattr instance (Field.name f) = Some x.
Proof.
  intros Hvalid. rewrite call_loop. case_bool_decide; [|done].
  destruct (for_each _ _ _) as [attributes|e] eqn:Hloop; [|done].
  cbn [mbind result_bind]. intros [= <-] Hf Ha Hx. simpl.
  by eapply (keyed_loop_lookup _ _ Field.name) in Hloop.
Qed.

Lemma call_total :
  dom kwargs ⊆ Dataclass.init_names dc →
  Forall (λ f, Field.init f = true → is_Some (kwargs !! Field.name f)) (Dataclass.fields dc) →
  ∃ attributes, Dataclass.call dc kwargs = Ok (VInstance (Dataclass.name dc) attributes).
Proof.
  intros Hdom Hall. rewrite call_loop, bool_decide_true by done.
  destruct (keyed_loop_total assigned (attribute_of kwargs) Field.name
              (Dataclass.fields dc) ∅) as [attributes ->].
  - eapply Forall_impl; [exact Hall|]. intros f Hf Ha.
    unfold assigned, attribute_of in *.
    destruct (Field.init f); simpl in *.
    + destruct (Hf eq_refl) as [v ->]. by exists v.
    + apply bool_decide_eq_true in Ha as [v ->]. by exists v.
  - by exists attributes.
Qed.
End dataclass_call.

Section instantiate.
Context (self : DataclassWrapper.t) (args_dict : dict).
Hypothesis Hwf : well_formed self.

Lemma instantiate_loop :
  DataclassWrapper.instantiate_dataclass self args_dict =
    (constructor_args ←
       for_each (keyed_step participates (materialized args_dict) declared_name) ∅
         (DataclassWrapper.fields self);
     Dataclass.call (DataclassWrapper.dataclass self) constructor_args).
Proof.
  unfold DataclassWrapper.instantiate_dataclass.
  by rewrite (for_each_ext _ _ _ _ (constructor_arg_keyed args_dict)).
Qed.

Lemma declared_names :
  declared_name <$> DataclassWrapper.fields self
  = Field.name <$> Dataclass.fields (DataclassWrapper.dataclass self).
Proof. rewrite <- Hwf, <- list_fmap_compose. done. Qed.

Lemma wrapped_field_declared wrapped_field :
  wrapped_field ∈ DataclassWrapper.fields self →
  FieldWrapper.field wrapped_field ∈ Dataclass.fields (DataclassWrapper.dataclass self).
Proof. intros H. rewrite <- Hwf. by apply list_elem_of_fmap_2. Qed.

Lemma instantiate_getattr instance wrapped_field x :
  Dataclass.valid (DataclassWrapper.dataclass self) →
  DataclassWrapper.instantiate_dataclass self args_dict = Ok instance →
  wrapped_field ∈ DataclassWrapper.fields self →
  participates wrapped_field = true →
  materialized args_dict wrapped_field = Ok x →
  getattr instance (declared_name wrapped_field) = Some x.
Proof.
  intros Hvalid. rewrite instantiate_loop.
  destruct (for_each _ _ _) as [constructor_args|e] eqn:Hloop; [|done].
  cbn [mbind result_bind]. intros Hcall Hin Hp Hx.
  assert (Hkw : constructor_args !! declared_name wrapped_field = Some x).
  { eapply (keyed_loop_lookup _ _ declared_name) in Hloop; [done| |done..].
    rewrite declared_names. exact Hvalid. }
  apply (call_getattr _ _ _ (FieldWrapper.field wrapped_field) x Hvalid Hcall).
  - by apply wrapped_field_declared.
  - unfold assigned. unfold participates in Hp. by rewrite Hp.
  - unfold attribute_of. unfold participates in Hp. rewrite Hp.
    unfold declared_name in Hkw. by rewrite Hkw.
Qed.

Lemma instantiate_raises wrapped_field :
  wrapped_field ∈ DataclassWrapper.fields self →
  participates wrapped_field = true →
  raises (materialized args_dict wrapped_field) →
  raises (DataclassWrapper.instantiate_dataclass self args_dict).
Proof.
  intros Hin Hp Hr. rewrite instantiate_loop.
  destruct (keyed_loop_raises participates _ declared_name
              (DataclassWrapper.fields self) ∅ wrapped_field Hin Hp Hr) as [e ->].
  by exists e.
Qed.

Lemma instantiate_first_raise pre post wrapped_field e :
  DataclassWrapper.fields self = pre ++ wrapped_field :: post →
  Forall (λ w, is_Ok (DataclassWrapper.constructor_arg args_dict ∅ w)) pre →
  participates wrapped_field = true →
  materialized args_dict wrapped_field = Raise e →
  DataclassWrapper.instantiate_dataclass self args_dict = Raise e.
Proof.
  intros Hfields Hpre Hp He. rewrite instantiate_loop, Hfields.
  rewrite (keyed_loop_first_raise _ _ _ pre post ∅ wrapped_field e); [done| |done..].
  eapply Forall_impl; [exact Hpre|]. intros w Hw.
  exact (proj1 (constructor_arg_is_Ok _ _ _) Hw).
Qed.

Lemma instantiate_total :
  Forall (λ w, is_Ok (DataclassWrapper.constructor_arg args_dict ∅ w))
    (DataclassWrapper.fields self) →
  is_Ok (DataclassWrapper.instantiate_dataclass self args_dict).
Proof.
  intros Hall. rewrite instantiate_loop.
  destruct (keyed_loop_total participates (materialized args_dict) declared_name
              (DataclassWrapper.fields self) ∅) as [constructor_args Hloop].
  { eapply Forall_impl; [exact Hall|]. intros w Hw.
  exact (proj1 (constructor_arg_is_Ok _ _ _) Hw). }
  rewrite Hloop. cbn [mbind result_bind].
  pose proof (keyed_loop_dom _ _ _ _ _ _ Hloop) as Hdom.
  rewrite dom_empty_L, (left_id_L ∅ (∪)) in Hdom.
  destruct (call_total (DataclassWrapper.dataclass self) constructor_args)
    as [attributes ->]; [| |by eexists].
  - rewrite Hdom. intros key [w [-> Hw]]%elem_of_list_to_set%list_elem_of_fmap.
    apply list_elem_of_filter in Hw as [Hp Hw].
    apply elem_of_list_to_set, (list_elem_of_fmap_2 Field.name).
    apply list_elem_of_filter. split; [done|by apply wrapped_field_declared].
  - apply Forall_forall. intros f Hf Hinit.
    rewrite <- Hwf in Hf. apply list_elem_of_fmap in Hf as [w [-> Hw]].
    apply elem_of_dom. rewrite Hdom. apply elem_of_list_to_set.
    apply (list_elem_of_fmap_2 declared_name). by apply list_elem_of_filter.
Qed.
End instantiate.

(** * [instantiate_dataclass]: the claims *)

Section well_formed_wrappers.
Import DataclassWrapper.

Lemma wrap_fields_fields dc name_prefix declared wrapped σ :
  FieldWrapper.field <$> (wrap_fields dc name_prefix declared wrapped σ).1
  = (FieldWrapper.field <$> wrapped) ++ declared.
Proof.
  revert wrapped σ. induction declared as [|f declared IH]; intros wrapped σ; simpl.
  - by rewrite app_nil_r.
  - rewrite IH, fmap_app. simpl. by rewrite <- app_assoc.
Qed.

Lemma new_well_formed dc _prefix σ : well_formed (new dc _prefix σ).1.
Proof.
  unfold well_formed, new. simpl.
  pose proof (wrap_fields_fields dc _prefix (Dataclass.fields dc) [] σ) as H.
  destruct (wrap_fields _ _ _ _ _) as [wrapped σ']. simpl in *. done.
Qed.

Lemma set_prefix_well_formed self value :
  well_formed self → well_formed (set_prefix self value).
Proof.
  unfold well_formed. simpl. intros <-. rewrite <- list_fmap_compose.
  by apply list_fmap_ext.
Qed.

Lemma set_required_well_formed self value :
  well_formed self → well_formed (set_required self value).
Proof.
  unfold well_formed. simpl. intros <-. rewrite <- list_fmap_compose.
  by apply list_fmap_ext.
Qed.

Lemma set_multiple_fields_fields wrapped value σ :
  FieldWrapper.field <$> (set_multiple_fields wrapped value σ).1
  = FieldWrapper.field <$> wrapped.
Proof.
  revert σ. induction wrapped as [|w wrapped IH]; intros σ;
    cbn [set_multiple_fields]; [done|].
  destruct (FieldWrapper.set_multiple w value σ) as [w' σ1] eqn:Hw.
  specialize (IH σ1).
  destruct (set_multiple_fields wrapped value σ1) as [rest σ2].
  unfold FieldWrapper.set_multiple in Hw. injection Hw as <- _.
  cbn [fst] in *. rewrite !fmap_cons. by rewrite IH.
Qed.

Lemma set_multiple_well_formed self value σ :
  well_formed self → well_formed (set_multiple self value σ).1.
Proof.
  unfold well_formed, set_multiple. intros Hwf.
  pose proof (set_multiple_fields_fields (fields self) value σ) as H.
  destruct (set_multiple_fields _ _ _) as [wrapped σ']. cbn [fst] in *.
  cbn [fields dataclass]. by rewrite H.
Qed.
End well_formed_wrappers.

Lemma materialized_bool (args_dict : dict) (wrapped_field : FieldWrapper.t) (v : value) :
  Field.type (FieldWrapper.field wrapped_field) = TBool →
  args_dict !! declared_name wrapped_field = Some v →
  materialized args_dict wrapped_field =
    match v with
    | VNone =>
        Ok (VBool (negb (truthy match Field.default (FieldWrapper.field wrapped_field) with
                                | None => VBool false
                                | Some d => d
                                end)))
    | VBool b => Ok (VBool b)
    | _ => Raise (RuntimeError ("bool argument " +:+ declared_name wrapped_field
                                  +:+ " isn't bool"))
    end.
Proof.
  unfold materialized, declared_name, FieldWrapper.is_tuple_or_list_of_dataclasses.
  intros -> ->. simpl. by destruct v.
Qed.

Lemma materialized_enum (args_dict : dict) (wrapped_field : FieldWrapper.t)
    (name : string) (members : list string) (member : string) :
  Field.type (FieldWrapper.field wrapped_field) = TEnum name members →
  member ∈ members →
  args_dict !! declared_name wrapped_field = Some (VStr member) →
  materialized args_dict wrapped_field = Ok (VEnum (TEnum name members) member).
Proof.
  unfold materialized, declared_name, FieldWrapper.is_tuple_or_list_of_dataclasses.
  intros -> Hmember ->. simpl. by rewrite bool_decide_true.
Qed.

(** C5, as stated, fails: a boolean field whose default is declared by a
    factory has a declared default, here true, yet a parsed [None] gives
    true, the declared default itself and not its negation:
    [instantiate_dataclass] reads the default value of the field only and
    takes false when there is none. *)
Lemma boolean_materialization_counterexample :
  Field.default Examples.lazy_flag = None
  ∧ Dataclass.default_of Examples.lazy_flag = Some (VBool true)
  ∧ ∃ instance,
      DataclassWrapper.instantiate_dataclass
        (Examples.single
           (Dataclass.mk "Switch" [Examples.lazy_flag] Examples.no_docs) "")
        {[ "lazy_flag" := VNone ]} = Ok instance
      ∧ getattr instance "lazy_flag" = Some (VBool true)
      ∧ getattr instance "lazy_flag" ≠ Some (VBool (negb true)).
Proof.
  split; [reflexivity|]. split; [reflexivity|].
  eexists. split; [reflexivity|]. split; [reflexivity|].
  vm_compute. discriminate.
Qed.

(** C5, amended. While [instantiate_dataclass] materializes a boolean
    field: if the parsed value is [None], the constructor argument is the
    logical negation of the declared default value of the field, taken as
    false when no default value is declared, also when a default factory
    is; if the parsed value is a boolean, it passes through unchanged; for
    any other value it raises ([RuntimeError] when it gets to the field),
    and when the other fields materialize it raises in exactly those
    cases. *)
Theorem boolean_materialization
    (self : DataclassWrapper.t) (args_dict : dict)
    (wrapped_field : FieldWrapper.t) (v : value) :
  well_formed self →
  Dataclass.valid (DataclassWrapper.dataclass self) →
  wrapped_field ∈ DataclassWrapper.fields self →
  Field.init (FieldWrapper.field wrapped_field) = true →
  Field.type (FieldWrapper.field wrapped_field) = TBool →
  args_dict !! Field.name (FieldWrapper.field wrapped_field) = Some v →
  let declared := Field.name (FieldWrapper.field wrapped_field) in
  let default_value :=
    match Field.default (FieldWrapper.field wrapped_field) with
    | None => VBool false
    | Some d => d
    end in
  let made := DataclassWrapper.instantiate_dataclass self args_dict in
  (v = VNone →
   (∀ acc, DataclassWrapper.constructor_arg args_dict acc wrapped_field
           = Ok (<[declared := VBool (negb (truthy default_value))]> acc))
   ∧ ∀ instance, made = Ok instance →
       getattr instance declared = Some (VBool (negb (truthy default_value))))
  ∧ (∀ b, v = VBool b →
     (∀ acc, DataclassWrapper.constructor_arg args_dict acc wrapped_field
             = Ok (<[declared := VBool b]> acc))
     ∧ ∀ instance, made = Ok instance → getattr instance declared = Some (VBool b))
  ∧ (v ≠ VNone → (∀ b, v ≠ VBool b) →
     (∀ acc, DataclassWrapper.constructor_arg args_dict acc wrapped_field
             = Raise (RuntimeError ("bool argument " +:+ declared +:+ " isn't bool")))
     ∧ raises made
     ∧ ∀ pre post,
         DataclassWrapper.fields self = pre ++ wrapped_field :: post →
         Forall (λ w, is_Ok (DataclassWrapper.constructor_arg args_dict ∅ w)) pre →
         made = Raise (RuntimeError ("bool argument " +:+ declared +:+ " isn't bool")))
  ∧ (Forall (λ w, w = wrapped_field
                  ∨ is_Ok (DataclassWrapper.constructor_arg args_dict ∅ w))
       (DataclassWrapper.fields self) →
     (raises made ↔ v ≠ VNone ∧ ∀ b, v ≠ VBool b)
     ∧ (is_Ok made ↔ v = VNone ∨ ∃ b, v = VBool b)).
Proof.
  intros Hwf Hvalid Hin Hinit Htype Hv declared default_value made.
  pose proof (materialized_bool args_dict wrapped_field v Htype Hv) as Hmat.
  fold default_value in Hmat. fold (declared_name wrapped_field) in declared.
  assert (Hstep : ∀ acc, DataclassWrapper.constructor_arg args_dict acc wrapped_field
            = x ← materialized args_dict wrapped_field; Ok (<[declared := x]> acc)).
  { intros acc. rewrite constructor_arg_keyed. unfold keyed_step, participates.
    by rewrite Hinit. }
  assert (Hbad : v ≠ VNone → (∀ b, v ≠ VBool b) →
            materialized args_dict wrapped_field
            = Raise (RuntimeError ("bool argument " +:+ declared +:+ " isn't bool"))).
  { intros Hnone Hbool. rewrite Hmat. destruct v; try done. by destruct (Hbool b). }
  assert (Hraises : v ≠ VNone → (∀ b, v ≠ VBool b) → raises made).
  { intros Hnone Hbool. apply (instantiate_raises self args_dict wrapped_field);
      [done..|]. rewrite Hbad by done. by eexists. }
  split_and!.
  - intros ->. split.
    + intros acc. by rewrite Hstep, Hmat.
    + intros instance Hmade.
      by apply (instantiate_getattr self args_dict Hwf instance wrapped_field).
  - intros b ->. split.
    + intros acc. by rewrite Hstep, Hmat.
    + intros instance Hmade.
      by apply (instantiate_getattr self args_dict Hwf instance wrapped_field).
  - intros Hnone Hbool. split_and!.
    + intros acc. by rewrite Hstep, Hbad.
    + by apply Hraises.
    + intros pre post Hfields Hpre.
      by apply (instantiate_first_raise self args_dict pre post wrapped_field); auto.
  - intros Hothers.
    assert (Hgood : v = VNone ∨ (∃ b, v = VBool b) → is_Ok made).
    { intros Hgood. apply instantiate_total; [done|].
      eapply Forall_impl; [exact Hothers|]. intros w [->|Hw]; [|done].
      rewrite Hstep, Hmat. destruct Hgood as [->|[b ->]]; by eexists. }
    assert (Hcases : (v = VNone ∨ ∃ b, v = VBool b) ∨ (v ≠ VNone ∧ ∀ b, v ≠ VBool b)).
    { destruct v; eauto; right; done. }
    split; split.
    + intros [e He]. destruct Hcases as [Hg|Hb]; [|done].
      destruct (Hgood Hg) as [instance Hi]. congruence.
    + intros [Hnone Hbool]. by apply Hraises.
    + intros [instance Hi]. destruct Hcases as [Hg|[Hnone Hbool]]; [done|].
      destruct (Hraises Hnone Hbool) as [e He]. congruence.
    + done.
Qed.

Lemma boolean_materialization_witness :
  ∃ instance,
    DataclassWrapper.instantiate_dataclass (Examples.single Examples.Config "")
      (list_to_map [("count", VInt 1); ("color", VStr "RED");
                    ("flag", VNone); ("sizes", VList [])]) = Ok instance
    ∧ getattr instance "flag" = Some (VBool true).
Proof.
  destruct (boolean_materialization (Examples.single Examples.Config "")
              (list_to_map [("count", VInt 1); ("color", VStr "RED");
                            ("flag", VNone); ("sizes", VList [])])
              (FieldWrapper.mk Examples.flag "" 2 None false None) VNone)
    as (Hnone & _ & _ & Hexact).
  - reflexivity.
  - apply (bool_decide_unpack _). vm_compute. reflexivity.
  - right. right. left.
  - reflexivity.
  - reflexivity.
  - reflexivity.
  - destruct Hexact as [_ [_ Hok]].
    { repeat (constructor; [right; eexists; reflexivity|]). constructor. }
    destruct Hok as [instance Hinstance]; [left; reflexivity|].
    exists instance. split; [exact Hinstance|].
    exact (proj2 (Hnone eq_refl) instance Hinstance).
Defined.

(** C9, as stated, fails: an enumeration field that does not participate
    in construction is skipped, so the instance keeps the declared default
    whatever name the argument dict holds for it. *)
Lemma enum_round_trip_counterexample :
  ∃ instance,
    DataclassWrapper.instantiate_dataclass (Examples.single Examples.Palette "")
      {[ "color" := VStr "RED" ]} = Ok instance
    ∧ getattr instance "color" = Some (VEnum Examples.Color "GREEN")
    ∧ getattr instance "color" ≠ Some (VEnum Examples.Color "RED").
Proof.
  eexists. split; [reflexivity|]. split; [reflexivity|].
  vm_compute. discriminate.
Qed.

(** C9, amended. Round trip for enumerations: for every enumeration field
    that participates in construction and every member M of its enum type,
    instantiating from an argument dict that maps the field's name to M's
    name string yields an instance whose field equals M; the instance is
    made when the other fields materialize. *)
Theorem enum_round_trip
    (self : DataclassWrapper.t) (args_dict : dict) (wrapped_field : FieldWrapper.t)
    (name : string) (members : list string) (member : string) :
  well_formed self →
  Dataclass.valid (DataclassWrapper.dataclass self) →
  wrapped_field ∈ DataclassWrapper.fields self →
  Field.init (FieldWrapper.field wrapped_field) = true →
  Field.type (FieldWrapper.field wrapped_field) = TEnum name members →
  member ∈ members →
  args_dict !! Field.name (FieldWrapper.field wrapped_field) = Some (VStr member) →
  let made := DataclassWrapper.instantiate_dataclass self args_dict in
  (∀ instance, made = Ok instance →
     getattr instance (Field.name (FieldWrapper.field wrapped_field))
     = Some (VEnum (TEnum name members) member))
  ∧ (Forall (λ w, w = wrapped_field
                  ∨ is_Ok (DataclassWrapper.constructor_arg args_dict ∅ w))
       (DataclassWrapper.fields self) →
     is_Ok made).
Proof.
  intros Hwf Hvalid Hin Hinit Htype Hmember Hv made.
  pose proof (materialized_enum args_dict wrapped_field name members member
                Htype Hmember Hv) as Hmat.
  split.
  - intros instance Hmade.
    by apply (instantiate_getattr self args_dict Hwf instance wrapped_field).
  - intros Hothers. apply instantiate_total; [done|].
    eapply Forall_impl; [exact Hothers|]. intros w [->|Hw]; [|done].
    apply constructor_arg_is_Ok. intros _. by eexists.
Qed.

Lemma enum_round_trip_witness :
  ∃ instance,
    DataclassWrapper.instantiate_dataclass (Examples.single Examples.Config "")
      (list_to_map [("count", VInt 1); ("color", VStr "BLUE");
                    ("flag", VNone); ("sizes", VList [])]) = Ok instance
    ∧ getattr instance "color" = Some (VEnum Examples.Color "BLUE").
Proof.
  destruct (enum_round_trip (Examples.single Examples.Config "")
              (list_to_map [("count", VInt 1); ("color", VStr "BLUE");
                            ("flag", VNone); ("sizes", VList [])])
              (FieldWrapper.mk Examples.color "" 1 None false None)
              "Color" ["RED"; "GREEN"; "BLUE"] "BLUE")
    as (Hfield & Hmade).
  - reflexivity.
  - apply (bool_decide_unpack _). vm_compute. reflexivity.
  - right. left.
  - reflexivity.
  - reflexivity.
  - right. right. left.
  - reflexivity.
  - destruct Hmade as [instance Hinstance].
    { repeat (constructor; [right; eexists; reflexivity|]). constructor. }
    exists instance. split; [exact Hinstance|].
    exact (Hfield instance Hinstance).
Defined.

(** * The [required] override *)

Section required_override.
Import FieldWrapper.

Lemma required_overridden self value :
  _required self = Some value → required self = value.
Proof. unfold required. by intros ->. Qed.

Lemma perform_required self σ a :
  ∃ self' σ', perform (self, σ) a = Ok (self', σ') ∧ _required self' = _required self.
Proof.
  destruct a as [s|b| |]; simpl; try by eauto.
  unfold arg_options. destruct (dict_truthy _); [by eauto|].
  destruct (get_arg_options_total self) as [d ->]. simpl. by eauto.
Qed.

Lemma perform_all_required accesses self σ :
  ∃ self' σ',
    for_each perform (self, σ) accesses = Ok (self', σ')
    ∧ _required self' = _required self.
Proof.
  revert self σ. induction accesses as [|a accesses IH]; intros self σ;
    cbn [for_each]; [by eauto|].
  destruct (perform_required self σ a) as (self1 & σ1 & -> & H1).
  cbn [mbind result_bind].
  destruct (IH self1 σ1) as (self' & σ' & -> & H'). exists self', σ'.
  split; [done|congruence].
Qed.

Lemma set_multiple_fields_required wrapped value σ w :
  w ∈ (DataclassWrapper.set_multiple_fields wrapped value σ).1 →
  ∃ w0, w0 ∈ wrapped ∧ _required w = _required w0.
Proof.
  revert σ. induction wrapped as [|w1 wrapped IH]; intros σ;
    cbn [DataclassWrapper.set_multiple_fields].
  - by intros ?%elem_of_nil.
  - destruct (set_multiple w1 value σ) as [w1' σ1] eqn:Hw1.
    specialize (IH σ1).
    destruct (DataclassWrapper.set_multiple_fields wrapped value σ1) as [rest σ2].
    unfold set_multiple in Hw1. injection Hw1 as <- _. cbn [fst] in *.
    intros [->|Hw]%elem_of_cons.
    + exists w1. split; [by left|done].
    + destruct (IH Hw) as (w0 & Hw0 & Heq). exists w0. split; [by right|done].
Qed.
End required_override.

(** C8. Once the override of a field wrapper has been set (directly, or by
    setting [required] on the owning dataclass wrapper, which sets it on
    every field wrapper it owns and changes nothing else about them), the
    [required] property of the field equals the override, whatever default
    or default factory the field declares, and keeps doing so on every
    later read: after any sequence of other accesses to the field wrapper,
    and after setting the prefix or [multiple] on the owning dataclass
    wrapper. *)
Theorem required_override_takes_precedence (value : bool) :
  (∀ self,
     FieldWrapper.required (FieldWrapper.set_required self value) = value
     ∧ FieldWrapper.field (FieldWrapper.set_required self value) = FieldWrapper.field self
     ∧ FieldWrapper.name (FieldWrapper.set_required self value) = FieldWrapper.name self
     ∧ FieldWrapper.multiple (FieldWrapper.set_required self value)
       = FieldWrapper.multiple self
     ∧ FieldWrapper._arg_options (FieldWrapper.set_required self value)
       = FieldWrapper._arg_options self)
  ∧ (∀ record,
       DataclassWrapper.required (DataclassWrapper.set_required record value) = value
       ∧ DataclassWrapper.dataclass (DataclassWrapper.set_required record value)
         = DataclassWrapper.dataclass record
       ∧ DataclassWrapper.prefix (DataclassWrapper.set_required record value)
         = DataclassWrapper.prefix record
       ∧ DataclassWrapper.multiple (DataclassWrapper.set_required record value)
         = DataclassWrapper.multiple record
       ∧ length (DataclassWrapper.fields (DataclassWrapper.set_required record value))
         = length (DataclassWrapper.fields record)
       ∧ (∀ i owned, DataclassWrapper.fields record !! i = Some owned →
            DataclassWrapper.fields (DataclassWrapper.set_required record value) !! i
            = Some (FieldWrapper.set_required owned value))
       ∧ ∀ wrapped_field,
           wrapped_field ∈ DataclassWrapper.fields
                             (DataclassWrapper.set_required record value) →
           FieldWrapper._required wrapped_field = Some value
           ∧ FieldWrapper.required wrapped_field = value)
  ∧ (∀ self σ accesses,
       FieldWrapper._required self = Some value →
       ∃ self' σ',
         for_each perform (self, σ) accesses = Ok (self', σ')
         ∧ FieldWrapper.required self' = value)
  ∧ (∀ record,
       (∀ w, w ∈ DataclassWrapper.fields record → FieldWrapper._required w = Some value) →
       (∀ prefix w,
          w ∈ DataclassWrapper.fields (DataclassWrapper.set_prefix record prefix) →
          FieldWrapper.required w = value)
       ∧ (∀ multiple σ w,
            w ∈ DataclassWrapper.fields
                  (DataclassWrapper.set_multiple record multiple σ).1 →
            FieldWrapper.required w = value)).
Proof.
  split_and!.
  - done.
  - intros record. split_and!; try done.
    + cbn [DataclassWrapper.set_required DataclassWrapper.fields].
      by rewrite length_fmap.
    + intros i owned Howned.
      cbn [DataclassWrapper.set_required DataclassWrapper.fields].
      by rewrite list_lookup_fmap, Howned.
    + intros w [w0 [-> _]]%list_elem_of_fmap. done.
  - intros self σ accesses Hset.
    destruct (perform_all_required accesses self σ) as (self' & σ' & Hrun & Hsame).
    exists self', σ'. split; [done|].
    apply required_overridden. congruence.
  - intros record Hall. split.
    + intros prefix w [w0 [-> Hw0]]%list_elem_of_fmap.
      apply required_overridden. simpl. by apply Hall.
    + intros multiple σ w Hw.
      unfold DataclassWrapper.set_multiple in Hw.
      pose proof (set_multiple_fields_required
                    (DataclassWrapper.fields record) multiple σ w) as Hfields.
      destruct (DataclassWrapper.set_multiple_fields _ _ _) as [wrapped σ'].
      cbn [fst DataclassWrapper.fields] in *.
      destruct (Hfields Hw) as (w0 & Hw0 & Heq).
      apply required_overridden. rewrite Heq. by apply Hall.
Qed.

Lemma required_override_takes_precedence_witness :
  FieldWrapper.required (Examples.wrap Examples.count false) = false
  ∧ (∃ owned,
       DataclassWrapper.fields
         (DataclassWrapper.set_required (Examples.single Examples.Config "") true) !! 0
       = Some owned
       ∧ FieldWrapper.field owned = Examples.count
       ∧ FieldWrapper.required owned = true)
  ∧ ∃ self' σ',
      for_each perform
        (FieldWrapper.set_required (Examples.wrap Examples.count false) true, [∅])
        [Get_arg_options; Set_multiple true; Get_required; Get_arg_options;
         Set_name_prefix "cfg."] = Ok (self', σ')
      ∧ FieldWrapper.required self' = true.
Proof.
  split; [reflexivity|].
  destruct (required_override_takes_precedence true) as (Hfield & Hrecord & Hlater & _).
  split.
  - destruct (Hrecord (Examples.single Examples.Config ""))
      as (_ & _ & _ & _ & _ & Howned & _).
    exists (FieldWrapper.set_required (Examples.wrap Examples.count false) true).
    split; [exact (Howned 0 (Examples.wrap Examples.count false) eq_refl)|].
    destruct (Hfield (Examples.wrap Examples.count false)) as (Hreq & Hf & _).
    split; [exact Hf|exact Hreq].
  - apply Hlater. reflexivity.
Defined.

(** * The examples of the specification, run on the model *)

Section specification_examples.
Import Examples.

Let arguments (count : value) : dict :=
  list_to_map [("count", count); ("color", VList [VStr "RED"]);
               ("flag", VList [VNone]); ("sizes", VList [VList []])].

Example broadcast_example :
  ∃ ds, DataclassWrapper.get_constructor_arguments (several Config "")
          (arguments (VList [VInt 7])) 3 = Ok ds
      ∧ (λ d : dict, d !! "count") <$> ds
        = [Some (VInt 7); Some (VInt 7); Some (VInt 7)].
Proof. eexists. split; reflexivity. Qed.

Example distribute_example :
  ∃ ds, DataclassWrapper.get_constructor_arguments (several Config "")
          (arguments (VList [VInt 1; VInt 2; VInt 3])) 3 = Ok ds
      ∧ (λ d : dict, d !! "count") <$> ds
        = [Some (VInt 1); Some (VInt 2); Some (VInt 3)].
Proof. eexists. split; reflexivity. Qed.

Example inconsistent_example :
  DataclassWrapper.get_constructor_arguments (several Config "")
    (arguments (VList [VInt 1; VInt 2])) 3
  = Raise (InconsistentArgumentError
             "The field 'count' contains 2 values, but either 1 or 3 values were expected.").
Proof. reflexivity. Qed.

Example single_instance_example :
  ∃ d, DataclassWrapper.get_constructor_arguments (single Config "cfg.")
         (list_to_map [("cfg.count", VInt 1); ("cfg.color", VStr "RED");
                       ("cfg.flag", VNone); ("cfg.sizes", VList [])]) 1 = Ok [d]
     ∧ d !! "count" = Some (VInt 1) ∧ d !! "cfg.count" = None.
Proof. eexists. split_and!; reflexivity. Qed.

Example mode_mismatch_example :
  DataclassWrapper.get_constructor_arguments (single Config "") ∅ 2
  = Raise (AssertionError
             "multiple is false but we're expected to instantiate more than one instance").
Proof. reflexivity. Qed.

Example boolean_toggle_example :
  DataclassWrapper.constructor_arg {[ "flag" := VNone ]} ∅ (wrap flag false)
    = Ok {[ "flag" := VBool true ]}
  ∧ DataclassWrapper.constructor_arg {[ "flag" := VBool true ]} ∅ (wrap flag false)
    = Ok {[ "flag" := VBool true ]}
  ∧ DataclassWrapper.constructor_arg {[ "flag" := VStr "yes" ]} ∅ (wrap flag false)
    = Raise (RuntimeError "bool argument flag isn't bool").
Proof. split_and!; reflexivity. Qed.

Example scalar_default_example :
  ∃ d, FieldWrapper._get_arg_options (wrap count false) = Ok d
     ∧ d !! "default" = Some (VInt 5) ∧ d !! "required" = None
     ∧ d !! "type" = Some (VType TInt) ∧ d !! "nargs" = None.
Proof. eexists. split_and!; reflexivity. Qed.

Example required_boolean_example :
  ∃ d, FieldWrapper._get_arg_options
         (wrap (Field.mk "verbose" TBool None None true) false) = Ok d
     ∧ d !! "default" = Some (VBool false) ∧ d !! "required" = Some (VBool true)
     ∧ d !! "nargs" = Some (VStr "?") ∧ d !! "type" = Some (VFunc str2bool).
Proof. eexists. split_and!; reflexivity. Qed.

Example list_field_example :
  ∃ d, FieldWrapper._get_arg_options (wrap sizes true) = Ok d
     ∧ d !! "type" = Some (VFunc (_parse_multiple_containers (TList TInt)))
     ∧ d !! "nargs" = Some (VStr "+") ∧ d !! "required" = Some (VBool true).
Proof. eexists. split_and!; reflexivity. Qed.

Example characters_example :
  characters "né!" = ["n"; "é"; "!"] ∧ characters "" = []
  ∧ iterate (VStr "né") = Ok [VStr "n"; VStr "é"].
Proof. split_and!; reflexivity. Qed.

Example unhashable_key_example :
  enum.getitem Color (VList [VStr "RED"]) = Raise (TypeError "unhashable type")
  ∧ enum.getitem Color (VStr "PURPLE") = Raise (KeyError "PURPLE")
  ∧ enum.getitem Color (VStr "RED") = Ok (VEnum Color "RED").
Proof. split_and!; reflexivity. Qed.
End specification_examples.

(** * More on the derived options *)

Section options_by_block.
Import FieldWrapper.

Ltac lookup_through :=
  repeat first
    [ rewrite lookup_insert_eq
    | rewrite lookup_insert_ne by done
    | rewrite enum_options_lookup by done
    | rewrite (proj1 (enum_options_choices _ _))
    | rewrite (proj2 (enum_options_choices _ _))
    | rewrite lookup_singleton_eq
    | rewrite lookup_singleton_ne by done ].

Ltac by_category self :=
  destruct (Field.type (field self)) eqn:?Ht; simpl;
  (destruct (Field.default (field self));
   [|destruct (Field.default_factory (field self))]);
  simpl; destruct (multiple self); lookup_through;
  rewrite ?help_options_lookup by done; lookup_through;
  rewrite ?Ht; done.

Lemma single_options_help self :
  single_options self !! "help"
  = help_options self {[ "type" := VType (Field.type (field self)) ]} !! "help".
Proof.
  unfold single_options, category_options, default_options, bool_options,
    container_options.
  destruct (Field.type (field self)) eqn:Ht; simpl;
    (destruct (Field.default (field self));
     [|destruct (Field.default_factory (field self))]);
    simpl; destruct (multiple self); lookup_through; done.
Qed.

Lemma single_options_type_entry self :
  let t := Field.type (field self) in
  single_options self !! "type" =
    Some (if enum.is_enum t then VType TStr
          else if utils.is_tuple_or_list t then
            if multiple self then VFunc (_parse_multiple_containers t)
            else VType (utils.get_argparse_container_type t)
          else if is_bool t then VFunc str2bool
          else VType t).
Proof.
  unfold single_options, category_options, default_options, bool_options,
    container_options.
  by_category self.
Qed.

Lemma single_options_nargs self :
  let t := Field.type (field self) in
  single_options self !! "nargs" =
    if utils.is_tuple_or_list t then Some (VStr "*")
    else if is_bool t then Some (VStr (if multiple self then "*" else "?"))
    else None.
Proof.
  unfold single_options, category_options, default_options, bool_options,
    container_options.
  by_category self.
Qed.

Lemma single_options_choices self :
  let t := Field.type (field self) in
  single_options self !! "choices" =
    if enum.is_enum t then Some (VList (VStr <$> enum.names t)) else None.
Proof.
  unfold single_options, category_options, default_options, bool_options,
    container_options.
  by_category self.
Qed.

(** The entries of the final options, read off the entries before the
    multiple-mode block. *)
Lemma get_arg_options_entries self :
  exposed self = true →
  ∃ d, _get_arg_options self = Ok d
    ∧ d !! "required" = single_options self !! "required"
    ∧ d !! "type" = single_options self !! "type"
    ∧ d !! "help" = single_options self !! "help"
    ∧ d !! "choices" = single_options self !! "choices"
    ∧ d !! "nargs" =
        (if multiple self
         then Some (VStr (match single_options self !! "required" with
                          | Some _ => "+"
                          | None => "*"
                          end))
         else single_options self !! "nargs")
    ∧ d !! "default" =
        match single_options self !! "required" with
        | Some _ => single_options self !! "default"
        | None => listed (multiple self) <$> single_options self !! "default"
        end.
Proof.
  intros He. destruct (multiple self) eqn:Hm.
  - destruct (get_arg_options_multiple self He Hm) as (d & Hd & Hmo).
    exists d. split; [done|].
    apply multiple_options_lookup in Hmo as (Hr & Htrue & Hnone & Hkeys).
    destruct (single_options_required self) as [Hreq|[Hreq _]]; rewrite Hreq.
    + split_and!; [by rewrite Hr|by apply Hkeys..|by apply Htrue|by apply Htrue].
    + destruct (Hnone Hreq) as (Hnargs & v & Hv & Hdv).
      split_and!; [by rewrite Hr|by apply Hkeys..|done|].
      by rewrite Hdv, Hv.
  - rewrite get_arg_options_exposed, Hm by done.
    eexists. split; [done|]. split_and!; try done.
    unfold listed. destruct (_ !! "required"); [done|]. by destruct (_ !! "default").
Qed.
End options_by_block.

(** X1. The help text of an exposed field is the text below the field when
    there is one, else the comment above, else the inline comment; without
    any text, or without a docstring, the options have no [help] entry. No
    later block and neither mode changes it. *)
Theorem help_text_priority (self : FieldWrapper.t) :
  exposed self = true →
  ∃ d, FieldWrapper._get_arg_options self = Ok d
    ∧ (FieldWrapper._docstring self = None → d !! "help" = None)
    ∧ ∀ texts, FieldWrapper._docstring self = Some texts →
        let below := docstring.docstring_below texts in
        let above := docstring.comment_above texts in
        let inline := docstring.comment_inline texts in
        (below ≠ "" → d !! "help" = Some (VStr below))
        ∧ (below = "" → above ≠ "" → d !! "help" = Some (VStr above))
        ∧ (below = "" → above = "" → inline ≠ "" → d !! "help" = Some (VStr inline))
        ∧ (below = "" → above = "" → inline = "" → d !! "help" = None).
Proof.
  intros He.
  destruct (get_arg_options_entries self He) as (d & Hd & _ & _ & Hhelp & _).
  exists d. split; [done|].
  split.
  - intros Hnone. rewrite Hhelp, single_options_help.
    unfold FieldWrapper.help_options. by rewrite Hnone.
  - intros texts Htexts below above inline.
    rewrite Hhelp, single_options_help.
    unfold FieldWrapper.help_options, docstring.present. rewrite Htexts.
    fold below above inline.
    assert (Heqb : ∀ s, s ≠ "" → String.eqb s "" = false).
    { intros s Hs. by apply String.eqb_neq. }
    split_and!.
    + intros Hb. rewrite (Heqb _ Hb). simpl. by rewrite lookup_insert_eq.
    + intros -> Ha. rewrite (Heqb _ Ha). simpl. by rewrite lookup_insert_eq.
    + intros -> -> Hi. rewrite (Heqb _ Hi). simpl. by rewrite lookup_insert_eq.
    + intros -> -> ->. done.
Qed.

Lemma help_text_priority_witness :
  ∃ d, FieldWrapper._get_arg_options
         (FieldWrapper.mk Examples.count "" 0
            (Some (docstring.mk "how many" "inline text" "")) true None) = Ok d
    ∧ d !! "help" = Some (VStr "how many").
Proof.
  destruct (help_text_priority
              (FieldWrapper.mk Examples.count "" 0
                 (Some (docstring.mk "how many" "inline text" "")) true None))
    as (d & Hd & _ & Htexts); [reflexivity|].
  exists d. split; [exact Hd|].
  destruct (Htexts _ eq_refl) as (_ & Habove & _).
  apply Habove; [reflexivity|discriminate].
Defined.

(** X2. An exposed list or tuple field takes any number of tokens: in the
    single mode [nargs] is "*" and [type] is the element type; in multiple
    mode [type] is the parser of whole groups, and [nargs] is "+" when the
    field has no default and "*" otherwise. It has no [choices], and its
    default, if any, is the declared one (in a single-element list in
    multiple mode). *)
Theorem container_field_options (self : FieldWrapper.t) :
  exposed self = true →
  utils.is_tuple_or_list (Field.type (FieldWrapper.field self)) = true →
  let f := FieldWrapper.field self in
  ∃ d, FieldWrapper._get_arg_options self = Ok d
    ∧ d !! "type" =
        Some (if FieldWrapper.multiple self
              then VFunc (_parse_multiple_containers (Field.type f))
              else VType (utils.get_argparse_container_type (Field.type f)))
    ∧ d !! "nargs" =
        Some (VStr (if FieldWrapper.multiple self
                       && is_MISSING (Field.default f)
                       && is_MISSING (Field.default_factory f)
                    then "+" else "*"))
    ∧ d !! "choices" = None
    ∧ d !! "default" = listed (FieldWrapper.multiple self) <$> Dataclass.default_of f.
Proof.
  intros He Hc f. subst f.
  destruct (get_arg_options_entries self He)
    as (d & Hd & _ & Htype & _ & Hchoices & Hnargs & Hdefault).
  exists d. split; [done|].
  rewrite Htype, Hchoices, Hnargs, Hdefault.
  rewrite single_options_type_entry, single_options_choices, single_options_nargs,
    single_options_required_lookup, single_options_default.
  cbv zeta.
  assert (Hkind : enum.is_enum (Field.type (FieldWrapper.field self)) = false
                  ∧ is_bool (Field.type (FieldWrapper.field self)) = false).
  { by destruct (Field.type (FieldWrapper.field self)). }
  destruct Hkind as [Henum Hbool]. rewrite Hc, Henum, Hbool.
  assert (Hnorm : normalized (FieldWrapper.field self)
                    <$> Dataclass.default_of (FieldWrapper.field self)
                  = Dataclass.default_of (FieldWrapper.field self)).
  { unfold normalized. rewrite Henum. by destruct (Dataclass.default_of _). }
  rewrite Hnorm. unfold Dataclass.default_of.
  destruct (FieldWrapper.multiple self), (Field.default (FieldWrapper.field self)),
    (Field.default_factory (FieldWrapper.field self)); done.
Qed.

Lemma container_field_options_witness :
  ∃ d, FieldWrapper._get_arg_options (Examples.wrap Examples.sizes false) = Ok d
    ∧ d !! "type" = Some (VType TInt) ∧ d !! "nargs" = Some (VStr "*").
Proof.
  destruct (container_field_options (Examples.wrap Examples.sizes false))
    as (d & Hd & Htype & Hnargs & _); [reflexivity..|].
  exists d. split_and!; [exact Hd|exact Htype|exact Hnargs].
Defined.

(** X3. An exposed boolean field is decoded by the boolean-string parser
    and always has a [default], the declared value or false. Without a
    declared value it is [required] all the same. In the single mode the
    flag takes at most one token ([nargs] "?"); in multiple mode [nargs] is
    "+" without a declared value, and otherwise "*" with the default in a
    single-element list. *)
Theorem boolean_field_options (self : FieldWrapper.t) :
  Field.init (FieldWrapper.field self) = true →
  Field.type (FieldWrapper.field self) = TBool →
  let f := FieldWrapper.field self in
  ∃ d, FieldWrapper._get_arg_options self = Ok d
    ∧ d !! "type" = Some (VFunc str2bool)
    ∧ d !! "required" = (if is_MISSING (Field.default f) then Some (VBool true) else None)
    ∧ d !! "nargs" =
        Some (VStr (if FieldWrapper.multiple self
                    then (if is_MISSING (Field.default f) then "+" else "*")
                    else "?"))
    ∧ d !! "default" =
        Some (match Field.default f with
              | Some v => listed (FieldWrapper.multiple self) v
              | None => VBool false
              end).
Proof.
  intros Hinit Ht f. subst f.
  assert (He : exposed self = true).
  { unfold exposed, FieldWrapper.is_dataclass,
      FieldWrapper.is_tuple_or_list_of_dataclasses. by rewrite Hinit, Ht. }
  destruct (get_arg_options_entries self He)
    as (d & Hd & Hreq & Htype & _ & _ & Hnargs & Hdefault).
  exists d. split; [done|].
  rewrite Hreq, Htype, Hnargs, Hdefault.
  rewrite single_options_type_entry, single_options_nargs,
    single_options_required_lookup, single_options_default.
  cbv zeta. rewrite Ht. simpl.
  destruct (FieldWrapper.multiple self), (Field.default (FieldWrapper.field self)); done.
Qed.

Lemma boolean_field_options_witness :
  ∃ d, FieldWrapper._get_arg_options (Examples.wrap Examples.lazy_flag true) = Ok d
    ∧ d !! "nargs" = Some (VStr "+") ∧ d !! "default" = Some (VBool false).
Proof.
  destruct (boolean_field_options (Examples.wrap Examples.lazy_flag true))
    as (d & Hd & _ & _ & Hnargs & Hdefault); [reflexivity..|].
  exists d. split_and!; [exact Hd|exact Hnargs|exact Hdefault].
Defined.

(** X4. An exposed field that is neither an enumeration, nor a list or
    tuple, nor a boolean is converted by its own declared type, has no
    [choices], and has no [nargs] in the single mode (one token); in
    multiple mode [nargs] is "+" when it has no default and "*" otherwise. *)
Theorem scalar_field_options (self : FieldWrapper.t) :
  exposed self = true →
  enum.is_enum (Field.type (FieldWrapper.field self)) = false →
  utils.is_tuple_or_list (Field.type (FieldWrapper.field self)) = false →
  is_bool (Field.type (FieldWrapper.field self)) = false →
  let f := FieldWrapper.field self in
  ∃ d, FieldWrapper._get_arg_options self = Ok d
    ∧ d !! "type" = Some (VType (Field.type f))
    ∧ d !! "choices" = None
    ∧ d !! "nargs" =
        (if FieldWrapper.multiple self
         then Some (VStr (if is_MISSING (Field.default f)
                             && is_MISSING (Field.default_factory f)
                          then "+" else "*"))
         else None).
Proof.
  intros He Henum Hc Hbool f. subst f.
  destruct (get_arg_options_entries self He)
    as (d & Hd & _ & Htype & _ & Hchoices & Hnargs & _).
  exists d. split; [done|].
  rewrite Htype, Hchoices, Hnargs.
  rewrite single_options_type_entry, single_options_choices, single_options_nargs,
    single_options_required_lookup.
  cbv zeta. rewrite Henum, Hc, Hbool. simpl.
  destruct (FieldWrapper.multiple self), (Field.default (FieldWrapper.field self)),
    (Field.default_factory (FieldWrapper.field self)); done.
Qed.

Lemma scalar_field_options_witness :
  ∃ d, FieldWrapper._get_arg_options (Examples.wrap Examples.count true) = Ok d
    ∧ d !! "type" = Some (VType TInt) ∧ d !! "nargs" = Some (VStr "*").
Proof.
  destruct (scalar_field_options (Examples.wrap Examples.count true))
    as (d & Hd & Htype & _ & Hnargs); [reflexivity..|].
  exists d. split_and!; [exact Hd|exact Htype|exact Hnargs].
Defined.

(** * More on the [required] property and on the cache *)

(** X5. The derived options never look at the [required] override nor at
    the name prefix: setting either leaves them as they were. A field with
    a default whose override is set to true has the [required] property
    true and still no [required] entry in its options. *)
Theorem options_ignore_override (self : FieldWrapper.t) :
  (∀ value, FieldWrapper._get_arg_options (FieldWrapper.set_required self value)
            = FieldWrapper._get_arg_options self)
  ∧ (∀ prefix, FieldWrapper._get_arg_options (FieldWrapper.set_name_prefix self prefix)
               = FieldWrapper._get_arg_options self)
  ∧ (exposed self = true →
     is_MISSING (Field.default (FieldWrapper.field self)) = false →
     ∃ d, FieldWrapper._get_arg_options (FieldWrapper.set_required self true) = Ok d
        ∧ d !! "required" = None
        ∧ FieldWrapper.required (FieldWrapper.set_required self true) = true).
Proof.
  split_and!.
  - intros value. by apply get_arg_options_ext.
  - intros prefix. by apply get_arg_options_ext.
  - intros He Hdefault.
    rewrite (get_arg_options_ext (FieldWrapper.set_required self true) self) by done.
    destruct (get_arg_options_entries self He) as (d & Hd & Hreq & _).
    exists d. split_and!; [done| |done].
    rewrite Hreq, single_options_required_lookup. cbv zeta. by rewrite Hdefault.
Qed.

Lemma options_ignore_override_witness :
  ∃ d, FieldWrapper._get_arg_options
         (FieldWrapper.set_required (Examples.wrap Examples.count false) true) = Ok d
     ∧ d !! "required" = None
     ∧ FieldWrapper.required
         (FieldWrapper.set_required (Examples.wrap Examples.count false) true) = true.
Proof.
  destruct (options_ignore_override (Examples.wrap Examples.count false))
    as (_ & _ & H).
  apply H; reflexivity.
Defined.

Lemma arg_options_total (self : FieldWrapper.t) (σ : store) :
  is_Ok (FieldWrapper.arg_options self σ).
Proof.
  destruct (get_arg_options_total self) as [d Hd].
  unfold FieldWrapper.arg_options. destruct (dict_truthy _); [by eexists|].
  rewrite Hd. by eexists.
Qed.

(** X6. The multiple-mode block always finds the default it wraps: once
    the blocks before it have run, options without [required] carry a
    [default], so that the lookup of [default] in that block does not fail
    with [KeyError], whatever the field. *)
Theorem multiple_block_finds_default (self : FieldWrapper.t) :
  (FieldWrapper.single_options self !! "required" = None →
   is_Some (FieldWrapper.single_options self !! "default"))
  ∧ ∃ d, FieldWrapper.multiple_options (FieldWrapper.single_options self) = Ok d
       ∧ (FieldWrapper.single_options self !! "required" = None →
          ∃ v, FieldWrapper.single_options self !! "default" = Some v
             ∧ d !! "default" = Some (VList [v])).
Proof.
  split.
  - intros Hreq. destruct (single_options_required self) as [H|[_ H]]; [|done].
    congruence.
  - destruct (multiple_options_total (FieldWrapper.single_options self)
                (single_options_required self)) as [d Hd].
    exists d. split; [done|]. intros Hreq.
    apply multiple_options_lookup in Hd as (_ & _ & Hnone & _).
    destruct (Hnone Hreq) as (_ & v & Hv & Hdv). by exists v.
Qed.

Lemma multiple_block_finds_default_witness :
  is_Some (FieldWrapper.single_options (Examples.wrap Examples.count true) !! "default").
Proof.
  destruct (multiple_block_finds_default (Examples.wrap Examples.count true))
    as (H & _).
  apply H; reflexivity.
Defined.

(** X7. Without an override, the [required] property of an exposed field
    that is not boolean agrees with the options: the property is true
    exactly when the options carry [required], which is when the field has
    neither a default nor a default factory. For a boolean field with a
    default factory only, the property is false while the options carry
    [required]. *)
Theorem required_property_and_option (self : FieldWrapper.t) :
  exposed self = true →
  FieldWrapper._required self = None →
  ∃ d, FieldWrapper._get_arg_options self = Ok d
    ∧ (is_bool (Field.type (FieldWrapper.field self)) = false →
       d !! "required"
       = if FieldWrapper.required self then Some (VBool true) else None)
    ∧ (is_bool (Field.type (FieldWrapper.field self)) = true →
       is_MISSING (Field.default (FieldWrapper.field self)) = true →
       is_MISSING (Field.default_factory (FieldWrapper.field self)) = false →
       FieldWrapper.required self = false ∧ d !! "required" = Some (VBool true)).
Proof.
  intros He Hnone.
  destruct (get_arg_options_entries self He) as (d & Hd & Hreq & _).
  exists d. split; [done|].
  rewrite Hreq, single_options_required_lookup. cbv zeta.
  unfold FieldWrapper.required. rewrite Hnone.
  split.
  - intros ->. simpl. done.
  - intros -> -> ->. done.
Qed.

Lemma required_property_and_option_witness :
  ∃ d, FieldWrapper._get_arg_options (Examples.wrap Examples.sizes false) = Ok d
    ∧ d !! "required" = Some (VBool true)
    ∧ FieldWrapper.required (Examples.wrap Examples.sizes false) = true.
Proof.
  destruct (required_property_and_option (Examples.wrap Examples.sizes false))
    as (d & Hd & H & _); [reflexivity..|].
  exists d. split_and!; [exact Hd| |reflexivity].
  exact (H eq_refl).
Defined.

Section cache_invariant.
Import FieldWrapper.

Lemma perform_coherent self σ a :
  coherent self σ →
  ∃ self' σ', perform (self, σ) a = Ok (self', σ') ∧ coherent self' σ'.
Proof.
  intros Hc. destruct a as [s|b| |]; simpl.
  - eexists _, _. split; [done|]. by apply set_name_prefix_coherent.
  - eexists _, _. split; [done|]. by apply set_multiple_coherent.
  - destruct (arg_options_total self σ) as [[[l self'] σ'] H].
    rewrite H. exists self', σ'. split; [done|].
    by apply (arg_options_coherent self σ l self' σ').
  - by eexists _, _.
Qed.

Lemma perform_all_coherent accesses self σ :
  coherent self σ →
  ∃ self' σ', for_each perform (self, σ) accesses = Ok (self', σ') ∧ coherent self' σ'.
Proof.
  revert self σ. induction accesses as [|a accesses IH]; intros self σ Hc;
    cbn [for_each]; [by eauto|].
  destruct (perform_coherent self σ a Hc) as (self1 & σ1 & -> & H1).
  cbn [mbind result_bind]. by apply IH.
Qed.
End cache_invariant.

(** X8. The cache is never stale. Starting from a wrapper whose cache is
    coherent (as the constructor leaves it), after any sequence of prefix
    changes, mode changes and reads, the next read of [arg_options] returns
    the options derived for the state the wrapper is in then. *)
Theorem cache_never_stale
    (self : FieldWrapper.t) (σ : store) (accesses : list access) :
  coherent self σ →
  ∃ self' σ',
    for_each perform (self, σ) accesses = Ok (self', σ')
    ∧ coherent self' σ'
    ∧ ∃ l self'' σ'',
        FieldWrapper.arg_options self' σ' = Ok (l, self'', σ'')
        ∧ FieldWrapper._get_arg_options self' = Ok (deref σ'' l)
        ∧ FieldWrapper.multiple self'' = FieldWrapper.multiple self'.
Proof.
  intros Hc.
  destruct (perform_all_coherent accesses self σ Hc) as (self' & σ' & Hrun & Hc').
  exists self', σ'. split_and!; [done..|].
  destruct (arg_options_total self' σ') as [[[l self''] σ''] Hread].
  exists l, self'', σ''. split; [done|].
  destruct (arg_options_coherent self' σ' l self'' σ'' Hc' Hread) as (_ & _ & Hd).
  split; [done|].
  unfold FieldWrapper.arg_options in Hread.
  destruct (dict_truthy _); [by injection Hread as _ <- _|].
  destruct (FieldWrapper._get_arg_options self'); [|done].
  simpl in Hread. by injection Hread as _ <- _.
Qed.

Lemma cache_never_stale_witness :
  ∃ self' σ',
    for_each perform
      ((FieldWrapper.new Examples.count Examples.Config "" []).1,
       (FieldWrapper.new Examples.count Examples.Config "" []).2)
      [Get_arg_options; Set_multiple true; Set_multiple false; Set_multiple true]
      = Ok (self', σ')
    ∧ ∃ l self'' σ'',
        FieldWrapper.arg_options self' σ' = Ok (l, self'', σ'')
        ∧ FieldWrapper._get_arg_options self' = Ok (deref σ'' l).
Proof.
  destruct (cache_never_stale
              (FieldWrapper.new Examples.count Examples.Config "" []).1
              (FieldWrapper.new Examples.count Examples.Config "" []).2
              [Get_arg_options; Set_multiple true; Set_multiple false; Set_multiple true])
    as (self' & σ' & Hrun & _ & l & self'' & σ'' & Hread & Hd & _).
  - left. reflexivity.
  - exists self', σ'. split; [exact Hrun|].
    exists l, self'', σ''. split; [exact Hread|exact Hd].
Defined.

(** X9. The dict that [arg_options] hands out is the cached object itself:
    when [multiple] is then set to a different value, that very dict is
    emptied in place, so a caller that kept it finds it empty (for an
    exposed field it was not empty before). Setting [multiple] to the value
    it has leaves the dict alone. *)
Theorem mode_change_empties_handed_out_dict
    (self : FieldWrapper.t) (σ : store) (l : loc) (self1 : FieldWrapper.t) (σ1 : store) :
  FieldWrapper.arg_options self σ = Ok (l, self1, σ1) →
  (exposed self = true → deref σ1 l ≠ ∅)
  ∧ (∀ value, value ≠ FieldWrapper.multiple self1 →
       deref (FieldWrapper.set_multiple self1 value σ1).2 l = ∅)
  ∧ (FieldWrapper.set_multiple self1 (FieldWrapper.multiple self1) σ1).2 = σ1.
Proof.
  intros Hread.
  assert (Hl : FieldWrapper._arg_options self1 = l
               ∧ (exposed self = true → deref σ1 l ≠ ∅)).
  { unfold FieldWrapper.arg_options in Hread.
    destruct (dict_truthy _) eqn:Ht.
    - injection Hread as <- <- <-. split; [done|]. intros _.
      by apply dict_truthy_true.
    - destruct (FieldWrapper._get_arg_options self) as [d|] eqn:Hd; [|done].
      simpl in Hread. injection Hread as <- <- <-. split; [done|].
      intros He. rewrite deref_alloc_new. by eapply exposed_options_nonempty. }
  destruct Hl as [Hl Hne]. split_and!; [done| |].
  - intros value Hvalue. unfold FieldWrapper.set_multiple. simpl.
    unfold FieldWrapper.multiple in Hvalue.
    rewrite Hl. destruct value, (FieldWrapper._multiple self1); try done;
      simpl; apply deref_clear.
  - unfold FieldWrapper.set_multiple, FieldWrapper.multiple. simpl.
    by rewrite Bool.eqb_reflx.
Qed.

Lemma mode_change_empties_handed_out_dict_witness :
  ∃ l self1 σ1,
    FieldWrapper.arg_options (Examples.wrap Examples.count false) [∅] = Ok (l, self1, σ1)
    ∧ deref σ1 l ≠ ∅
    ∧ deref (FieldWrapper.set_multiple self1 true σ1).2 l = ∅.
Proof.
  destruct (arg_options_total (Examples.wrap Examples.count false) [∅])
    as [[[l self1] σ1] Hread].
  exists l, self1, σ1.
  destruct (mode_change_empties_handed_out_dict _ _ _ _ _ Hread)
    as (Hfull & Hclear & _).
  split; [exact Hread|]. split; [apply Hfull; reflexivity|].
  apply Hclear.
  vm_compute in Hread. injection Hread as _ <- _. discriminate.
Defined.

(** * The dataclass wrapper: construction and cascades *)

Section wrapper_construction.
Import DataclassWrapper.

Lemma wrap_fields_spec dc name_prefix declared wrapped (σ : store) :
  wrap_fields dc name_prefix declared wrapped σ =
    (wrapped ++
       imap (λ i f, FieldWrapper.mk f name_prefix (length σ + i)
                      (Dataclass.get_attribute_docstring dc (Field.name f)) false None)
         declared,
     σ ++ replicate (length declared) ∅).
Proof.
  revert wrapped σ. induction declared as [|f declared IH]; intros wrapped σ;
    cbn [wrap_fields].
  - simpl. by rewrite !app_nil_r.
  - unfold FieldWrapper.new, alloc. rewrite IH.
    rewrite <- !app_assoc. cbn [length replicate app imap]. f_equal.
    f_equal. rewrite Nat.add_0_r. f_equal.
    apply imap_ext. intros i x _. simpl. rewrite length_app. simpl.
    f_equal. lia.
Qed.

Lemma new_spec dc _prefix (σ : store) :
  new dc _prefix σ =
    (mk dc
       (imap (λ i f, FieldWrapper.mk f _prefix (length σ + i)
                       (Dataclass.get_attribute_docstring dc (Field.name f)) false None)
          (Dataclass.fields dc))
       false false _prefix,
     σ ++ replicate (length (Dataclass.fields dc)) ∅).
Proof. unfold new. simpl. by rewrite wrap_fields_spec. Qed.

Lemma deref_alloc_old_many (σ : store) (more : store) l :
  l < length σ → deref (σ ++ more) l = deref σ l.
Proof. intros. unfold deref. by rewrite lookup_app_l. Qed.

Lemma deref_clear_cases (σ : store) l0 l :
  deref (clear l0 σ) l = ∅ ∨ deref (clear l0 σ) l = deref σ l.
Proof.
  destruct (decide (l = l0)) as [->|Hne]; [left; apply deref_clear|right].
  unfold deref, clear. by rewrite list_lookup_insert_ne.
Qed.

Lemma deref_clear_empty (σ : store) l0 l :
  deref σ l = ∅ → deref (clear l0 σ) l = ∅.
Proof. intros H. destruct (deref_clear_cases σ l0 l) as [H0 | ->]; done. Qed.

Lemma set_multiple_fields_spec wrapped value (σ : store) :
  let σ' := (set_multiple_fields wrapped value σ).2 in
  (set_multiple_fields wrapped value σ).1
  = (λ w, (FieldWrapper.set_multiple w value σ).1) <$> wrapped
  ∧ length σ' = length σ
  ∧ (∀ l, deref σ' l = ∅ ∨ deref σ' l = deref σ l)
  ∧ (∀ l, deref σ l = ∅ → deref σ' l = ∅)
  ∧ (∀ w, w ∈ wrapped → FieldWrapper.multiple w ≠ value →
       deref σ' (FieldWrapper._arg_options w) = ∅).
Proof.
  revert σ. induction wrapped as [|w wrapped IH]; intros σ;
    cbn [set_multiple_fields].
  - simpl. split_and!; try done; [by right|]. by intros w ?%elem_of_nil.
  - destruct (FieldWrapper.set_multiple w value σ) as [w' σ1] eqn:Hw.
    specialize (IH σ1). cbv zeta in IH.
    destruct (set_multiple_fields wrapped value σ1) as [rest σ2].
    cbn [fst snd] in *. destruct IH as (Hrest & Hlen & Hcases & Hempty & Hchanged).
    unfold FieldWrapper.set_multiple in Hw. injection Hw as Hw' Hσ1.
    assert (H1 : length σ1 = length σ
                 ∧ (∀ l, deref σ1 l = ∅ ∨ deref σ1 l = deref σ l)
                 ∧ (∀ l, deref σ l = ∅ → deref σ1 l = ∅)
                 ∧ (FieldWrapper.multiple w ≠ value →
                    deref σ1 (FieldWrapper._arg_options w) = ∅)).
    { subst σ1. unfold FieldWrapper.multiple.
      destruct (Bool.eqb value (FieldWrapper._multiple w)) eqn:Hv; simpl.
      - apply Bool.eqb_prop in Hv. split_and!; [done|by right|done|].
        intros Hne. by destruct Hne.
      - split_and!; [apply length_clear|apply deref_clear_cases
                    |apply deref_clear_empty|intros _; apply deref_clear]. }
    destruct H1 as (Hlen1 & Hcases1 & Hempty1 & Hchanged1).
    split_and!.
    + rewrite fmap_cons, Hrest. f_equal. by subst w'.
    + congruence.
    + intros l. destruct (Hcases l) as [?|H2]; [by left|].
      rewrite H2. apply Hcases1.
    + intros l Hl. by apply Hempty, Hempty1.
    + intros w0 [->|Hw0]%elem_of_cons Hne.
      * by apply Hempty, Hchanged1.
      * by apply Hchanged.
Qed.
End wrapper_construction.

(** X10. The constructor of the dataclass wrapper makes one field wrapper
    per declared field, in declaration order, each with the given prefix,
    in the single mode, without override, with the docstring of its field
    and with an empty cache dict of its own: the cache objects are new,
    pairwise distinct, and the dicts that existed before are untouched. *)
Theorem new_wrapper (dc : Dataclass.t) (prefix : string) (σ : store) :
  let self := (DataclassWrapper.new dc prefix σ).1 in
  let σ' := (DataclassWrapper.new dc prefix σ).2 in
  well_formed self
  ∧ DataclassWrapper.prefix self = prefix
  ∧ DataclassWrapper.multiple self = false
  ∧ DataclassWrapper.required self = false
  ∧ length (DataclassWrapper.fields self) = length (Dataclass.fields dc)
  ∧ (∀ i w, DataclassWrapper.fields self !! i = Some w →
       ∃ f, Dataclass.fields dc !! i = Some f
          ∧ FieldWrapper.field w = f
          ∧ FieldWrapper.name w = prefix +:+ Field.name f
          ∧ FieldWrapper.multiple w = false
          ∧ FieldWrapper._required w = None
          ∧ FieldWrapper._docstring w
            = Dataclass.get_attribute_docstring dc (Field.name f)
          ∧ FieldWrapper._arg_options w = length σ + i
          ∧ deref σ' (FieldWrapper._arg_options w) = ∅
          ∧ coherent w σ')
  ∧ NoDup (FieldWrapper._arg_options <$> DataclassWrapper.fields self)
  ∧ (∀ l, l < length σ → deref σ' l = deref σ l).
Proof.
  intros self σ'. subst self σ'. rewrite new_spec. cbn [fst snd].
  assert (Hfields : ∀ i w,
    imap (λ i f, FieldWrapper.mk f prefix (length σ + i)
                   (Dataclass.get_attribute_docstring dc (Field.name f)) false None)
      (Dataclass.fields dc) !! i = Some w →
    ∃ f, Dataclass.fields dc !! i = Some f
       ∧ w = FieldWrapper.mk f prefix (length σ + i)
               (Dataclass.get_attribute_docstring dc (Field.name f)) false None).
  { intros i w Hw. rewrite list_lookup_imap in Hw.
    destruct (Dataclass.fields dc !! i) as [f|]; [|done].
    simpl in Hw. injection Hw as <-. by exists f. }
  assert (Hnew : ∀ i, i < length (Dataclass.fields dc) →
            deref (σ ++ replicate (length (Dataclass.fields dc)) ∅) (length σ + i) = ∅).
  { intros i Hi. unfold deref. rewrite lookup_app_r by lia.
    replace (length σ + i - length σ) with i by lia.
    by rewrite lookup_replicate_2. }
  split_and!; try done.
  - unfold well_formed. cbn [DataclassWrapper.fields DataclassWrapper.dataclass].
    apply list_eq. intros i. rewrite list_lookup_fmap, list_lookup_imap.
    by destruct (Dataclass.fields dc !! i).
  - cbn [DataclassWrapper.fields]. by rewrite length_imap.
  - cbn [DataclassWrapper.fields]. intros i w Hw.
    destruct (Hfields i w Hw) as (f & Hf & ->). exists f.
    assert (Hi : i < length (Dataclass.fields dc)) by by eapply lookup_lt_Some.
    split_and!; try done; [by apply Hnew|].
    left. by apply Hnew.
  - cbn [DataclassWrapper.fields]. apply NoDup_alt. intros i j l.
    rewrite !list_lookup_fmap. intros Hi Hj.
    destruct (imap _ _ !! i) as [wi|] eqn:Hwi; [|done].
    destruct (imap _ _ !! j) as [wj|] eqn:Hwj; [|done].
    destruct (Hfields i wi Hwi) as (fi & _ & ->).
    destruct (Hfields j wj Hwj) as (fj & _ & ->).
    simpl in Hi, Hj. injection Hi as <-. injection Hj as Hj. lia.
  - intros l Hl. by apply deref_alloc_old_many.
Qed.

Lemma new_wrapper_witness :
  ∃ w, DataclassWrapper.fields (DataclassWrapper.new Examples.Config "cfg." [∅]).1 !! 2
       = Some w
     ∧ FieldWrapper.name w = "cfg.flag"
     ∧ FieldWrapper._arg_options w = 3
     ∧ deref (DataclassWrapper.new Examples.Config "cfg." [∅]).2 3 = ∅.
Proof.
  destruct (new_wrapper Examples.Config "cfg." [∅]) as (_ & _ & _ & _ & _ & H & _).
  destruct (H 2 (FieldWrapper.mk Examples.flag "cfg." 3 None false None) eq_refl)
    as (f & Hf & _ & Hname & _ & _ & _ & Hloc & Hempty & _).
  eexists. split; [reflexivity|].
  vm_compute in Hf. injection Hf as <-.
  split; [exact Hname|]. split; [exact Hloc|exact Hempty].
Defined.

(** X11. Setting the prefix on the dataclass wrapper reaches every field
    wrapper: each one is then named by the new prefix followed by its
    declared name, nothing else about it changes, and
    [get_constructor_arguments] then reads every field it does not skip
    under that name, failing when the key is not there. *)
Theorem prefix_cascade (self : DataclassWrapper.t) (value : string) :
  let self' := DataclassWrapper.set_prefix self value in
  DataclassWrapper.prefix self' = value
  ∧ DataclassWrapper.multiple self' = DataclassWrapper.multiple self
  ∧ (well_formed self → well_formed self')
  ∧ (∀ i w, DataclassWrapper.fields self !! i = Some w →
       ∃ w', DataclassWrapper.fields self' !! i = Some w'
           ∧ FieldWrapper.name w' = value +:+ declared_name w
           ∧ FieldWrapper.field w' = FieldWrapper.field w
           ∧ FieldWrapper.multiple w' = FieldWrapper.multiple w
           ∧ FieldWrapper._required w' = FieldWrapper._required w
           ∧ FieldWrapper._arg_options w' = FieldWrapper._arg_options w)
  ∧ (∀ w args_dict n,
       w ∈ DataclassWrapper.fields self →
       considered w = true →
       args_dict !! (value +:+ declared_name w) = None →
       raises (DataclassWrapper.get_constructor_arguments self' args_dict n)).
Proof.
  intros self'. subst self'. split_and!; try done.
  - apply set_prefix_well_formed.
  - intros i w Hw. exists (FieldWrapper.set_name_prefix w value).
    split; [|done]. cbn [DataclassWrapper.set_prefix DataclassWrapper.fields].
    by rewrite list_lookup_fmap, Hw.
  - intros w args_dict n Hin Hc Habsent.
    apply (get_constructor_arguments_raises _ _ _ (FieldWrapper.set_name_prefix w value)).
    + cbn [DataclassWrapper.set_prefix DataclassWrapper.fields].
      by apply (list_elem_of_fmap_2 (λ w, FieldWrapper.set_name_prefix w value)).
    + done.
    + by apply chosen_absent.
Qed.

Lemma prefix_cascade_witness :
  raises (DataclassWrapper.get_constructor_arguments
            (DataclassWrapper.set_prefix (Examples.single Examples.Config "") "run.")
            {[ "count" := VInt 1 ]} 1).
Proof.
  destruct (prefix_cascade (Examples.single Examples.Config "") "run.")
    as (_ & _ & _ & _ & H).
  apply (H (FieldWrapper.mk Examples.count "" 0 None false None)).
  - left.
  - reflexivity.
  - reflexivity.
Defined.

(** X12. Setting [multiple] on the dataclass wrapper reaches every field
    wrapper: all of them are in the new mode afterwards, the cached dict of
    every field whose mode changed is emptied, no dict is created and no
    other dict changes except by being emptied, and caches that were
    coherent stay coherent, so every field then derives its options in the
    new mode. *)
Theorem multiple_cascade (self : DataclassWrapper.t) (value : bool) (σ : store) :
  let self' := (DataclassWrapper.set_multiple self value σ).1 in
  let σ' := (DataclassWrapper.set_multiple self value σ).2 in
  DataclassWrapper.multiple self' = value
  ∧ (well_formed self → well_formed self')
  ∧ length σ' = length σ
  ∧ (∀ l, deref σ' l = ∅ ∨ deref σ' l = deref σ l)
  ∧ (∀ i w, DataclassWrapper.fields self !! i = Some w →
       ∃ w', DataclassWrapper.fields self' !! i = Some w'
           ∧ FieldWrapper.multiple w' = value
           ∧ FieldWrapper.field w' = FieldWrapper.field w
           ∧ FieldWrapper.name w' = FieldWrapper.name w
           ∧ FieldWrapper._required w' = FieldWrapper._required w
           ∧ FieldWrapper._arg_options w' = FieldWrapper._arg_options w
           ∧ (FieldWrapper.multiple w ≠ value →
              deref σ' (FieldWrapper._arg_options w') = ∅)
           ∧ (coherent w σ → coherent w' σ')).
Proof.
  intros self' σ'.
  pose proof (set_multiple_fields_spec (DataclassWrapper.fields self) value σ) as Hspec.
  cbv zeta in Hspec.
  assert (Hself : self' = DataclassWrapper.mk (DataclassWrapper.dataclass self)
                    (DataclassWrapper.set_multiple_fields
                       (DataclassWrapper.fields self) value σ).1
                    value (DataclassWrapper._required self)
                    (DataclassWrapper._argument_names_prefix self)
                  ∧ σ' = (DataclassWrapper.set_multiple_fields
                            (DataclassWrapper.fields self) value σ).2).
  { subst self' σ'. unfold DataclassWrapper.set_multiple.
    by destruct (DataclassWrapper.set_multiple_fields _ _ _). }
  destruct Hself as [-> ->].
  destruct Hspec as (Hfields & Hlen & Hcases & Hempty & Hchanged).
  split_and!; try done.
  - intros Hwf. unfold well_formed in *.
    cbn [DataclassWrapper.fields DataclassWrapper.dataclass].
    by rewrite set_multiple_fields_fields.
  - intros i w Hw. cbn [DataclassWrapper.fields]. rewrite Hfields.
    exists (FieldWrapper.set_multiple w value σ).1.
    split; [by rewrite list_lookup_fmap, Hw|].
    assert (Hin : w ∈ DataclassWrapper.fields self) by by eapply list_elem_of_lookup_2.
    split_and!; try done.
    + intros Hne. simpl. by apply Hchanged.
    + intros Hc. unfold coherent. simpl.
      destruct (decide (FieldWrapper.multiple w = value)) as [Heq|Hne].
      * destruct (Hcases (FieldWrapper._arg_options w)) as [H0|Hsame];
          [by left|].
        destruct Hc as [Hc|Hc]; [left; congruence|right].
        rewrite Hsame, <- Hc. apply get_arg_options_ext; [done..|].
        simpl. by rewrite <- Heq.
      * left. by apply Hchanged.
Qed.

Lemma multiple_cascade_witness :
  ∃ w',
    DataclassWrapper.fields
      (DataclassWrapper.set_multiple (DataclassWrapper.new Examples.Config "" []).1 true
         (DataclassWrapper.new Examples.Config "" []).2).1 !! 1 = Some w'
    ∧ FieldWrapper.multiple w' = true
    ∧ coherent w'
        (DataclassWrapper.set_multiple (DataclassWrapper.new Examples.Config "" []).1 true
           (DataclassWrapper.new Examples.Config "" []).2).2.
Proof.
  destruct (multiple_cascade (DataclassWrapper.new Examples.Config "" []).1 true
              (DataclassWrapper.new Examples.Config "" []).2)
    as (_ & _ & _ & _ & H).
  destruct (H 1 (FieldWrapper.mk Examples.color "" 1 None false None) eq_refl)
    as (w' & Hw' & Hm & _ & _ & _ & _ & _ & Hc).
  exists w'. split; [exact Hw'|]. split; [exact Hm|].
  apply Hc. left. reflexivity.
Defined.

(** * More on [get_constructor_arguments] *)

Lemma NoDup_fmap_elem_eq {A B} `{EqDecision B} (k : A → B) (l : list A) (a b : A) :
  NoDup (k <$> l) → a ∈ l → b ∈ l → k a = k b → a = b.
Proof.
  intros Hnd [i Hi]%list_elem_of_lookup_1 [j Hj]%list_elem_of_lookup_1 Hk.
  assert (i = j) as ->.
  { eapply (NoDup_lookup _ i j (k a) Hnd).
    - by rewrite list_lookup_fmap, Hi.
    - by rewrite list_lookup_fmap, Hj, Hk. }
  congruence.
Qed.

(** X13. The number of instances has to fit the mode, whatever the
    arguments are: in multiple mode a number below 2, and in the single
    mode any number other than 1, fails the assertion before any field is
    looked at. When [get_constructor_arguments] returns, it returns exactly
    as many dicts as instances were asked for: one in the single mode, at
    least two in multiple mode. *)
Theorem instance_count_contract
    (self : DataclassWrapper.t) (args_dict : dict) (n : Z) :
  let returned := DataclassWrapper.get_constructor_arguments self args_dict n in
  (DataclassWrapper.multiple self = true → (n ≤ 1)%Z →
   returned = Raise (AssertionError
     "multiple is true but we're expected to instantiate only one instance"))
  ∧ (DataclassWrapper.multiple self = false → n ≠ 1%Z →
     returned = Raise (AssertionError
       "multiple is false but we're expected to instantiate more than one instance"))
  ∧ (∀ ds, returned = Ok ds →
       Z.of_nat (length ds) = n
       ∧ (DataclassWrapper.multiple self = false → ∃ d, ds = [d])
       ∧ (DataclassWrapper.multiple self = true → 2 ≤ length ds)).
Proof.
  intros returned. subst returned. split_and!.
  - intros Hm Hn. unfold DataclassWrapper.get_constructor_arguments, assert_that.
    rewrite Hm. by rewrite (proj2 (Z.ltb_ge 1 n) Hn).
  - intros Hm Hn. unfold DataclassWrapper.get_constructor_arguments, assert_that.
    rewrite Hm. by rewrite (proj2 (Z.eqb_neq n 1) Hn).
  - intros ds Hds.
    pose proof (proj1 (get_constructor_arguments_ok _ _ _ _) Hds) as [Hmode _].
    apply get_constructor_arguments_rounds in Hds as [Hlen _].
    pose proof (mode_agrees_positive _ _ Hmode) as Hpos.
    split_and!; [lia| |].
    + intros Hm. rewrite Hm in Hmode. simpl in Hmode. apply Z.eqb_eq in Hmode.
      subst n. destruct ds as [|d [|d' ds]]; try done. by exists d.
    + intros Hm. rewrite Hm in Hmode. simpl in Hmode. apply Z.ltb_lt in Hmode. lia.
Qed.

Lemma instance_count_contract_witness :
  DataclassWrapper.get_constructor_arguments (Examples.several Examples.Config "")
    ∅ 1
  = Raise (AssertionError
      "multiple is true but we're expected to instantiate only one instance").
Proof.
  destruct (instance_count_contract (Examples.several Examples.Config "") ∅ 1)
    as (H & _).
  apply H; [reflexivity|lia].
Defined.

(** X14. A field that is skipped (it does not participate in construction,
    or it is a nested dataclass) never gets an entry in a returned dict,
    whatever the argument map holds. *)
Theorem skipped_fields_stay_out
    (self : DataclassWrapper.t) (args_dict : dict) (n : Z) (w : FieldWrapper.t) :
  NoDup (declared_name <$> DataclassWrapper.fields self) →
  w ∈ DataclassWrapper.fields self →
  considered w = false →
  ∀ ds, DataclassWrapper.get_constructor_arguments self args_dict n = Ok ds →
    ∀ d, d ∈ ds → d !! declared_name w = None.
Proof.
  intros Hnd Hin Hskip ds Hds d [i Hd]%list_elem_of_lookup_1.
  apply get_constructor_arguments_rounds in Hds as [_ Hrounds].
  destruct (Hrounds i d Hd) as [_ Hinner].
  rewrite (keyed_loop_other _ _ _ _ _ _ _ Hinner); [done|].
  intros a Ha Hc Hkey.
  assert (a = w) as -> by by eapply (NoDup_fmap_elem_eq declared_name).
  congruence.
Qed.

Lemma skipped_fields_stay_out_witness :
  ∃ d,
    DataclassWrapper.get_constructor_arguments
      (Examples.single (Dataclass.mk "Nested" [Examples.count; Examples.child]
                          Examples.no_docs) "")
      (list_to_map [("count", VInt 1); ("child", VInt 2)]) 1 = Ok [d]
    ∧ d !! "child" = None.
Proof.
  eexists. split; [reflexivity|].
  apply (skipped_fields_stay_out
           (Examples.single (Dataclass.mk "Nested" [Examples.count; Examples.child]
                               Examples.no_docs) "")
           (list_to_map [("count", VInt 1); ("child", VInt 2)]) 1
           (FieldWrapper.mk Examples.child "" 1 None false None))
    with (ds := [({[ "count" := VInt 1 ]} : dict)]).
  - apply (bool_decide_unpack _). vm_compute. reflexivity.
  - right. left.
  - reflexivity.
  - reflexivity.
  - left.
Defined.

(** X15. In multiple mode every raw value has to be a list: a value of a
    field that is not skipped which is not a list (a tuple, a string, a
    number, [None]) makes [get_constructor_arguments] raise, by the
    assertion on lists when the fields before it are accepted. *)
Theorem multiple_mode_wants_lists
    (self : DataclassWrapper.t) (args_dict : dict) (n : Z)
    (w : FieldWrapper.t) (v : value) :
  DataclassWrapper.multiple self = true →
  w ∈ DataclassWrapper.fields self →
  considered w = true →
  args_dict !! FieldWrapper.name w = Some v →
  (∀ l, v ≠ VList l) →
  let returned := DataclassWrapper.get_constructor_arguments self args_dict n in
  raises returned
  ∧ ∀ pre post,
      (1 < n)%Z →
      FieldWrapper.is_tuple_or_list_of_dataclasses w = false →
      DataclassWrapper.fields self = pre ++ w :: post →
      Forall (λ w', accepted true args_dict n w' = true) pre →
      returned = Raise (AssertionError
                          "all fields should have gotten a list default value...").
Proof.
  intros Hm Hin Hc Hv Hlist returned. subst returned.
  assert (Hchosen : ∀ i, raises (chosen true args_dict n i w)
            ∧ (FieldWrapper.is_tuple_or_list_of_dataclasses w = false →
               chosen true args_dict n i w
               = Raise (AssertionError
                          "all fields should have gotten a list default value..."))).
  { intros i. unfold chosen, assert_that. rewrite Hv.
    destruct (FieldWrapper.is_tuple_or_list_of_dataclasses w); simpl.
    - split; [by eexists|done].
    - destruct v; try (split; [by eexists|done]). by destruct (Hlist l). }
  split.
  - apply (get_constructor_arguments_raises _ _ _ w); [done..|].
    rewrite Hm. apply Hchosen.
  - intros pre post Hn Hcont Hfields Hpre.
    apply (get_constructor_arguments_first_raise _ _ _ pre post w); [|done| |done|].
    + rewrite Hm. by apply Z.ltb_lt.
    + eapply Forall_impl; [exact Hpre|]. intros w' Hw' Hcw'.
      apply accepted_chosen; [by rewrite Hm|done|lia].
    + rewrite Hm. by apply Hchosen.
Qed.

Lemma multiple_mode_wants_lists_witness :
  DataclassWrapper.get_constructor_arguments (Examples.several Examples.Config "")
    {[ "count" := VTuple [VInt 1; VInt 2; VInt 3] ]} 3
  = Raise (AssertionError "all fields should have gotten a list default value...").
Proof.
  destruct (multiple_mode_wants_lists (Examples.several Examples.Config "")
              {[ "count" := VTuple [VInt 1; VInt 2; VInt 3] ]} 3
              (FieldWrapper.mk Examples.count "" 0 None true None)
              (VTuple [VInt 1; VInt 2; VInt 3]))
    as [_ H].
  - reflexivity.
  - left.
  - reflexivity.
  - reflexivity.
  - discriminate.
  - eapply (H []); [lia|reflexivity|reflexivity|constructor].
Defined.

(** X16. The default that multiple mode derives is always accepted back:
    when a field wrapper in multiple mode has options without [required],
    their [default] is a single-element list, and an argument map that
    holds this default for the field (no token was given) gives the wrapped
    default to every instance, whatever the number of instances. *)
Theorem derived_default_is_broadcast
    (self : DataclassWrapper.t) (args_dict : dict) (n : Z)
    (w : FieldWrapper.t) (d : dict) :
  DataclassWrapper.multiple self = true →
  NoDup (declared_name <$> DataclassWrapper.fields self) →
  w ∈ DataclassWrapper.fields self →
  FieldWrapper.multiple w = true →
  exposed w = true →
  FieldWrapper._get_arg_options w = Ok d →
  d !! "required" = None →
  args_dict !! FieldWrapper.name w = d !! "default" →
  ∃ v, d !! "default" = Some (VList [v])
     ∧ FieldWrapper.single_options w !! "default" = Some v
     ∧ accepted true args_dict n w = true
     ∧ ∀ ds, DataclassWrapper.get_constructor_arguments self args_dict n = Ok ds →
         ∀ instance_arguments, instance_arguments ∈ ds →
           instance_arguments !! declared_name w = Some v.
Proof.
  intros Hm Hnd Hin Hmw He Hd Hreq Hargs.
  destruct (get_arg_options_multiple w He Hmw) as (d' & Hd' & Hmo).
  rewrite Hd in Hd'. injection Hd' as <-.
  apply multiple_options_lookup in Hmo as (Hr & _ & Hnone & _).
  rewrite Hreq in Hr. destruct (Hnone (eq_sym Hr)) as (_ & v & Hv & Hdv).
  assert (Hcont : FieldWrapper.is_tuple_or_list_of_dataclasses w = false).
  { unfold exposed in He. by destruct (FieldWrapper.is_tuple_or_list_of_dataclasses w);
      rewrite ?andb_false_r in He. }
  assert (Hc : considered w = true).
  { unfold exposed in He. unfold considered.
    by destruct (Field.init _), (FieldWrapper.is_dataclass w). }
  rewrite Hdv in Hargs.
  exists v. split_and!; [done..| |].
  - unfold accepted. by rewrite Hc, Hcont, Hargs.
  - intros ds Hds instance_arguments [i Hi]%list_elem_of_lookup_1.
    apply get_constructor_arguments_rounds in Hds as [_ Hrounds].
    destruct (Hrounds i _ Hi) as [_ Hinner].
    eapply keyed_loop_lookup in Hinner; [done..|].
    rewrite Hm. by apply chosen_broadcast.
Qed.

Lemma derived_default_is_broadcast_witness :
  ∃ ds,
    DataclassWrapper.get_constructor_arguments (Examples.several Examples.Config "")
      (list_to_map [("count", VList [VInt 5]); ("color", VList [VStr "GREEN"]);
                    ("flag", VList [VBool false]); ("sizes", VList [VList []])]) 4
      = Ok ds
    ∧ ∀ instance_arguments, instance_arguments ∈ ds →
        instance_arguments !! "count" = Some (VInt 5).
Proof.
  destruct (get_arg_options_total (FieldWrapper.mk Examples.count "" 0 None true None))
    as [d Hd].
  destruct (derived_default_is_broadcast (Examples.several Examples.Config "")
              (list_to_map [("count", VList [VInt 5]); ("color", VList [VStr "GREEN"]);
                            ("flag", VList [VBool false]); ("sizes", VList [VList []])]) 4
              (FieldWrapper.mk Examples.count "" 0 None true None) d)
    as (v & _ & Hv & _ & Hall).
  - reflexivity.
  - apply (bool_decide_unpack _). vm_compute. reflexivity.
  - left.
  - reflexivity.
  - reflexivity.
  - exact Hd.
  - vm_compute in Hd. injection Hd as <-. reflexivity.
  - vm_compute in Hd. injection Hd as <-. reflexivity.
  - eexists. split; [reflexivity|].
    vm_compute in Hv. injection Hv as <-.
    apply Hall. reflexivity.
Defined.

(** * More on [instantiate_dataclass] *)

Lemma materialized_missing (args_dict : dict) (w : FieldWrapper.t) :
  args_dict !! declared_name w = None →
  materialized args_dict w = Raise (KeyError (declared_name w)).
Proof. unfold materialized, declared_name. by intros ->. Qed.

(** X17. Every field that participates in construction has to be in the
    argument dict under its declared name, nested dataclasses and
    containers included: when the key is missing, [instantiate_dataclass]
    raises, with [KeyError] on that name when the fields before it
    materialize. *)
Theorem missing_argument_is_a_key_error
    (self : DataclassWrapper.t) (args_dict : dict) (w : FieldWrapper.t) :
  w ∈ DataclassWrapper.fields self →
  Field.init (FieldWrapper.field w) = true →
  args_dict !! Field.name (FieldWrapper.field w) = None →
  raises (DataclassWrapper.instantiate_dataclass self args_dict)
  ∧ ∀ pre post,
      DataclassWrapper.fields self = pre ++ w :: post →
      Forall (λ w', is_Ok (DataclassWrapper.constructor_arg args_dict ∅ w')) pre →
      DataclassWrapper.instantiate_dataclass self args_dict
      = Raise (KeyError (Field.name (FieldWrapper.field w))).
Proof.
  intros Hin Hinit Hmissing.
  pose proof (materialized_missing args_dict w Hmissing) as Hmat.
  split.
  - apply (instantiate_raises self args_dict w); [done..|]. rewrite Hmat. by eexists.
  - intros pre post Hfields Hpre.
    by apply (instantiate_first_raise self args_dict pre post w).
Qed.

Lemma missing_argument_is_a_key_error_witness :
  DataclassWrapper.instantiate_dataclass (Examples.single Examples.Config "")
    {[ "count" := VInt 1 ]} = Raise (KeyError "color").
Proof.
  destruct (missing_argument_is_a_key_error (Examples.single Examples.Config "")
              {[ "count" := VInt 1 ]}
              (FieldWrapper.mk Examples.color "" 1 None false None))
    as [_ H].
  - right. left.
  - reflexivity.
  - reflexivity.
  - apply (H [FieldWrapper.mk Examples.count "" 0 None false None]
             [FieldWrapper.mk Examples.flag "" 2 None false None;
              FieldWrapper.mk Examples.sizes "" 3 None false None]).
    + reflexivity.
    + repeat constructor. eexists. reflexivity.
Defined.

(** X18. The dicts that [get_constructor_arguments] returns cannot be
    instantiated as they are when the record has a nested dataclass field
    that participates in construction: the field is skipped in the dicts,
    and [instantiate_dataclass] raises for the missing key. *)
Theorem nested_fields_are_left_to_the_caller
    (self : DataclassWrapper.t) (args_dict : dict) (n : Z) (w : FieldWrapper.t) :
  NoDup (declared_name <$> DataclassWrapper.fields self) →
  w ∈ DataclassWrapper.fields self →
  Field.init (FieldWrapper.field w) = true →
  FieldWrapper.is_dataclass w = true →
  ∀ ds, DataclassWrapper.get_constructor_arguments self args_dict n = Ok ds →
    ds ≠ []
    ∧ ∀ d, d ∈ ds →
        d !! declared_name w = None
        ∧ raises (DataclassWrapper.instantiate_dataclass self d).
Proof.
  intros Hnd Hin Hinit Hdc ds Hds.
  assert (Hskip : considered w = false).
  { unfold considered. by rewrite Hdc, andb_false_r. }
  split.
  - pose proof (proj1 (get_constructor_arguments_ok _ _ _ _) Hds) as [Hmode _].
    apply mode_agrees_positive in Hmode.
    apply get_constructor_arguments_rounds in Hds as [Hlen _].
    intros ->. simpl in Hlen. lia.
  - intros d Hd.
    assert (Hnone : d !! declared_name w = None).
    { apply get_constructor_arguments_rounds in Hds as [_ Hrounds].
      apply list_elem_of_lookup_1 in Hd as [i Hi].
      destruct (Hrounds i d Hi) as [_ Hinner].
      rewrite (keyed_loop_other _ _ _ _ _ _ _ Hinner); [done|].
      intros a Ha Hc Hkey.
      assert (a = w) as -> by by eapply (NoDup_fmap_elem_eq declared_name).
      congruence. }
    split; [done|].
    apply (instantiate_raises self d w); [done..|].
    rewrite materialized_missing by done. by eexists.
Qed.

Lemma nested_fields_are_left_to_the_caller_witness :
  ∃ d,
    DataclassWrapper.get_constructor_arguments
      (Examples.single (Dataclass.mk "Nested" [Examples.count; Examples.child]
                          Examples.no_docs) "")
      (list_to_map [("count", VInt 1); ("child", VInt 2)]) 1 = Ok [d]
    ∧ raises (DataclassWrapper.instantiate_dataclass
                (Examples.single (Dataclass.mk "Nested" [Examples.count; Examples.child]
                                    Examples.no_docs) "") d).
Proof.
  eexists. split; [reflexivity|].
  destruct (nested_fields_are_left_to_the_caller
              (Examples.single (Dataclass.mk "Nested" [Examples.count; Examples.child]
                                  Examples.no_docs) "")
              (list_to_map [("count", VInt 1); ("child", VInt 2)]) 1
              (FieldWrapper.mk Examples.child "" 1 None false None))
    with (ds := [({[ "count" := VInt 1 ]} : dict)]) as [_ H].
  - apply (bool_decide_unpack _). vm_compute. reflexivity.
  - right. left.
  - reflexivity.
  - reflexivity.
  - reflexivity.
  - apply H. left.
Defined.

Lemma exposed_considered (w : FieldWrapper.t) :
  exposed w = true →
  Field.init (FieldWrapper.field w) = true
  ∧ considered w = true
  ∧ FieldWrapper.is_tuple_or_list_of_dataclasses w = false.
Proof.
  unfold exposed, considered.
  destruct (Field.init _), (FieldWrapper.is_dataclass w),
    (FieldWrapper.is_tuple_or_list_of_dataclasses w); done.
Qed.

Lemma materialized_scalar (args_dict : dict) (w : FieldWrapper.t) (v : value) :
  FieldWrapper.is_tuple_or_list_of_dataclasses w = false →
  enum.is_enum (Field.type (FieldWrapper.field w)) = false →
  utils.is_tuple_or_list (Field.type (FieldWrapper.field w)) = false →
  is_bool (Field.type (FieldWrapper.field w)) = false →
  args_dict !! declared_name w = Some v →
  materialized args_dict w = Ok v.
Proof.
  unfold materialized, declared_name, utils.is_tuple_or_list, assert_that.
  intros -> -> [-> ->]%orb_false_iff Hbool ->. simpl.
  by destruct (Field.type (FieldWrapper.field w)).
Qed.

(** X19. End to end in the single mode: for an exposed field that is
    neither an enumeration, nor a list or tuple, nor a boolean, the value
    parsed under the prefixed name is, unchanged, the attribute of the
    instance made from the dict that [get_constructor_arguments] returns. *)
Theorem parsed_scalar_reaches_instance
    (self : DataclassWrapper.t) (args_dict : dict) (w : FieldWrapper.t) :
  well_formed self →
  Dataclass.valid (DataclassWrapper.dataclass self) →
  w ∈ DataclassWrapper.fields self →
  exposed w = true →
  enum.is_enum (Field.type (FieldWrapper.field w)) = false →
  utils.is_tuple_or_list (Field.type (FieldWrapper.field w)) = false →
  is_bool (Field.type (FieldWrapper.field w)) = false →
  DataclassWrapper.multiple self = false →
  ∀ ds d instance,
    DataclassWrapper.get_constructor_arguments self args_dict 1 = Ok ds →
    d ∈ ds →
    DataclassWrapper.instantiate_dataclass self d = Ok instance →
    ∃ raw,
      args_dict !! (FieldWrapper.name_prefix w +:+ Field.name (FieldWrapper.field w))
        = Some raw
      ∧ d !! Field.name (FieldWrapper.field w) = Some raw
      ∧ getattr instance (Field.name (FieldWrapper.field w)) = Some raw.
Proof.
  intros Hwf Hvalid Hin He Henum Hcont Hbool Hm ds d instance Hds Hd Hinstance.
  destruct (exposed_considered w He) as (Hinit & Hc & Hdcs).
  apply get_constructor_arguments_rounds in Hds as [_ Hrounds].
  apply list_elem_of_lookup_1 in Hd as [i Hi].
  destruct (Hrounds i d Hi) as [_ Hinner].
  pose proof (keyed_loop_Forall _ _ _ _ _ _ Hinner) as Hall.
  rewrite Forall_forall in Hall. destruct (Hall _ Hin Hc) as [x Hx].
  assert (Hdx : d !! declared_name w = Some x).
  { eapply (keyed_loop_lookup _ _ declared_name) in Hinner; [done| |done..].
    rewrite (declared_names self Hwf). exact Hvalid. }
  rewrite Hm in Hx. apply chosen_present in Hx as (raw & Hraw & Hsingle & _).
  rewrite (Hsingle eq_refl) in Hdx.
  exists raw. split_and!; [done..|].
  apply (instantiate_getattr self d Hwf instance w); [done..|].
  by apply materialized_scalar.
Qed.

Lemma parsed_scalar_reaches_instance_witness :
  ∃ d instance,
    DataclassWrapper.get_constructor_arguments (Examples.single Examples.Config "cfg.")
      (list_to_map [("cfg.count", VInt 9); ("cfg.color", VStr "RED");
                    ("cfg.flag", VNone); ("cfg.sizes", VList [])]) 1 = Ok [d]
    ∧ DataclassWrapper.instantiate_dataclass (Examples.single Examples.Config "cfg.") d
      = Ok instance
    ∧ getattr instance "count" = Some (VInt 9).
Proof.
  eexists _, _. split; [reflexivity|]. split; [reflexivity|].
  destruct (parsed_scalar_reaches_instance (Examples.single Examples.Config "cfg.")
              (list_to_map [("cfg.count", VInt 9); ("cfg.color", VStr "RED");
                            ("cfg.flag", VNone); ("cfg.sizes", VList [])])
              (FieldWrapper.mk Examples.count "cfg." 0 None false None))
    with (ds := [(list_to_map [("count", VInt 9); ("color", VStr "RED");
                               ("flag", VNone); ("sizes", VList [])] : dict)])
         (d := (list_to_map [("count", VInt 9); ("color", VStr "RED");
                             ("flag", VNone); ("sizes", VList [])] : dict))
         (instance := VInstance "Config"
                        (list_to_map [("count", VInt 9);
                                      ("color", VEnum Examples.Color "RED");
                                      ("flag", VBool true); ("sizes", VList [])]))
    as (raw & Hraw & _ & Hattr).
  - reflexivity.
  - apply (bool_decide_unpack _). vm_compute. reflexivity.
  - left.
  - reflexivity.
  - reflexivity.
  - reflexivity.
  - reflexivity.
  - reflexivity.
  - reflexivity.
  - left.
  - reflexivity.
  - vm_compute in Hraw. injection Hraw as <-. exact Hattr.
Defined.

(** X20. A list or tuple field is coerced to the container its type names:
    for a tuple field a parsed list or tuple becomes a tuple of the same
    items, for a list field a list of the same items; a parsed string is
    split into its characters; a parsed [None], boolean or number makes
    [instantiate_dataclass] raise. *)
Theorem container_coercion
    (self : DataclassWrapper.t) (args_dict : dict) (w : FieldWrapper.t) (v : value) :
  well_formed self →
  Dataclass.valid (DataclassWrapper.dataclass self) →
  w ∈ DataclassWrapper.fields self →
  exposed w = true →
  utils.is_tuple_or_list (Field.type (FieldWrapper.field w)) = true →
  args_dict !! Field.name (FieldWrapper.field w) = Some v →
  let made := DataclassWrapper.instantiate_dataclass self args_dict in
  let container items :=
    if utils.is_tuple (Field.type (FieldWrapper.field w))
    then VTuple items else VList items in
  (∀ items instance, v = VList items ∨ v = VTuple items → made = Ok instance →
     getattr instance (Field.name (FieldWrapper.field w)) = Some (container items))
  ∧ (∀ s instance, v = VStr s → made = Ok instance →
     getattr instance (Field.name (FieldWrapper.field w))
     = Some (container (VStr <$> characters s)))
  ∧ (v = VNone ∨ (∃ b, v = VBool b) ∨ (∃ k, v = VInt k) → raises made).
Proof.
  intros Hwf Hvalid Hin He Hcont Hv made container.
  destruct (exposed_considered w He) as (Hinit & _ & Hdcs).
  assert (Hmat : materialized args_dict w = items ← iterate v; Ok (container items)).
  { unfold materialized, assert_that, container. rewrite Hv, Hdcs. simpl.
    unfold utils.is_tuple_or_list in Hcont.
    destruct (Field.type (FieldWrapper.field w)); try done. }
  split_and!.
  - intros items instance Hitems Hmade.
    apply (instantiate_getattr self args_dict Hwf instance w); [done..|].
    rewrite Hmat. by destruct Hitems as [-> | ->].
  - intros s instance -> Hmade.
    apply (instantiate_getattr self args_dict Hwf instance w); [done..|].
    by rewrite Hmat.
  - intros Hbad. apply (instantiate_raises self args_dict w); [done..|].
    rewrite Hmat. destruct Hbad as [-> |[[b ->]|[k ->]]]; by eexists.
Qed.

Lemma container_coercion_witness :
  ∃ instance,
    DataclassWrapper.instantiate_dataclass
      (Examples.single (Dataclass.mk "Shape" [Field.mk "dims" (TTuple TInt) None None true]
                          Examples.no_docs) "")
      {[ "dims" := VList [VInt 2; VInt 3] ]} = Ok instance
    ∧ getattr instance "dims" = Some (VTuple [VInt 2; VInt 3]).
Proof.
  eexists. split; [reflexivity|].
  destruct (container_coercion
              (Examples.single
                 (Dataclass.mk "Shape" [Field.mk "dims" (TTuple TInt) None None true]
                    Examples.no_docs) "")
              {[ "dims" := VList [VInt 2; VInt 3] ]}
              (FieldWrapper.mk (Field.mk "dims" (TTuple TInt) None None true)
                 "" 0 None false None)
              (VList [VInt 2; VInt 3]))
    as (H & _).
  - reflexivity.
  - apply (bool_decide_unpack _). vm_compute. reflexivity.
  - left.
  - reflexivity.
  - reflexivity.
  - reflexivity.
  - apply (H [VInt 2; VInt 3]); [by left|reflexivity].
Defined.

(** X21. A record with a list or tuple of dataclasses among the fields
    that participate in construction cannot go through either function:
    [get_constructor_arguments] raises for every argument map and every
    number of instances, and [instantiate_dataclass] raises for every
    argument dict. *)
Theorem containers_of_dataclasses_never_pass
    (self : DataclassWrapper.t) (w : FieldWrapper.t) :
  w ∈ DataclassWrapper.fields self →
  Field.init (FieldWrapper.field w) = true →
  FieldWrapper.is_tuple_or_list_of_dataclasses w = true →
  (∀ args_dict n, raises (DataclassWrapper.get_constructor_arguments self args_dict n))
  ∧ (∀ args_dict, raises (DataclassWrapper.instantiate_dataclass self args_dict)).
Proof.
  intros Hin Hinit Hcont.
  assert (Hc : considered w = true).
  { unfold considered, FieldWrapper.is_dataclass. rewrite Hinit.
    unfold FieldWrapper.is_tuple_or_list_of_dataclasses in Hcont.
    by destruct (Field.type (FieldWrapper.field w)). }
  split.
  - intros args_dict n.
    apply (get_constructor_arguments_raises _ _ _ w); [done..|].
    unfold chosen, assert_that. rewrite Hcont. by eexists.
  - intros args_dict.
    apply (instantiate_raises self args_dict w); [done..|].
    unfold materialized, assert_that. rewrite Hcont.
    destruct (args_dict !! _); by eexists.
Qed.

Lemma containers_of_dataclasses_never_pass_witness :
  raises (DataclassWrapper.instantiate_dataclass (Examples.single Examples.Team "")
            {[ "children" := VList [] ]}).
Proof.
  destruct (containers_of_dataclasses_never_pass (Examples.single Examples.Team "")
              (FieldWrapper.mk Examples.children "" 0 None false None))
    as [_ H].
  - left.
  - reflexivity.
  - reflexivity.
  - apply H.
Defined.

(** X22. For an enumeration without aliases, the derived [choices] are
    exactly the values that [instantiate_dataclass] takes for the field: it
    materializes when the parsed value is one of the listed name strings,
    and any other value (another string, a member object, [None], a list)
    makes [instantiate_dataclass] raise. *)
Theorem choices_are_what_instantiate_takes
    (self : DataclassWrapper.t) (args_dict : dict) (w : FieldWrapper.t) (v : value) :
  w ∈ DataclassWrapper.fields self →
  Field.init (FieldWrapper.field w) = true →
  enum.is_enum (Field.type (FieldWrapper.field w)) = true →
  args_dict !! Field.name (FieldWrapper.field w) = Some v →
  ∃ d choices,
    FieldWrapper._get_arg_options w = Ok d
    ∧ d !! "choices" = Some (VList choices)
    ∧ (∀ acc, is_Ok (DataclassWrapper.constructor_arg args_dict acc w) ↔ v ∈ choices)
    ∧ (v ∉ choices → raises (DataclassWrapper.instantiate_dataclass self args_dict)).
Proof.
  intros Hin Hinit Henum Hv.
  assert (He : exposed w = true).
  { unfold exposed, FieldWrapper.is_dataclass,
      FieldWrapper.is_tuple_or_list_of_dataclasses. rewrite Hinit.
    by destruct (Field.type (FieldWrapper.field w)). }
  destruct (exposed_considered w He) as (_ & _ & Hdcs).
  destruct (get_arg_options_entries w He) as (d & Hd & _ & _ & _ & Hchoices & _).
  rewrite single_options_choices in Hchoices. cbv zeta in Hchoices.
  rewrite Henum in Hchoices.
  exists d, (VStr <$> enum.names (Field.type (FieldWrapper.field w))).
  split; [done|]. split; [done|].
  assert (Hmat : materialized args_dict w
                 = enum.getitem (Field.type (FieldWrapper.field w)) v).
  { unfold materialized, assert_that. by rewrite Hv, Hdcs, Henum. }
  assert (Hiff : is_Ok (materialized args_dict w)
                 ↔ v ∈ VStr <$> enum.names (Field.type (FieldWrapper.field w))).
  { rewrite Hmat. unfold enum.getitem. split.
    - intros [x Hx]. destruct v; simpl in Hx; try done;
        try (by destruct (forallb hashable l)).
      case_bool_decide; [|done]. by apply list_elem_of_fmap_2.
    - intros [s [-> Hs]]%list_elem_of_fmap. rewrite bool_decide_true by done.
      by eexists. }
  split.
  - intros acc. rewrite constructor_arg_is_Ok. unfold participates.
    rewrite Hinit. rewrite <- Hiff. split; [by intros H; apply H|done].
  - intros Hnot. apply (instantiate_raises self args_dict w); [done..|].
    destruct (materialized args_dict w) as [x|e] eqn:Hx; [|by eexists].
    destruct Hnot. apply Hiff. by eexists.
Qed.

Lemma choices_are_what_instantiate_takes_witness :
  raises (DataclassWrapper.instantiate_dataclass (Examples.single Examples.Config "")
            (list_to_map [("count", VInt 1); ("color", VStr "PURPLE");
                          ("flag", VNone); ("sizes", VList [])])).
Proof.
  destruct (choices_are_what_instantiate_takes (Examples.single Examples.Config "")
              (list_to_map [("count", VInt 1); ("color", VStr "PURPLE");
                            ("flag", VNone); ("sizes", VList [])])
              (FieldWrapper.mk Examples.color "" 1 None false None)
              (VStr "PURPLE"))
    as (d & choices & Hd & Hchoices & _ & Hraise).
  - right. left.
  - reflexivity.
  - reflexivity.
  - reflexivity.
  - apply Hraise.
    vm_compute in Hd. injection Hd as <-.
    vm_compute in Hchoices. injection Hchoices as <-.
    intros Hin. repeat (apply elem_of_cons in Hin as [Hin|Hin]; [discriminate|]).
    by apply elem_of_nil in Hin.
Defined.

Lemma call_getattr_unassigned dc kwargs instance f :
  Dataclass.valid dc →
  Dataclass.call dc kwargs = Ok instance →
  f ∈ Dataclass.fields dc →
  assigned f = false →
  getattr instance (Field.name f) = None.
Proof.
  intros Hvalid. rewrite call_loop. case_bool_decide; [|done].
  destruct (for_each _ _ _) as [attributes|e] eqn:Hloop; [|done].
  cbn [mbind result_bind]. intros [= <-] Hf Ha. simpl.
  rewrite (keyed_loop_other _ _ _ _ _ _ _ Hloop); [done|].
  intros a Hin Hassigned Hkey.
  assert (a = f) as -> by by eapply (NoDup_fmap_elem_eq Field.name).
  congruence.
Qed.

(** X23. A field that does not participate in construction never takes its
    value from the argument dict: on the instance it holds its declared
    default (the factory's product when the default is a factory), or
    nothing when it has no default, whatever the dict holds under its
    name. *)
Theorem non_init_fields_keep_default
    (self : DataclassWrapper.t) (args_dict : dict) (w : FieldWrapper.t) :
  well_formed self →
  Dataclass.valid (DataclassWrapper.dataclass self) →
  w ∈ DataclassWrapper.fields self →
  Field.init (FieldWrapper.field w) = false →
  ∀ instance, DataclassWrapper.instantiate_dataclass self args_dict = Ok instance →
    getattr instance (Field.name (FieldWrapper.field w))
    = Dataclass.default_of (FieldWrapper.field w).
Proof.
  intros Hwf Hvalid Hin Hinit instance. rewrite instantiate_loop.
  destruct (for_each _ _ _) as [constructor_args|e]; [|done].
  cbn [mbind result_bind]. intros Hcall.
  pose proof (wrapped_field_declared self Hwf w Hin) as Hf.
  destruct (Dataclass.default_of (FieldWrapper.field w)) as [x|] eqn:Hx.
  - apply (call_getattr _ _ _ _ x Hvalid Hcall Hf).
    + unfold assigned. by rewrite Hx, Hinit.
    + unfold attribute_of. by rewrite Hinit, Hx.
  - apply (call_getattr_unassigned _ _ _ _ Hvalid Hcall Hf).
    unfold assigned. by rewrite Hx, Hinit.
Qed.

Lemma non_init_fields_keep_default_witness :
  ∃ instance,
    DataclassWrapper.instantiate_dataclass (Examples.single Examples.Palette "")
      {[ "color" := VStr "BLUE" ]} = Ok instance
    ∧ getattr instance "color" = Some (VEnum Examples.Color "GREEN").
Proof.
  eexists. split; [reflexivity|].
  apply (non_init_fields_keep_default (Examples.single Examples.Palette "")
           {[ "color" := VStr "BLUE" ]}
           (FieldWrapper.mk Examples.derived_color "" 0 None false None)).
  - reflexivity.
  - apply (bool_decide_unpack _). vm_compute. reflexivity.
  - left.
  - reflexivity.
  - reflexivity.
Defined.
